(** * AfC statistics task (bot/tasks/afc_statistics.py): a shallow embedding

    The task keeps a two-table MySQL mirror ([page], [row]) of the
    Articles-for-creation queue in step with the wiki and renders it as chart
    markup.  The embedding follows the Python text method by method.

    Conventions.
    - A table is the list of its rows, in the order the store returns them.
    - An SQL statement is read for its relational content: a SELECT is a
      filter (and a nested-loop join), DELETE/UPDATE/INSERT rewrite the
      lists.  A bound parameter is a value: in [untrack_page] the markers
      [? = ?] bound to [("page_id", pageid)] or [("page_title", title)]
      compare the string ['page_id'] or ['page_title'] with the other
      value, and no column is read.
    - Everything that happens on the Python side of a statement is kept as
      written: subscripts that raise [IndexError], unbound names, truth tests
      ([if x:]), the order of statements, missing [return]s.
    - A loop [for row in cursor] takes its rows from the cursor: once the
      loop body has executed a statement on that cursor, the result set of
      the SELECT is gone and the loop ends.  A row is a tuple, also when it
      has one column; a tuple handed on as a query parameter is refused by
      the driver ([InterfaceError]).
    - The calls of the wiki client ([page.get()], [page.pageid()], ...)
      return; only the replica queries and the store are sources of
      exceptions.
    - A timestamp is an instant, counted in seconds; [datetime.strptime],
      [strftime] and the server's [NOW()] belong to the task's environment.
    - A Python exception leaves the writes already executed in place, so a
      computation returns its outcome together with the cursor state.
    - [save] returns what it does to the wiki: no edit, or the one call of
      [page.edit] with its arguments.  Its two [re.sub] calls are modelled
      for the patterns they use, a lazy star between two literals; a
      backslash in the compiled statistics would be read by [re] as an escape
      of the replacement template, and that case has an outcome of its own.
    - The [time] command (earwigbot/commands/time.py) returns the list of
      its replies.  [pytz] and the clock belong to its environment; the
      floating-point arithmetic behind the beat count is not modelled, the
      count is taken as an integer. *)

From Stdlib Require Import ZArith List String Ascii Bool Lia DecimalString.
Import ListNotations.
Local Open Scope string_scope.
Local Open Scope Z_scope.

Set Implicit Arguments.

(** ** Python values *)

Module Py.

(** [bool(x)] for a string, an optional string and a tuple. *)
Definition truthy_str (s : string) : bool :=
  match s with EmptyString => false | _ => true end.

Definition truthy_opt (o : option string) : bool :=
  match o with None => false | Some s => truthy_str s end.

Definition truthy_int (n : Z) : bool := negb (n =? 0).

Definition truthy_tuple {A} (t : list A) : bool :=
  match t with [] => false | _ => true end.

(** [str(n)] *)
Definition str_int (n : Z) : string := NilZero.string_of_int (Z.to_int n).

(** what [str.format] prints for a nullable field *)
Definition str_opt {A} (f : A -> string) (o : option A) : string :=
  match o with None => "None" | Some a => f a end.

Definition eqb_opt {A} (eqb : A -> A -> bool) (x y : option A) : bool :=
  match x, y with
  | None, None => true
  | Some a, Some b => eqb a b
  | _, _ => false
  end.

(** [x in xs] for a list of strings *)
Definition mem (x : string) (xs : list string) : bool :=
  existsb (String.eqb x) xs.

(** [s[:-1]] *)
Fixpoint drop_last (s : string) : string :=
  match s with
  | EmptyString => EmptyString
  | String c EmptyString => EmptyString
  | String c s' => String c (drop_last s')
  end.

Definition len (s : string) : Z := Z.of_nat (String.length s).

Definition newline : string := String (ascii_of_nat 10) EmptyString.

End Py.

(** ** Regular expressions, as far as the task's patterns need them *)

Module Re.

Inductive regex : Type :=
| Void
| Eps
| Sym (p : ascii -> bool)
| Seq (r s : regex)
| Alt (r s : regex)
| Star (r : regex).

Fixpoint nullable (r : regex) : bool :=
  match r with
  | Void => false
  | Eps => true
  | Sym _ => false
  | Seq r s => nullable r && nullable s
  | Alt r s => nullable r || nullable s
  | Star _ => true
  end.

Definition is_void (r : regex) : bool :=
  match r with Void => true | _ => false end.

Definition seq (r s : regex) : regex :=
  if is_void r || is_void s then Void else Seq r s.

Definition alt (r s : regex) : regex :=
  if is_void r then s else if is_void s then r else Alt r s.

Fixpoint deriv (c : ascii) (r : regex) : regex :=
  match r with
  | Void => Void
  | Eps => Void
  | Sym p => if p c then Eps else Void
  | Seq r s =>
      if nullable r then alt (seq (deriv c r) s) (deriv c s)
      else seq (deriv c r) s
  | Alt r s => alt (deriv c r) (deriv c s)
  | Star r => seq (deriv c r) (Star r)
  end.

(** [re.match]: does some prefix of [s] match? *)
Fixpoint match_prefix (r : regex) (s : string) : bool :=
  nullable r ||
  match s with
  | EmptyString => false
  | String c s' => match_prefix (deriv c r) s'
  end.

(** [re.search(r, s)] as a truth value: try every start position. *)
Fixpoint search (r : regex) (s : string) : bool :=
  match_prefix r s ||
  match s with
  | EmptyString => false
  | String _ s' => search r s'
  end.

(** Length of the longest prefix of [s] that matches. *)
Fixpoint longest_prefix (r : regex) (s : string) : option nat :=
  match s with
  | EmptyString => if nullable r then Some O else None
  | String c s' =>
      match longest_prefix (deriv c r) s' with
      | Some n => Some (S n)
      | None => if nullable r then Some O else None
      end
  end.

(** [re.sub(r, "", s)] for a pattern that matches no empty string and has
    at most one match at a position, which holds for the one pattern the
    task substitutes.  [skip] counts the characters of a match still to
    drop. *)
Fixpoint sub_empty_from (r : regex) (skip : nat) (s : string) : string :=
  match s with
  | EmptyString => EmptyString
  | String c s' =>
      match skip with
      | S k => sub_empty_from r k s'
      | O =>
          match longest_prefix r s with
          | Some (S n) => sub_empty_from r n s'
          | _ => String c (sub_empty_from r O s')
          end
      end
  end.

Definition sub_empty (r : regex) (s : string) : string := sub_empty_from r O s.

(** Pattern atoms. *)
Definition lower (c : ascii) : ascii :=
  let n := nat_of_ascii c in
  if (Nat.leb 65 n && Nat.leb n 90)%bool then ascii_of_nat (n + 32) else c.

Definition chr (x : ascii) : regex := Sym (Ascii.eqb x).
(** a literal character under [re.I] *)
Definition chr_i (x : ascii) : regex := Sym (fun c => Ascii.eqb (lower c) (lower x)).
(** [.] without [re.DOTALL] *)
Definition dot : regex := Sym (fun c => negb (Ascii.eqb c (ascii_of_nat 10))).
(** [\s] on byte strings: space, \t, \n, \v, \f, \r *)
Definition space : regex :=
  Sym (fun c => let n := nat_of_ascii c in
                (Nat.eqb n 32 || (Nat.leb 9 n && Nat.leb n 13))%bool).

Fixpoint lit (s : string) : regex :=
  match s with
  | EmptyString => Eps
  | String c s' => Seq (chr c) (lit s')
  end.

Fixpoint lit_i (s : string) : regex :=
  match s with
  | EmptyString => Eps
  | String c s' => Seq (chr_i c) (lit_i s')
  end.

Definition opt (r : regex) : regex := Alt r Eps.

(** The strings a pattern denotes. *)
Inductive matches : regex -> string -> Prop :=
| m_eps : matches Eps EmptyString
| m_sym (p : ascii -> bool) (c : ascii) :
    p c = true -> matches (Sym p) (String c EmptyString)
| m_seq (r s : regex) (x y : string) :
    matches r x -> matches s y -> matches (Seq r s) (x ++ y)%string
| m_alt_l (r s : regex) (x : string) : matches r x -> matches (Alt r s) x
| m_alt_r (r s : regex) (x : string) : matches s x -> matches (Alt r s) x
| m_star_nil (r : regex) : matches (Star r) EmptyString
| m_star_cons (r : regex) (x y : string) :
    matches r x -> matches (Star r) y -> matches (Star r) (x ++ y)%string.

End Re.

(** ** The wiki client, as the task sees it *)

Record WikiPage : Type := {
  wp_get : string;              (* page.get() *)
  wp_is_redirect : bool;        (* page.is_redirect() *)
  wp_redirect_target : string;  (* page.get_redirect_target() *)
  wp_namespace : Z;             (* page.namespace() *)
  wp_pageid : Z;                (* page.pageid() *)
  wp_title : string             (* page.title() *)
}.

(** ** Status classifier *)

(** [\{\{afc submission\|<tag>\|(.*?)\}\}] with [re.I] *)
Definition marker (tag : string) : Re.regex :=
  Re.Seq (Re.lit_i ("{{afc submission|" ++ tag ++ "|"))
         (Re.Seq (Re.Star Re.dot) (Re.lit_i "}}")).

(* afc_statistics.py, lines 298-315 *)
Definition get_status_and_chart (get_page : string -> WikiPage) (page : WikiPage)
  : option string * Z :=
  let content := wp_get page in
  if wp_is_redirect page then
    let target := wp_redirect_target page in
    if wp_namespace (get_page target) =? 0 then (Some "accept", 4)
    else (None, 0)
  else if Re.search (marker "r") content then (Some "review", 3)
  else if Re.search (marker "h") content then (Some "pend", 2)
  else if Re.search (marker "") content then (Some "pend", 1)
  else if Re.search (marker "t") content then (None, 0)
  else if Re.search (marker "d") content then (Some "decline", 5)
  else (None, 0).

(** [re.sub("Wikipedia(\s*talk)?\:Articles\sfor\screation\/", "", title)] *)
Definition short_title_prefix : Re.regex :=
  Re.Seq (Re.lit "Wikipedia")
    (Re.Seq (Re.opt (Re.Seq (Re.Star Re.space) (Re.lit "talk")))
      (Re.Seq (Re.lit ":Articles")
        (Re.Seq Re.space
          (Re.Seq (Re.lit "for")
            (Re.Seq Re.space (Re.lit "creation/")))))).

(* afc_statistics.py, lines 317-318 *)
Definition get_short_title (title : string) : string :=
  Re.sub_empty short_title_prefix title.

(** ** The store: tables [page], [row] and the chart catalog *)

Record PageRow : Type := {
  page_id : Z;
  page_status : option string;
  page_title : string;
  page_short : string;
  page_size : Z;
  page_notes : option string;
  page_create_user : string;
  page_create_time : Z;
  page_create_oldid : Z;
  page_modify_user : string;
  page_modify_time : Z;
  page_modify_oldid : Z;
  page_special_user : option string;
  page_special_time : option Z;
  page_special_oldid : option Z
}.

Record RowRow : Type := { row_id : Z; row_chart : Z }.

Record ChartRow : Type := {
  chart_id : Z;
  chart_title : string;
  chart_special_title : option string
}.

Record Store : Type := {
  tbl_page : list PageRow;
  tbl_row : list RowRow;
  tbl_chart : list ChartRow
}.

(** Column assignments of the UPDATE statements. *)
Definition set_title (title short : string) (p : PageRow) : PageRow :=
  {| page_id := page_id p; page_status := page_status p;
     page_title := title; page_short := short;
     page_size := page_size p; page_notes := page_notes p;
     page_create_user := page_create_user p;
     page_create_time := page_create_time p;
     page_create_oldid := page_create_oldid p;
     page_modify_user := page_modify_user p;
     page_modify_time := page_modify_time p;
     page_modify_oldid := page_modify_oldid p;
     page_special_user := page_special_user p;
     page_special_time := page_special_time p;
     page_special_oldid := page_special_oldid p |}.

Definition set_modify (size : Z) (user : string) (time oldid : Z) (p : PageRow)
  : PageRow :=
  {| page_id := page_id p; page_status := page_status p;
     page_title := page_title p; page_short := page_short p;
     page_size := size; page_notes := page_notes p;
     page_create_user := page_create_user p;
     page_create_time := page_create_time p;
     page_create_oldid := page_create_oldid p;
     page_modify_user := user;
     page_modify_time := time;
     page_modify_oldid := oldid;
     page_special_user := page_special_user p;
     page_special_time := page_special_time p;
     page_special_oldid := page_special_oldid p |}.

Definition set_status (status : option string) (p : PageRow) : PageRow :=
  {| page_id := page_id p; page_status := status;
     page_title := page_title p; page_short := page_short p;
     page_size := page_size p; page_notes := page_notes p;
     page_create_user := page_create_user p;
     page_create_time := page_create_time p;
     page_create_oldid := page_create_oldid p;
     page_modify_user := page_modify_user p;
     page_modify_time := page_modify_time p;
     page_modify_oldid := page_modify_oldid p;
     page_special_user := page_special_user p;
     page_special_time := page_special_time p;
     page_special_oldid := page_special_oldid p |}.

Definition set_special (user : option string) (time oldid : option Z)
  (p : PageRow) : PageRow :=
  {| page_id := page_id p; page_status := page_status p;
     page_title := page_title p; page_short := page_short p;
     page_size := page_size p; page_notes := page_notes p;
     page_create_user := page_create_user p;
     page_create_time := page_create_time p;
     page_create_oldid := page_create_oldid p;
     page_modify_user := page_modify_user p;
     page_modify_time := page_modify_time p;
     page_modify_oldid := page_modify_oldid p;
     page_special_user := user;
     page_special_time := time;
     page_special_oldid := oldid |}.

Definition set_notes (notes : option string) (p : PageRow) : PageRow :=
  {| page_id := page_id p; page_status := page_status p;
     page_title := page_title p; page_short := page_short p;
     page_size := page_size p; page_notes := notes;
     page_create_user := page_create_user p;
     page_create_time := page_create_time p;
     page_create_oldid := page_create_oldid p;
     page_modify_user := page_modify_user p;
     page_modify_time := page_modify_time p;
     page_modify_oldid := page_modify_oldid p;
     page_special_user := page_special_user p;
     page_special_time := page_special_time p;
     page_special_oldid := page_special_oldid p |}.

Definition set_move (title : string) (oldid : Z) (p : PageRow) : PageRow :=
  {| page_id := page_id p; page_status := page_status p;
     page_title := title; page_short := page_short p;
     page_size := page_size p; page_notes := page_notes p;
     page_create_user := page_create_user p;
     page_create_time := page_create_time p;
     page_create_oldid := page_create_oldid p;
     page_modify_user := page_modify_user p;
     page_modify_time := page_modify_time p;
     page_modify_oldid := oldid;
     page_special_user := page_special_user p;
     page_special_time := page_special_time p;
     page_special_oldid := page_special_oldid p |}.

Definition set_chart (chart : Z) (r : RowRow) : RowRow :=
  {| row_id := row_id r; row_chart := chart |}.

(** The statements the task writes with [cursor.execute]. *)
Inductive Stmt : Type :=
| DeleteWhereId (pageid : Z)
    (* DELETE FROM page JOIN row ON page_id = row_id WHERE ? = ?
       with the parameters ("page_id", pageid) *)
| DeleteWhereTitle (title : string)
    (* DELETE FROM page JOIN row ON page_id = row_id WHERE ? = ?
       with the parameters ("page_title", title) *)
| DeleteOld
    (* DELETE FROM page, row USING page JOIN row ON page_id = row_id
       WHERE row_chart IN (4, 5)
       AND ADDTIME(page_special_time, '36:00:00') < NOW() *)
| InsertRow (pageid chart : Z)
    (* INSERT INTO row VALUES (?, ?) *)
| InsertPage (p : PageRow)
    (* INSERT INTO page VALUES (?, ..., ?) *)
| UpdateTitle (title short : string) (pageid : Z)
    (* UPDATE page SET page_title = ?, page_short = ? WHERE page_id = ? *)
| UpdateModify (size : Z) (user : string) (time oldid : Z) (pageid : Z)
    (* UPDATE page SET page_size = ?, page_modify_user = ?,
       page_modify_time = ?, page_modify_oldid = ? WHERE page_id = ? *)
| UpdateStatus (status : option string) (chart : Z) (pageid : Z)
    (* UPDATE page JOIN row ON page_id = row_id
       SET page_status = ?, row_chart = ? WHERE page_id = ? *)
| UpdateSpecial (user : option string) (time oldid : option Z) (pageid : Z)
    (* UPDATE page SET page_special_user = ?, page_special_time = ?,
       page_special_oldid = ? WHERE page_id = ? *)
| UpdateNotes (notes : option string) (pageid : Z)
    (* UPDATE page SET page_notes = ? WHERE page_id = ? *)
| UpdateMove (dest : string) (oldid : Z) (source : string).
    (* UPDATE page SET page_title = ?, page_modify_oldid = ?
       WHERE page_title = ? *)

(** [page JOIN row ON page_id = row_id], page rows outermost. *)
Definition join (st : Store) : list (PageRow * RowRow) :=
  flat_map (fun p =>
    map (pair p) (filter (fun r => page_id p =? row_id r) (tbl_row st)))
    (tbl_page st).

(** Multi-table DELETE over the join: a row of either table goes when it
    takes part in a joined pair that satisfies the WHERE clause. *)
Definition delete_join (cond : PageRow -> RowRow -> bool) (st : Store) : Store :=
  {| tbl_page :=
       filter (fun p => negb (existsb (fun r =>
                 (page_id p =? row_id r) && cond p r) (tbl_row st)))
              (tbl_page st);
     tbl_row :=
       filter (fun r => negb (existsb (fun p =>
                 (page_id p =? row_id r) && cond p r) (tbl_page st)))
              (tbl_row st);
     tbl_chart := tbl_chart st |}.

Definition update_page_where (cond : PageRow -> bool) (f : PageRow -> PageRow)
  (st : Store) : Store :=
  {| tbl_page := map (fun p => if cond p then f p else p) (tbl_page st);
     tbl_row := tbl_row st;
     tbl_chart := tbl_chart st |}.

Definition has_row (st : Store) (p : PageRow) : bool :=
  existsb (fun r => page_id p =? row_id r) (tbl_row st).

Definition has_page (st : Store) (r : RowRow) (pageid : Z) : bool :=
  existsb (fun p => (page_id p =? row_id r) && (page_id p =? pageid))
          (tbl_page st).

(** [ADDTIME(page_special_time, '36:00:00') < NOW()]; a NULL time compares
    as unknown, which a WHERE clause treats as false. *)
Definition retention : Z := 36 * 3600.

Definition expired (now : Z) (p : PageRow) : bool :=
  match page_special_time p with
  | Some t => t + retention <? now
  | None => false
  end.

Definition terminal_chart (c : Z) : bool := (c =? 4) || (c =? 5).

(** [WHERE ? = ?] with the parameters [("page_id", pageid)]: the string
    ['page_id'] against a number.  Against a number a string counts as the
    number it starts with, and as 0 when it starts with none. *)
Definition param_eq_id (pageid : Z) : bool := 0 =? pageid.

(** [WHERE ? = ?] with the parameters [("page_title", title)]: the string
    ['page_title'] against the title. *)
Definition param_eq_title (title : string) : bool := String.eqb "page_title" title.

Definition exec (now : Z) (q : Stmt) (st : Store) : Store :=
  match q with
  | DeleteWhereId pageid =>
      delete_join (fun _ _ => param_eq_id pageid) st
  | DeleteWhereTitle title =>
      delete_join (fun _ _ => param_eq_title title) st
  | DeleteOld =>
      delete_join (fun p r => terminal_chart (row_chart r) && expired now p) st
  | InsertRow pageid chart =>
      {| tbl_page := tbl_page st;
         tbl_row := (tbl_row st ++ [ {| row_id := pageid; row_chart := chart |} ])%list;
         tbl_chart := tbl_chart st |}
  | InsertPage p =>
      {| tbl_page := (tbl_page st ++ [p])%list;
         tbl_row := tbl_row st;
         tbl_chart := tbl_chart st |}
  | UpdateTitle title short pageid =>
      update_page_where (fun p => page_id p =? pageid) (set_title title short) st
  | UpdateModify size user time oldid pageid =>
      update_page_where (fun p => page_id p =? pageid)
        (set_modify size user time oldid) st
  | UpdateStatus status chart pageid =>
      {| tbl_page :=
           map (fun p => if (page_id p =? pageid) && has_row st p
                         then set_status status p else p) (tbl_page st);
         tbl_row :=
           map (fun r => if has_page st r pageid then set_chart chart r else r)
               (tbl_row st);
         tbl_chart := tbl_chart st |}
  | UpdateSpecial user time oldid pageid =>
      update_page_where (fun p => page_id p =? pageid)
        (set_special user time oldid) st
  | UpdateNotes notes pageid =>
      update_page_where (fun p => page_id p =? pageid) (set_notes notes) st
  | UpdateMove dest oldid source =>
      update_page_where (fun p => String.eqb (page_title p) source)
        (set_move dest oldid) st
  end.

(** ** The wiki replica and the task object *)

Record RepPage : Type := {
  rp_page_id : Z;
  rp_page_title : string;
  rp_page_latest : Z
}.

Record RepRev : Type := {
  rev_id : Z;
  rev_user_text : string;
  rev_timestamp : string;
  rev_page : Z
}.

Record Site : Type := {
  get_page : string -> WikiPage;                  (* site.get_page(title) *)
  rep_page : list RepPage;                        (* replica table page *)
  rep_revision : list RepRev;                     (* replica table revision *)
  category_members : string -> Z -> list string   (* get_category(c).members(limit) *)
}.

(** [self]: the attributes set in [__init__], with the two datetime
    conversions of the standard library and the clock of the database
    server, which the task takes from its environment. *)
Record Task : Type := {
  site : Site;
  pending_cat : string;
  ignore_list : list string;
  tl_header : string;
  tl_row : string;
  tl_footer : string;
  strptime : string -> option Z;   (* datetime.strptime(s, "%Y%m%d%H%M%S") *)
  strftime : Z -> string;          (* t.strftime("%H:%M, %d %B %Y") *)
  sql_now : Z                      (* NOW() *)
}.

(** ** Outcomes and the cursor monad *)

Inductive exn : Type :=
| IndexError | NameError | AttributeError | ValueError | InterfaceError.

Inductive Res (A : Type) : Type :=
| Ok (a : A)
| Raise (e : exn).
Arguments Ok {A} a.
Arguments Raise {A} e.

(** The cursor: the store it writes to and the statements written so far. *)
Record Cursor : Type := { db : Store; log : list Stmt }.

Definition M (A : Type) : Type := Cursor -> Res A * Cursor.

Definition ret {A} (a : A) : M A := fun c => (Ok a, c).

Definition bind {A B} (m : M A) (k : A -> M B) : M B :=
  fun c =>
    match m c with
    | (Ok a, c') => k a c'
    | (Raise e, c') => (Raise e, c')
    end.

Definition raise {A} (e : exn) : M A := fun c => (Raise e, c).

Definition lift {A} (r : Res A) : M A := fun c => (r, c).

(** A SELECT on the store. *)
Definition select {A} (q : Store -> A) : M A := fun c => (Ok (q (db c)), c).

(** [cursor.execute(query, params)] for a writing statement. *)
Definition execute (self : Task) (q : Stmt) : M unit :=
  fun c => (Ok tt, {| db := exec (sql_now self) q (db c);
                      log := (log c ++ [q])%list |}).

Declare Scope cursor_scope.
Delimit Scope cursor_scope with cursor.
Notation "x <- m ;; k" := (bind m (fun x => k))
  (at level 61, m at next level, right associativity) : cursor_scope.
Notation "' pat <- m ;; k" := (bind m (fun x => match x with pat => k end))
  (at level 61, pat pattern, m at next level, right associativity) : cursor_scope.
Notation "m ;; k" := (bind m (fun _ => k))
  (at level 61, right associativity) : cursor_scope.
Local Open Scope cursor_scope.

(** [for x in xs: body(x)] *)
Fixpoint for_each {A} (xs : list A) (body : A -> M unit) : M unit :=
  match xs with
  | [] => ret tt
  | x :: xs' => body x ;; for_each xs' body
  end.

(** [if cond: body] *)
Definition when (cond : bool) (body : M unit) : M unit :=
  if cond then body else ret tt.

(** [for row in cursor: body(row)], for a body that may execute on the
    cursor it is iterating: the rows are those of the SELECT executed before
    the loop, and the loop ends after the first round in which the body has
    sent a statement, the next fetch finding no result set. *)
Fixpoint for_cursor {A} (rows : list A) (body : A -> M unit) : M unit :=
  match rows with
  | [] => ret tt
  | row :: rest =>
      fun c =>
        match body row c with
        | (Ok _, c') =>
            if Nat.eqb (List.length (log c')) (List.length (log c))
            then for_cursor rest body c'
            else (Ok tt, c')
        | (Raise e, c') => (Raise e, c')
        end
  end.

(** ** Queries on the replica ([self.site.sql_query]) *)

(** SELECT page_id FROM page WHERE page_id = ? *)
Definition q_page_id_by_id (s : Site) (pageid : Z) : list Z :=
  map rp_page_id (filter (fun p => rp_page_id p =? pageid) (rep_page s)).

(** SELECT page_id FROM page WHERE page_title = ? *)
Definition q_page_id_by_title (s : Site) (title : string) : list Z :=
  map rp_page_id (filter (fun p => String.eqb (rp_page_title p) title) (rep_page s)).

(** SELECT page_latest FROM page WHERE page_id = ? *)
Definition q_latest_by_id (s : Site) (pageid : Z) : list Z :=
  map rp_page_latest (filter (fun p => rp_page_id p =? pageid) (rep_page s)).

(** SELECT page_latest FROM page WHERE page_title = ? *)
Definition q_latest_by_title (s : Site) (title : string) : list Z :=
  map rp_page_latest
      (filter (fun p => String.eqb (rp_page_title p) title) (rep_page s)).

(** SELECT rev_user_text, rev_timestamp, rev_id FROM revision WHERE rev_id = ? *)
Definition q_rev_by_id (s : Site) (revid : Z) : list (string * string * Z) :=
  map (fun r => (rev_user_text r, rev_timestamp r, rev_id r))
      (filter (fun r => rev_id r =? revid) (rep_revision s)).

(** SELECT rev_user_text, rev_timestamp, rev_id FROM revision
    JOIN page ON rev_id = page_latest WHERE page_id = ? *)
Definition q_latest_rev (s : Site) (pageid : Z) : list (string * string * Z) :=
  flat_map (fun r =>
    map (fun _ => (rev_user_text r, rev_timestamp r, rev_id r))
        (filter (fun p => (rev_id r =? rp_page_latest p) && (rp_page_id p =? pageid))
                (rep_page s)))
    (rep_revision s).

(** ** Queries on the store *)

(** SELECT page_id FROM page *)
Definition q_ids (st : Store) : list Z := map page_id (tbl_page st).

(** SELECT page_id, page_title, page_modify_oldid FROM page *)
Definition q_oldids (st : Store) : list (Z * string * Z) :=
  map (fun p => (page_id p, page_title p, page_modify_oldid p)) (tbl_page st).

(** SELECT page_title FROM page JOIN row ON page_id = row_id
    WHERE row_chart IN (1, 2, 3) *)
Definition q_pending_titles (st : Store) : list string :=
  map (fun pr => page_title (fst pr))
      (filter (fun pr => let c := row_chart (snd pr) in
                         (c =? 1) || (c =? 2) || (c =? 3)) (join st)).

(** SELECT * FROM page WHERE page_title = ? *)
Definition q_by_title (title : string) (st : Store) : list PageRow :=
  filter (fun p => String.eqb (page_title p) title) (tbl_page st).

(** SELECT * FROM page JOIN row ON page_id = row_id WHERE page_id = ? *)
Definition q_join_by_id (pageid : Z) (st : Store) : list (PageRow * RowRow) :=
  filter (fun pr => page_id (fst pr) =? pageid) (join st).

(** SELECT * FROM page JOIN row ON page_id = row_id WHERE row_chart = ? *)
Definition q_join_by_chart (chart : Z) (st : Store) : list (PageRow * RowRow) :=
  filter (fun pr => row_chart (snd pr) =? chart) (join st).

(** ** Revision lookup *)

(** [query1] is assigned twice, so the statement executed is the second one, with
    the page id as its parameter; [query2] is never bound, and reading it
    raises [NameError] as soon as the first subscript has gone through. *)
(* afc_statistics.py, lines 320-327 *)
Definition get_create (self : Task) (pageid : Z) : Res (string * Z * Z) :=
  let result1 := q_rev_by_id (site self) pageid in
  match result1 with
  | [] => Raise IndexError
  | row0 :: _ =>
      let rev_id := fst (fst row0) in
      Raise NameError
  end.

(* afc_statistics.py, lines 329-334 *)
Definition get_modify (self : Task) (pageid : Z) : Res (string * Z * Z) :=
  let result := q_latest_rev (site self) pageid in
  match result with
  | [] => Raise IndexError
  | (m_user, m_time, m_id) :: _ =>
      match strptime self m_time with
      | Some t => Ok (m_user, t, m_id)
      | None => Raise ValueError
      end
  end.

(* afc_statistics.py, lines 336-337 *)
Definition get_special (page : WikiPage) (status : option string)
  : option string * option Z * option Z := (None, None, None).

(* afc_statistics.py, lines 339-340 *)
Definition get_notes (page : WikiPage) : option string := None.

(** ** Sync engine *)

(* afc_statistics.py, lines 224-229 *)
Definition untrack_page (self : Task) (pageid : option Z) (title : option string)
  : M unit :=
  let by_title :=                                   (* elif title: *)
    match title with
    | Some t => when (Py.truthy_str t) (execute self (DeleteWhereTitle t))
    | None => ret tt
    end in
  match pageid with                                 (* if pageid: *)
  | Some i => if Py.truthy_int i then execute self (DeleteWhereId i) else by_title
  | None => by_title
  end.

Definition status_in (status : option string) (xs : list string) : bool :=
  match status with
  | Some s => Py.mem s xs
  | None => false
  end.

(** Update hook for when page is not in our database. *)
(* afc_statistics.py, lines 231-252 *)
Definition track_page (self : Task) (title : string) : M unit :=
  let page := get_page (site self) title in
  let '(status, chart) := get_status_and_chart (get_page (site self)) page in
  if negb (Py.truthy_opt status) || status_in status ["accept"; "decline"]
  then ret tt
  else
    let pageid := wp_pageid page in
    let title := wp_title page in
    let short := get_short_title title in
    let size := Py.len (wp_get page) in
    let notes := get_notes page in
    ' (c_user, c_time, c_id) <- lift (get_create self pageid) ;;
    ' (m_user, m_time, m_id) <- lift (get_modify self pageid) ;;
    let '(s_user, s_time, s_id) := get_special page status in
    execute self (InsertRow pageid chart) ;;
    execute self (InsertPage
      {| page_id := pageid; page_status := status; page_title := title;
         page_short := short; page_size := size; page_notes := notes;
         page_create_user := c_user; page_create_time := c_time;
         page_create_oldid := c_id;
         page_modify_user := m_user; page_modify_time := m_time;
         page_modify_oldid := m_id;
         page_special_user := s_user; page_special_time := s_time;
         page_special_oldid := s_id |}).

(** [dict_cursor.fetchall()[0]] *)
Definition first_row {A} (rows : list A) : M A :=
  match rows with
  | [] => raise IndexError
  | r :: _ => ret r
  end.

(** Update hook for when page is in our database.  The branch that untracks
    has no [return]: control goes on to the lookups and the diff. *)
(* afc_statistics.py, lines 254-296 *)
Definition update_page (self : Task) (title : string) : M unit :=
  let page := get_page (site self) title in
  let '(status, chart) := get_status_and_chart (get_page (site self)) page in
  when (negb (Py.truthy_opt status)) (untrack_page self None (Some title)) ;;
  let pageid := wp_pageid page in
  let title := wp_title page in
  let size := Py.len (wp_get page) in
  let notes := get_notes page in
  ' (m_user, m_time, m_id) <- lift (get_modify self pageid) ;;
  rows <- select (q_join_by_id pageid) ;;
  result <- first_row (map fst rows) ;;
  when (negb (String.eqb title (page_title result)))
       (let short := get_short_title title in
        execute self (UpdateTitle title short pageid)) ;;
  when (negb (m_id =? page_modify_oldid result))
       (execute self (UpdateModify size m_user m_time m_id pageid)) ;;
  when (negb (Py.eqb_opt String.eqb status (page_status result)))
       (execute self (UpdateStatus status chart pageid) ;;
        let '(s_user, s_time, s_id) := get_special page status in
        when (negb (Py.eqb_opt Z.eqb s_id (page_special_oldid result)))
             (execute self (UpdateSpecial s_user s_time s_id pageid))) ;;
  when (negb (Py.eqb_opt String.eqb notes (page_notes result)))
       (execute self (UpdateNotes notes pageid)).

(* afc_statistics.py, lines 215-222 *)
Definition sync_page (self : Task) (page : string) : M unit :=
  result <- select (q_by_title page) ;;
  if Py.truthy_tuple result then update_page self page
  else track_page self page.

(* afc_statistics.py, lines 183-187 *)
Definition process_edit (self : Task) (page : string) : M unit :=
  if Py.mem page (ignore_list self) then ret tt
  else sync_page self page.

(** [result] is the list of rows, so [result[11]] asks for a twelfth row; it
    is a whole row when there is one, which no integer column takes. *)
(* afc_statistics.py, lines 189-204 *)
Definition process_move (self : Task) (page : string * string) : M unit :=
  let '(source, dest) := page in
  result <- select (q_by_title source) ;;
  if negb (Py.truthy_tuple result) then track_page self dest
  else
    new_oldid <-
      match q_latest_by_title (site self) dest with
      | latest :: _ => ret latest
      | [] =>
          match nth_error result 11 with
          | None => raise IndexError
          | Some _ => raise InterfaceError
          end
      end ;;
    execute self (UpdateMove dest new_oldid source).

(** [list(result)[0]] is a row, a one-element tuple, which is always true. *)
(* afc_statistics.py, lines 206-213 *)
Definition process_delete (self : Task) (page : string) : M unit :=
  let result := q_page_id_by_title (site self) page in
  match result with
  | [] => raise IndexError
  | page_id0 :: _ =>
      if Py.truthy_tuple [page_id0] then sync_page self page
      else untrack_page self None (Some page)
  end.

(** *** The four passes of the sweep *)

(** A value handed to a query as its parameter: a number, or a row tuple,
    which the driver refuses. *)
Inductive Param : Type :=
| PInt (n : Z)
| PRow (row : list Z).

(** [self.site.sql_query("SELECT page_id FROM page WHERE page_id = ?", (x,))] *)
Definition sql_query_page_id (s : Site) (x : Param) : Res (list Z) :=
  match x with
  | PInt n => Ok (q_page_id_by_id s n)
  | PRow _ => Raise InterfaceError
  end.

(** The loop variable [page] is the row, the tuple [(page_id,)], and it is
    the tuple that goes into the replica query as its parameter and into
    [untrack_page] as [pageid], where it counts as true and would be bound
    to the DELETE. *)
(* afc_statistics.py, lines 141-148 *)
Definition sync_deleted (self : Task) : M unit :=
  pages <- select q_ids ;;
  for_cursor pages (fun page_id =>
    let page := [page_id] in                         (* the row *)
    result <- lift (sql_query_page_id (site self) (PRow page)) ;;
    match result with
    | [] => raise IndexError
    | page_id0 :: _ =>
        when (negb (Py.truthy_tuple [page_id0]))
             (when (Py.truthy_tuple page)    (* untrack_page(cursor, pageid=page) *)
                   (raise InterfaceError))
    end).

(* afc_statistics.py, lines 150-162 *)
Definition sync_oldids (self : Task) : M unit :=
  pages <- select q_oldids ;;
  for_cursor pages (fun '(page_id, title, oldid) =>
    let result := q_latest_by_id (site self) page_id in
    match result with
    | [] => untrack_page self (Some page_id) None   (* except IndexError *)
    | real_oldid :: _ =>
        when (negb (real_oldid =? oldid)) (update_page self title)
    end).

(* afc_statistics.py, lines 164-175 *)
Definition sync_pending (self : Task) : M unit :=
  tracked <- select q_pending_titles ;;
  for_each (category_members (site self) (pending_cat self) 500) (fun page =>
    if Py.mem page (ignore_list self) then ret tt
    else when (negb (Py.mem page tracked)) (track_page self page)).

(* afc_statistics.py, lines 177-181 *)
Definition sync_old (self : Task) : M unit := execute self DeleteOld.

(* afc_statistics.py, lines 134-139 *)
Definition sync (self : Task) : M unit :=
  sync_deleted self ;;
  sync_oldids self ;;
  sync_pending self ;;
  sync_old self.

(** Running an entry point on a store, with an empty statement log. *)
Definition on_store {A} (m : M A) (st : Store) : Res A * Cursor :=
  m {| db := st; log := [] |}.

(** ** Chart compiler *)

Definition res_bind {A B} (r : Res A) (k : A -> Res B) : Res B :=
  match r with
  | Ok a => k a
  | Raise e => Raise e
  end.

(** [timestamp.strftime(...)]; on a NULL column the attribute lookup fails. *)
(* afc_statistics.py, lines 131-132 *)
Definition format_time (self : Task) (timestamp : option Z) : Res string :=
  match timestamp with
  | Some t => Ok (strftime self t)
  | None => Raise AttributeError
  end.

(* afc_statistics.py, lines 114-129 *)
Definition compile_chart_row (self : Task) (page : PageRow) : Res string :=
  let create_time := strftime self (page_create_time page) in
  let modify_time := strftime self (page_modify_time page) in
  let row :=
    (tl_row self ++ "|s=" ++ Py.str_opt id (page_status page)
       ++ "|t=" ++ page_title page
       ++ "|h=" ++ page_short page
       ++ "|z=" ++ Py.str_int (page_size page)
       ++ "|cr=" ++ page_create_user page
       ++ "|cd=" ++ create_time
       ++ "|ci=" ++ Py.str_int (page_create_oldid page)
       ++ "|mr=" ++ page_modify_user page
       ++ "|md=" ++ modify_time
       ++ "|mi=" ++ Py.str_int (page_modify_oldid page) ++ "|")%string in
  res_bind
    (if Py.truthy_opt (page_special_user page) then
       res_bind (format_time self (page_special_time page)) (fun special_time =>
       Ok (row ++ "sr=" ++ Py.str_opt id (page_special_user page)
               ++ "|sd=" ++ special_time
               ++ "|si=" ++ Py.str_opt Py.str_int (page_special_oldid page)
               ++ "|")%string)
     else Ok row)
    (fun row =>
       let row :=
         if Py.truthy_opt (page_notes page)
         then (row ++ "n=1" ++ Py.str_opt id (page_notes page))%string
         else row in
       Ok ("{{" ++ row ++ "}}")%string).

(** The loop [for page in cursor: chart += "\n" + compile_chart_row(page)]. *)
Fixpoint compile_chart_rows (self : Task) (pages : list (PageRow * RowRow))
  (chart : string) : Res string :=
  match pages with
  | [] => Ok chart
  | page :: rest =>
      res_bind (compile_chart_row self (fst page)) (fun r =>
      compile_chart_rows self rest (chart ++ Py.newline ++ r)%string)
  end.

(* afc_statistics.py, lines 97-112 *)
Definition compile_chart (self : Task) (st : Store) (chart_info : ChartRow)
  : Res string :=
  let chart := (tl_header self ++ "|" ++ chart_title chart_info)%string in
  let chart :=
    match chart_special_title chart_info with
    | Some special_title =>
        if Py.truthy_str special_title
        then (chart ++ "|" ++ special_title)%string else chart
    | None => chart
    end in
  let chart := ("{{" ++ chart ++ "}}")%string in
  res_bind
    (compile_chart_rows self (q_join_by_chart (chart_id chart_info) st) chart)
    (fun chart => Ok (chart ++ Py.newline ++ "{{" ++ tl_footer self ++ "}}")%string).

(** The loop [for chart in cursor: stats += compile_chart(chart) + "\n"]. *)
Fixpoint compile_charts_loop (self : Task) (st : Store) (charts : list ChartRow)
  (stats : string) : Res string :=
  match charts with
  | [] => Ok stats
  | chart :: rest =>
      res_bind (compile_chart self st chart) (fun c =>
      compile_charts_loop self st rest (stats ++ c ++ Py.newline)%string)
  end.

(* afc_statistics.py, lines 89-95 *)
Definition compile_charts (self : Task) (st : Store) : Res string :=
  res_bind (compile_charts_loop self st (tbl_chart st) "")
           (fun stats => Ok (Py.drop_last stats)).

(** ** What the specification says, in its own words *)

(** First match wins over an ordered rule list. *)
Fixpoint first_match {A} (rules : list (bool * A)) (default : A) : A :=
  match rules with
  | [] => default
  | (true, a) :: _ => a
  | (false, _) :: rest => first_match rest default
  end.

(** The six outcomes of the classifier. *)
Definition outcomes : list (option string * Z) :=
  [ (Some "accept", 4); (Some "review", 3); (Some "pend", 2);
    (Some "pend", 1); (Some "decline", 5); (None, 0) ].

(** The rule list of the classifier, in the order the specification gives. *)
Definition classifier_rules (redirect : bool) (target_ns : Z) (content : string)
  : list (bool * (option string * Z)) :=
  [ (redirect && (target_ns =? 0), (Some "accept", 4));
    (redirect, (None, 0));
    (Re.search (marker "r") content, (Some "review", 3));
    (Re.search (marker "h") content, (Some "pend", 2));
    (Re.search (marker "") content, (Some "pend", 1));
    (Re.search (marker "t") content, (None, 0));
    (Re.search (marker "d") content, (Some "decline", 5)) ].

(** A joined pair is past retention: terminal bucket, and the special time
    plus 36 hours lies before now. *)
Definition aged_out (now : Z) (p : PageRow) (r : RowRow) : Prop :=
  page_id p = row_id r /\
  (row_chart r = 4 \/ row_chart r = 5) /\
  exists t, page_special_time p = Some t /\ t + 36 * 3600 < now.

Definition special_populated (p : PageRow) : Prop :=
  page_special_user p <> None /\ page_special_time p <> None
  /\ page_special_oldid p <> None.

Definition terminal (r : RowRow) : Prop := row_chart r = 4 \/ row_chart r = 5.

(** The specification's invariant: populated exactly in the terminal buckets. *)
Definition special_iff_terminal (st : Store) : Prop :=
  forall p r, In (p, r) (join st) -> (special_populated p <-> terminal r).

(** One direction of it, with the primary key of table [page]. *)
Definition special_only_terminal (st : Store) : Prop :=
  NoDup (map page_id (tbl_page st))
  /\ forall p r, In (p, r) (join st) -> special_populated p -> terminal r.

(** One event handled by the sync engine; the wiki and the replica may have
    changed since the last one, so each step has its own task object. *)
Inductive sync_step : Store -> Store -> Prop :=
| step_edit (self : Task) (page : string) (st : Store) :
    sync_step st (db (snd (on_store (process_edit self page) st)))
| step_move (self : Task) (page : string * string) (st : Store) :
    sync_step st (db (snd (on_store (process_move self page) st)))
| step_delete (self : Task) (page : string) (st : Store) :
    sync_step st (db (snd (on_store (process_delete self page) st)))
| step_sync (self : Task) (st : Store) :
    sync_step st (db (snd (on_store (sync self) st))).

Inductive reachable (st0 : Store) : Store -> Prop :=
| reach_start : reachable st0 st0
| reach_step (st st' : Store) :
    reachable st0 st -> sync_step st st' -> reachable st0 st'.

(** [present] decides when an optional field counts as there: the
    specification says "non-null", the code tests the value's truth. *)
Definition non_null (o : option string) : bool :=
  match o with Some _ => true | None => false end.

Definition header_line (self : Task) (present : option string -> bool)
  (ch : ChartRow) : string :=
  ("{{" ++ tl_header self ++ "|" ++ chart_title ch
        ++ (if present (chart_special_title ch)
            then "|" ++ Py.str_opt id (chart_special_title ch) else "")
        ++ "}}")%string.

Definition special_fields (self : Task) (p : PageRow) : string :=
  ("sr=" ++ Py.str_opt id (page_special_user p)
     ++ "|sd=" ++ Py.str_opt (strftime self) (page_special_time p)
     ++ "|si=" ++ Py.str_opt Py.str_int (page_special_oldid p) ++ "|")%string.

Definition row_line (self : Task) (present : option string -> bool)
  (p : PageRow) : string :=
  ("{{" ++ tl_row self
        ++ "|s=" ++ Py.str_opt id (page_status p)
        ++ "|t=" ++ page_title p
        ++ "|h=" ++ page_short p
        ++ "|z=" ++ Py.str_int (page_size p)
        ++ "|cr=" ++ page_create_user p
        ++ "|cd=" ++ strftime self (page_create_time p)
        ++ "|ci=" ++ Py.str_int (page_create_oldid p)
        ++ "|mr=" ++ page_modify_user p
        ++ "|md=" ++ strftime self (page_modify_time p)
        ++ "|mi=" ++ Py.str_int (page_modify_oldid p) ++ "|"
        ++ (if present (page_special_user p) then special_fields self p else "")
        ++ (if present (page_notes p)
            then "n=1" ++ Py.str_opt id (page_notes p) else "")
        ++ "}}")%string.

Definition footer_line (self : Task) : string := ("{{" ++ tl_footer self ++ "}}")%string.

(** One block per chart: header, the rows of its bucket in store order,
    footer. *)
Definition block_lines (self : Task) (present : option string -> bool)
  (st : Store) (ch : ChartRow) : list string :=
  (header_line self present ch
     :: map (fun pr => row_line self present (fst pr))
            (q_join_by_chart (chart_id ch) st)
     ++ [footer_line self])%list.

(** All lines of all blocks, in catalog order, joined by single newlines. *)
Definition payload (self : Task) (present : option string -> bool) (st : Store)
  : string :=
  String.concat Py.newline
    (map (fun ch => String.concat Py.newline (block_lines self present st ch))
         (tbl_chart st)).

(** A statement of the update path writes a value that differs from the
    one stored in [result]. *)
Definition writes_a_difference (result : PageRow) (q : Stmt) : Prop :=
  match q with
  | UpdateTitle title _ _ => title <> page_title result
  | UpdateModify _ _ _ oldid _ => oldid <> page_modify_oldid result
  | UpdateStatus status _ _ => status <> page_status result
  | UpdateSpecial _ _ oldid _ => oldid <> page_special_oldid result
  | UpdateNotes notes _ => notes <> page_notes result
  | _ => False
  end.

(** ** Auxiliary definitions for the proofs *)

(** The statements [update_page] writes after its lookups, given the values
    freshly computed from the wiki and the replica and the stored row
    [result]: one group per difference. *)
Definition diff_stmts (title short : string) (size : Z) (m_user : string)
  (m_time m_id : Z) (status : option string) (chart : Z)
  (special : option string * option Z * option Z) (notes : option string)
  (pageid : Z) (result : PageRow) : list Stmt :=
  ((if negb (String.eqb title (page_title result))
    then [UpdateTitle title short pageid] else [])
   ++ (if negb (m_id =? page_modify_oldid result)
       then [UpdateModify size m_user m_time m_id pageid] else [])
   ++ (if negb (Py.eqb_opt String.eqb status (page_status result))
       then UpdateStatus status chart pageid ::
            (let '(s_user, s_time, s_id) := special in
             if negb (Py.eqb_opt Z.eqb s_id (page_special_oldid result))
             then [UpdateSpecial s_user s_time s_id pageid] else [])
       else [])
   ++ (if negb (Py.eqb_opt String.eqb notes (page_notes result))
       then [UpdateNotes notes pageid] else []))%list.

(** Executing a list of statements in order. *)
Definition execute_all (self : Task) (qs : list Stmt) (c : Cursor) : Cursor :=
  fold_left (fun c q => snd (execute self q c)) qs c.

(** What an UPDATE keyed by page id does to a joined pair with that id. *)
Definition upd_of (q : Stmt) (pr : PageRow * RowRow) : PageRow * RowRow :=
  match q with
  | UpdateTitle title short _ => (set_title title short (fst pr), snd pr)
  | UpdateModify size user time oldid _ =>
      (set_modify size user time oldid (fst pr), snd pr)
  | UpdateStatus status chart _ => (set_status status (fst pr), set_chart chart (snd pr))
  | UpdateSpecial user time oldid _ => (set_special user time oldid (fst pr), snd pr)
  | UpdateNotes notes _ => (set_notes notes (fst pr), snd pr)
  | _ => pr
  end.

Definition upd_all (qs : list Stmt) (pr : PageRow * RowRow) : PageRow * RowRow :=
  fold_left (fun pr q => upd_of q pr) qs pr.

(** The statement is an UPDATE whose WHERE clause is [page_id = pageid]. *)
Definition updates_id (pageid : Z) (q : Stmt) : Prop :=
  match q with
  | UpdateTitle _ _ i | UpdateModify _ _ _ _ i | UpdateStatus _ _ i
  | UpdateSpecial _ _ _ i | UpdateNotes _ i => i = pageid
  | _ => False
  end.

(** A computation keeps a property of the store, whether it returns or
    raises. *)
Definition preserves {A} (I : Store -> Prop) (m : M A) : Prop :=
  forall c, I (db c) -> I (db (snd (m c))).

Fixpoint last_char (s : string) : option ascii :=
  match s with
  | EmptyString => None
  | String c EmptyString => Some c
  | String _ s' => last_char s'
  end.

(** Every line of [l], each with a newline before it. *)
Definition lines_tail (l : list string) : string :=
  fold_right (fun x acc => Py.newline ++ x ++ acc)%string "" l.

(** Every block of [l], each with a newline after it. *)
Definition blocks_nl (l : list string) : string :=
  fold_right (fun b acc => b ++ Py.newline ++ acc)%string "" l.

(** ** Fixtures: small wikis, replicas and stores *)

Definition demo_strptime (s : string) : option Z :=
  option_map Z.of_int (NilZero.int_of_string s).

Definition demo_strftime (t : Z) : string := Py.str_int t.

Definition wiki_page (content : string) (pageid : Z) (title : string) : WikiPage :=
  {| wp_get := content; wp_is_redirect := false; wp_redirect_target := "";
     wp_namespace := 5; wp_pageid := pageid; wp_title := title |}.

Definition missing_page : WikiPage := wiki_page "" 0 "".

Definition mk_task (pages : string -> WikiPage) (rp : list RepPage)
  (rr : list RepRev) (members : list string) (now : Z) : Task :=
  {| site := {| get_page := pages; rep_page := rp; rep_revision := rr;
                category_members := fun _ _ => members |};
     pending_cat := "Pending AfC submissions";
     ignore_list := [];
     tl_header := "AFC statistics/header";
     tl_row := "AFC statistics/row";
     tl_footer := "AFC statistics/footer";
     strptime := demo_strptime;
     strftime := demo_strftime;
     sql_now := now |}.

Definition mk_page (pageid : Z) (status : option string) (title : string)
  (oldid : Z) : PageRow :=
  {| page_id := pageid; page_status := status; page_title := title;
     page_short := title; page_size := 10; page_notes := None;
     page_create_user := "Ann"; page_create_time := 20120101000000;
     page_create_oldid := 1;
     page_modify_user := "Bob"; page_modify_time := 20120102000000;
     page_modify_oldid := oldid;
     page_special_user := None; page_special_time := None;
     page_special_oldid := None |}.

Definition mk_store (pages : list PageRow) (rows : list RowRow) : Store :=
  {| tbl_page := pages; tbl_row := rows; tbl_chart := [] |}.

Definition pending_text : string := "{{AFC submission|||ts=20120102000000|u=Ann}} draft".

(** A page that has left the wiki and the replica while its record is still
    in the store. *)
Definition gone_task : Task := mk_task (fun _ => missing_page) [] [] [] 0.

Definition gone_store : Store :=
  mk_store [mk_page 7 (Some "pend") "Gone" 10] [ {| row_id := 7; row_chart := 1 |} ].

(** A tracked page "A" is moved to "B" before the replica knows "B". *)
Definition move_store : Store :=
  mk_store [mk_page 7 (Some "pend") "A" 10] [ {| row_id := 7; row_chart := 1 |} ].

Definition move_task_lagging : Task :=
  mk_task (fun _ => wiki_page pending_text 7 "B")
          [ {| rp_page_id := 7; rp_page_title := "A"; rp_page_latest := 10 |} ]
          [ {| rev_id := 10; rev_user_text := "Bob";
               rev_timestamp := "20120102000000"; rev_page := 7 |} ] [] 0.

Definition move_task_caught_up : Task :=
  mk_task (fun _ => wiki_page pending_text 7 "B")
          [ {| rp_page_id := 7; rp_page_title := "B"; rp_page_latest := 11 |} ]
          [ {| rev_id := 11; rev_user_text := "Bob";
               rev_timestamp := "20120103000000"; rev_page := 7 |} ] [] 0.

Definition fresh_task : Task :=
  mk_task (fun _ => wiki_page pending_text 7 "Draft")
          [ {| rp_page_id := 7; rp_page_title := "Draft"; rp_page_latest := 10 |} ]
          [ {| rev_id := 10; rev_user_text := "Bob";
               rev_timestamp := "20120102000000"; rev_page := 7 |} ] [] 0.

Definition other_store : Store :=
  mk_store [mk_page 3 (Some "pend") "Other" 30] [ {| row_id := 3; row_chart := 1 |} ].

(** A page whose text no longer carries a submission marker. *)
Definition plain_task : Task :=
  mk_task (fun _ => wiki_page "an ordinary article" 7 "Draft")
          [ {| rp_page_id := 7; rp_page_title := "Draft"; rp_page_latest := 11 |} ]
          [ {| rev_id := 11; rev_user_text := "Bob";
               rev_timestamp := "20120103000000"; rev_page := 7 |} ] [] 0.

Definition draft_store : Store :=
  mk_store [mk_page 3 (Some "pend") "Other" 30; mk_page 7 (Some "pend") "Draft" 10]
           [ {| row_id := 3; row_chart := 1 |}; {| row_id := 7; row_chart := 1 |} ].

(** A tracked page with a new revision: the store is one revision behind. *)
Definition stale_task : Task :=
  mk_task (fun _ => wiki_page pending_text 7 "Draft")
          [ {| rp_page_id := 7; rp_page_title := "Draft"; rp_page_latest := 11 |} ]
          [ {| rev_id := 10; rev_user_text := "Ann";
               rev_timestamp := "20120102000000"; rev_page := 7 |};
            {| rev_id := 11; rev_user_text := "Bob";
               rev_timestamp := "20120103000000"; rev_page := 7 |} ] [] 0.

Definition refreshed_page : PageRow :=
  set_modify (Py.len pending_text) "Bob" 20120103000000 11
             (mk_page 7 (Some "pend") "Draft" 10).

(** The tracked draft has been accepted: its title now redirects to an
    article in the main namespace. *)
Definition accepted_task : Task :=
  mk_task (fun title =>
             if String.eqb title "Draft" then
               {| wp_get := "#REDIRECT [[Article]]"; wp_is_redirect := true;
                  wp_redirect_target := "Article"; wp_namespace := 5;
                  wp_pageid := 7; wp_title := "Draft" |}
             else
               {| wp_get := "An article."; wp_is_redirect := false;
                  wp_redirect_target := ""; wp_namespace := 0;
                  wp_pageid := 8; wp_title := title |})
          [ {| rp_page_id := 7; rp_page_title := "Draft"; rp_page_latest := 11 |} ]
          [ {| rev_id := 11; rev_user_text := "Eve";
               rev_timestamp := "20120103000000"; rev_page := 7 |} ] [] 0.

Definition pending_store : Store :=
  mk_store [mk_page 7 (Some "pend") "Draft" 10] [ {| row_id := 7; row_chart := 1 |} ].

(** One chart whose special title is the empty string, not NULL, and two
    pending rows, the second with a note. *)
Definition chart_task : Task := mk_task (fun _ => missing_page) [] [] [] 0.

Definition chart_store : Store :=
  {| tbl_page :=
       [ mk_page 7 (Some "pend") "Draft" 10;
         set_notes (Some "copyvio?") (mk_page 8 (Some "pend") "Essay" 20) ];
     tbl_row := [ {| row_id := 7; row_chart := 1 |}; {| row_id := 8; row_chart := 1 |} ];
     tbl_chart :=
       [ {| chart_id := 1; chart_title := "Pending submissions";
            chart_special_title := Some "" |} ] |}.

(** Three records at the retention boundary, with the clock at 1000000:
    accepted 36 hours and one second ago, declined 35 hours ago, and a
    pending one that carries an old special time. *)
Definition retention_task : Task := mk_task (fun _ => missing_page) [] [] [] 1000000.

Definition retention_store : Store :=
  mk_store
    [ set_special (Some "Eve") (Some (1000000 - 36 * 3600 - 1)) (Some 5)
        (mk_page 1 (Some "accept") "Old" 10);
      set_special (Some "Eve") (Some (1000000 - 35 * 3600)) (Some 6)
        (mk_page 2 (Some "decline") "Recent" 20);
      set_special (Some "Eve") (Some 0) (Some 7)
        (mk_page 3 (Some "pend") "Waiting" 30) ]
    [ {| row_id := 1; row_chart := 4 |}; {| row_id := 2; row_chart := 5 |};
      {| row_id := 3; row_chart := 1 |} ].

(** Page 2, tracked as "B", now sits at "A" and is an ordinary article; the
    store still has the record of page 1 under "A". *)
Definition retitled_task : Task :=
  mk_task (fun _ => wiki_page "an ordinary article" 2 "A")
          [ {| rp_page_id := 2; rp_page_title := "A"; rp_page_latest := 21 |} ]
          [ {| rev_id := 21; rev_user_text := "Bob";
               rev_timestamp := "20120104000000"; rev_page := 2 |} ] [] 0.

Definition retitled_store : Store :=
  mk_store [ mk_page 1 (Some "pend") "A" 10; mk_page 2 (Some "pend") "B" 20 ]
           [ {| row_id := 1; row_chart := 1 |}; {| row_id := 2; row_chart := 1 |} ].

(** ** Further invariants of the store *)

(** The statement rewrites or removes rows; it adds none. *)
Definition writes_in_place (q : Stmt) : Prop :=
  match q with
  | InsertRow _ _ | InsertPage _ => False
  | _ => True
  end.

(** [p'] is [p] as far as its key and its creation columns go. *)
Definition same_creation (p p' : PageRow) : Prop :=
  page_id p' = page_id p
  /\ page_create_user p' = page_create_user p
  /\ page_create_time p' = page_create_time p
  /\ page_create_oldid p' = page_create_oldid p.

(** Every row of [st] comes from a row of [st0] with the same key (and, in
    table [page], the same creation columns); the catalog is the same. *)
Definition descends (st0 st : Store) : Prop :=
  tbl_chart st = tbl_chart st0
  /\ (forall p', In p' (tbl_page st) ->
        exists p, In p (tbl_page st0) /\ same_creation p p')
  /\ (forall r', In r' (tbl_row st) ->
        exists r, In r (tbl_row st0) /\ row_id r' = row_id r)
  /\ (List.length (tbl_page st) <= List.length (tbl_page st0))%nat
  /\ (List.length (tbl_row st) <= List.length (tbl_row st0))%nat.

(** Tables [page] and [row] are in one-to-one correspondence by id. *)
Definition paired (st : Store) : Prop :=
  NoDup (map page_id (tbl_page st))
  /\ NoDup (map row_id (tbl_row st))
  /\ forall i, In i (map page_id (tbl_page st)) <-> In i (map row_id (tbl_row st)).

(** ** Auxiliary definitions for the further facts *)

(** The test [track_page] makes before it looks anything up: the classifier
    gives a status, and it is neither "accept" nor "decline". *)
Definition insertable (self : Task) (title : string) : bool :=
  let page := get_page (site self) title in
  let status := fst (get_status_and_chart (get_page (site self)) page) in
  negb (negb (Py.truthy_opt status) || status_in status ["accept"; "decline"]).

(** The members of the pending category that pass 3 hands to [track_page]
    and that [track_page] does not turn away. *)
Definition new_submissions (self : Task) (st : Store) : list string :=
  filter (fun page => negb (Py.mem page (ignore_list self))
                      && negb (Py.mem page (q_pending_titles st))
                      && insertable self page)
         (category_members (site self) (pending_cat self) 500).

(** [r] is the revision that the replica's [page_latest] names for the page. *)
Definition latest_revision (s : Site) (pageid : Z) (r : RepRev) : Prop :=
  In r (rep_revision s)
  /\ exists pg, In pg (rep_page s) /\ rp_page_id pg = pageid
                /\ rev_id r = rp_page_latest pg.

(** A page row with a special user and a NULL special time. *)
Definition unformattable (p : PageRow) : bool :=
  Py.truthy_opt (page_special_user p)
  && match page_special_time p with None => true | Some _ => false end.

(** Equality of strings up to the case of ASCII letters, as [re.I] sees it. *)
Fixpoint eqb_nocase (x y : string) : bool :=
  match x, y with
  | EmptyString, EmptyString => true
  | String a x', String b y' =>
      Ascii.eqb (Re.lower a) (Re.lower b) && eqb_nocase x' y'
  | _, _ => false
  end.

(** The string has no line feed. *)
Fixpoint one_line (x : string) : bool :=
  match x with
  | EmptyString => true
  | String c x' => negb (Ascii.eqb c (ascii_of_nat 10)) && one_line x'
  end.

(** The derivative by a string, character by character. *)
Fixpoint derivs (r : Re.regex) (x : string) : Re.regex :=
  match x with
  | EmptyString => r
  | String c x' => derivs (Re.deriv c r) x'
  end.

(** ** Publisher *)

Module ReSub.

(** Length of the shortest prefix of [s] that matches. *)
Fixpoint shortest_prefix (r : Re.regex) (s : string) : option nat :=
  if Re.nullable r then Some O
  else match s with
       | EmptyString => None
       | String c s' => option_map S (shortest_prefix (Re.deriv c r) s')
       end.

(** [re.sub(r, template, s)] for a pattern of the form [(b)(.*?)(e)] with
    literal [b] and [e]: matches are taken from left to right and do not
    overlap; the star is lazy, so the match at a position is the shortest
    one there; no match is empty.  [repl] is the expansion of the template,
    which for such a pattern is the same at every match when the template
    refers to groups 1 and 3 only.  [skip] counts the characters of a match
    still to drop. *)
Fixpoint sub_from (r : Re.regex) (repl : string) (skip : nat) (s : string) : string :=
  match s with
  | EmptyString => EmptyString
  | String c s' =>
      match skip with
      | S k => sub_from r repl k s'
      | O =>
          match shortest_prefix r s with
          | Some (S n) => (repl ++ sub_from r repl n s')%string
          | _ => String c (sub_from r repl O s')
          end
      end
  end.

Definition sub (r : Re.regex) (repl : string) (s : string) : string :=
  sub_from r repl O s.

(** [.] under [re.DOTALL] *)
Definition any : Re.regex := Re.Sym (fun _ => true).

(** [(b)(.*?)(e)] *)
Definition region (dot : Re.regex) (b e : string) : Re.regex :=
  Re.Seq (Re.lit b) (Re.Seq (Re.Star dot) (Re.lit e)).

End ReSub.

Definition stat_begin : string := "<!-- stat begin -->".
Definition stat_end : string := "<!-- stat end -->".
Definition sig_begin : string := "<!-- sig begin -->".
Definition sig_end : string := "<!-- sig end -->".

Fixpoint has_backslash (s : string) : bool :=
  match s with
  | EmptyString => false
  | String c s' => Ascii.eqb c (ascii_of_nat 92) || has_backslash s'
  end.

(** The task object as [save] needs it: the attributes of [Task], the page
    the statistics go to, the edit summary, and the answer of
    [shutoff_enabled()], which the base class gives. *)
Record Publisher : Type := {
  task : Task;
  pagename : string;
  summary : string;
  shutoff_enabled : bool
}.

(** What one call of [save] does to the wiki.  The replacement template is
    [statistics] between [\1] and [\3]; module [re] reads a backslash in a
    template as the start of an escape, so the expansion is modelled for
    statistics without a backslash only, and [TemplateEscape] stands for the
    other case. *)
Inductive Saved : Type :=
| NoEdit                                        (* returns without page.edit *)
| Edit (title text edit_summary : string) (minor bot : bool)
| TemplateEscape.

(* afc_statistics.py, lines 67-87 *)
Definition save (self : Publisher) (fromIRC : bool) (st : Store) : Res Saved :=
  let publish (summary : string) : Res Saved :=
    res_bind (compile_charts (task self) st) (fun statistics =>
      let page := get_page (site (task self)) (pagename self) in
      let text := wp_get page in
      if has_backslash statistics then Ok TemplateEscape
      else
        let newtext :=
          ReSub.sub (ReSub.region ReSub.any stat_begin stat_end)
            (stat_begin ++ Py.newline ++ statistics ++ Py.newline ++ stat_end)%string
            text in
        if String.eqb newtext text then Ok NoEdit
        else
          let newtext :=
            ReSub.sub (ReSub.region Re.dot sig_begin sig_end)
              (sig_begin ++ "~~~ at ~~~~~" ++ sig_end)%string newtext in
          Ok (Edit (pagename self) newtext summary true true)) in
  if fromIRC then publish (summary self ++ " " ++ "(!earwigbot)")%string
  else if shutoff_enabled self then Ok NoEdit
  else publish (summary self).

(** [haystack.find(needle)] *)
Fixpoint find (needle s : string) : option nat :=
  if String.prefix needle s then Some O
  else match s with
       | EmptyString => None
       | String _ s' => option_map S (find needle s')
       end.

(** The statistics page of a small wiki: an introduction, the statistics
    region with stale content, and a signature region on its own line. *)
Definition stat_page_text : string :=
  ("Submissions" ++ Py.newline
   ++ stat_begin ++ "stale" ++ stat_end ++ Py.newline
   ++ sig_begin ++ "Bot at noon" ++ sig_end)%string.

Definition stat_publisher (text : string) (shutoff : bool) : Publisher :=
  {| task := mk_task (fun title => wiki_page text 1 title) [] [] [] 0;
     pagename := "Template:AFC statistics";
     summary := "Updating statistics.";
     shutoff_enabled := shutoff |}.

(** ** The [time] command (earwigbot/commands/time.py) *)

Module TimeCommand.

(** The parsed IRC line, as far as the command reads it. *)
Record Data : Type := {
  command : string;      (* data.command *)
  args : list string     (* data.args *)
}.

(** [pytz.timezone(name)] with the clock read through it. *)
Inductive Zone : Type :=
| Known (now : string)   (* the current time there, "%Y-%m-%d %H:%M:%S %Z" *)
| Unknown.               (* raises UnknownTimeZoneError *)

(** What the command takes from outside: the module [pytz], [None] when
    its import failed, and the clock.  [beats] stands for the integer
    [int(floor(((time() + 3600) % 86400) / 86.4))]; the floating-point
    arithmetic that gives it is not modelled. *)
Record Env : Type := {
  pytz : option (string -> Zone);
  beats : Z
}.

(** [fill * (width - len(s)) + s] *)
Definition pad_left (fill : ascii) (width : nat) (s : string) : string :=
  (string_of_list_ascii (repeat fill (width - String.length s)) ++ s)%string.

(** Each function returns the messages it hands to [self.reply], in order. *)

(* time.py, lines 52-55 *)
Definition do_beats (env : Env) (data : Data) : list string :=
  [ ("@" ++ pad_left "0"%char 3 (Py.str_int (beats env)))%string ].

(* time.py, lines 57-68 *)
Definition do_time (env : Env) (data : Data) (timezone : string) : list string :=
  match pytz env with
  | None =>
      [ "this command requires the 'pytz' module: http://pytz.sourceforge.net/" ]
  | Some tz =>
      match tz timezone with
      | Unknown => [ ("unknown timezone: " ++ timezone ++ ".")%string ]
      | Known now => [ now ]
      end
  end.

(* time.py, lines 39-50 *)
Definition process (env : Env) (data : Data) : list string :=
  if Py.mem (command data) ["beats"; "swatch"] then do_beats env data
  else
    let timezone :=
      match args data with
      | a :: _ => a
      | [] => "UTC"
      end in
    if Py.mem timezone ["beats"; "swatch"] then do_beats env data
    else do_time env data timezone.

End TimeCommand.

(** [int(s)] for a string of decimal digits. *)
Definition int_of_str (s : string) : option Z :=
  option_map Z.of_int (NilZero.int_of_string s).

(** The reply is [@] and three characters that read as [n]. *)
Definition beats_reply_ok (n : Z) (replies : list string) : bool :=
  match replies with
  | [String a s] =>
      Ascii.eqb a "@"%char && Nat.eqb (String.length s) 3
      && match int_of_str s with
         | Some m => m =? n
         | None => false
         end
  | _ => false
  end.

(** The statement leaves table [row] as it is. *)
Definition keeps_rows (q : Stmt) : Prop :=
  match q with
  | UpdateTitle _ _ _ | UpdateModify _ _ _ _ _ | UpdateSpecial _ _ _ _
  | UpdateNotes _ _ | UpdateMove _ _ _ => True
  | _ => False
  end.

(** The tracked draft of [pending_store] has been put on hold: its marker
    now carries the tag [h], which the classifier files under bucket 2 with
    the status it had. *)
Definition held_task : Task :=
  mk_task (fun _ => wiki_page "{{AFC submission|h||ts=20120102000000|u=Ann}} draft"
                              7 "Draft")
          [ {| rp_page_id := 7; rp_page_title := "Draft"; rp_page_latest := 11 |} ]
          [ {| rev_id := 11; rev_user_text := "Bob";
               rev_timestamp := "20120103000000"; rev_page := 7 |} ] [] 0.

(** Two tracked drafts, each one revision behind; the wiki and the replica
    know both pages under the stored titles. *)
Definition stale_pair_task : Task :=
  mk_task (fun title =>
             if String.eqb title "A" then wiki_page pending_text 1 "A"
             else wiki_page pending_text 2 "B")
          [ {| rp_page_id := 1; rp_page_title := "A"; rp_page_latest := 11 |};
            {| rp_page_id := 2; rp_page_title := "B"; rp_page_latest := 21 |} ]
          [ {| rev_id := 11; rev_user_text := "Ann";
               rev_timestamp := "20120103000000"; rev_page := 1 |};
            {| rev_id := 21; rev_user_text := "Bob";
               rev_timestamp := "20120104000000"; rev_page := 2 |} ] [] 0.

Definition stale_pair_store : Store :=
  mk_store [ mk_page 1 (Some "pend") "A" 10; mk_page 2 (Some "pend") "B" 20 ]
           [ {| row_id := 1; row_chart := 1 |}; {| row_id := 2; row_chart := 1 |} ].

(** * Properties *)

Unset Implicit Arguments.

(** ** The matcher against the patterns' denotation *)

Lemma re_app_nil (x y : string) : (x ++ y)%string = "" -> x = "" /\ y = "".
Proof. destruct x; simpl; intros H; [auto | discriminate]. Qed.

Lemma re_matches_void (x : string) : ~ Re.matches Re.Void x.
Proof. intros H. inversion H. Qed.

Lemma re_nullable_spec (r : Re.regex) : Re.nullable r = true <-> Re.matches r "".
Proof.
  split.
  - induction r; simpl; intros H; try discriminate.
    + constructor.
    + apply andb_true_iff in H. destruct H as [H1 H2].
      change "" with ("" ++ "")%string. constructor; auto.
    + apply orb_true_iff in H. destruct H; [apply Re.m_alt_l | apply Re.m_alt_r]; auto.
    + constructor.
  - intros H. remember "" as w eqn:Ew. induction H; simpl; trivial; try discriminate.
    + apply re_app_nil in Ew. destruct Ew. rewrite IHmatches1, IHmatches2; trivial.
    + rewrite IHmatches; trivial.
    + rewrite IHmatches; trivial. apply orb_true_r.
Qed.

Lemma re_seq_spec (r s : Re.regex) (x : string) :
  Re.matches (Re.seq r s) x <-> Re.matches (Re.Seq r s) x.
Proof.
  unfold Re.seq.
  destruct (Re.is_void r) eqn:Er; simpl.
  - destruct r; try discriminate. split; intros H; inversion H; subst.
    exfalso; eapply re_matches_void; eassumption.
  - destruct (Re.is_void s) eqn:Es; [|tauto].
    destruct s; try discriminate. split; intros H; inversion H; subst.
    exfalso; eapply re_matches_void; eassumption.
Qed.

Lemma re_alt_spec (r s : Re.regex) (x : string) :
  Re.matches (Re.alt r s) x <-> Re.matches (Re.Alt r s) x.
Proof.
  unfold Re.alt.
  assert (L : Re.matches s x <-> Re.matches (Re.Alt Re.Void s) x).
  { split; intros H; [now apply Re.m_alt_r|].
    inversion H; subst; trivial. exfalso; eapply re_matches_void; eassumption. }
  assert (R : Re.matches r x <-> Re.matches (Re.Alt r Re.Void) x).
  { split; intros H; [now apply Re.m_alt_l|].
    inversion H; subst; trivial. exfalso; eapply re_matches_void; eassumption. }
  destruct (Re.is_void r) eqn:Er.
  - destruct r; try discriminate. exact L.
  - destruct (Re.is_void s) eqn:Es; [|tauto].
    destruct s; try discriminate. exact R.
Qed.

Lemma re_deriv_spec (c : ascii) (r : Re.regex) (x : string) :
  Re.matches (Re.deriv c r) x <-> Re.matches r (String c x).
Proof.
  split.
  - revert x. induction r; simpl; intros x H.
    + inversion H.
    + inversion H.
    + destruct (p c) eqn:E; inversion H; subst. now constructor.
    + assert (S1 : Re.matches (Re.Seq (Re.deriv c r1) r2) x ->
                   Re.matches (Re.Seq r1 r2) (String c x)).
      { intros H1. inversion H1; subst.
        change (String c (x0 ++ y)) with (String c x0 ++ y)%string.
        constructor; auto. }
      destruct (Re.nullable r1) eqn:N.
      * apply re_alt_spec in H. inversion H; subst.
        -- apply S1. now apply re_seq_spec.
        -- change (String c x) with ("" ++ String c x)%string.
           constructor; [now apply re_nullable_spec | auto].
      * apply S1. now apply re_seq_spec.
    + apply re_alt_spec in H. inversion H; subst;
        [apply Re.m_alt_l | apply Re.m_alt_r]; auto.
    + apply re_seq_spec in H. inversion H; subst.
      change (String c (x0 ++ y)) with (String c x0 ++ y)%string.
      constructor; auto.
  - intros H. remember (String c x) as w eqn:Ew. revert c x Ew.
    induction H; intros c0 w Ew; simpl; try discriminate.
    + injection Ew as <- <-. rewrite H. constructor.
    + destruct x as [|a x]; simpl in Ew.
      * subst y. assert (N : Re.nullable r = true) by now apply re_nullable_spec.
        rewrite N. apply re_alt_spec, Re.m_alt_r. now apply IHmatches2.
      * injection Ew as -> <-.
        assert (S1 : Re.matches (Re.seq (Re.deriv c0 r) s) (x ++ y)).
        { apply re_seq_spec. constructor; auto. }
        destruct (Re.nullable r); [apply re_alt_spec, Re.m_alt_l|]; exact S1.
    + apply re_alt_spec, Re.m_alt_l. now apply IHmatches.
    + apply re_alt_spec, Re.m_alt_r. now apply IHmatches.
    + destruct x as [|a x]; simpl in Ew.
      * subst y. now apply IHmatches2.
      * injection Ew as -> <-. apply re_seq_spec. constructor; auto.
Qed.

(** [re.match] succeeds exactly when a prefix is in the pattern's language,
    [re.search] exactly when a substring is. *)
Lemma re_match_prefix_spec (r : Re.regex) (s : string) :
  Re.match_prefix r s = true <->
  exists x y, s = (x ++ y)%string /\ Re.matches r x.
Proof.
  revert r. induction s as [|c s IH]; intros r; simpl.
  - rewrite orb_false_r, re_nullable_spec. split.
    + intros H. exists "", "". auto.
    + intros (x & y & E & H). symmetry in E. apply re_app_nil in E.
      destruct E; now subst.
  - rewrite orb_true_iff, re_nullable_spec, IH. split.
    + intros [H | (x & y & E & H)].
      * exists "", (String c s). auto.
      * exists (String c x), y. split; [simpl; congruence|].
        now apply re_deriv_spec.
    + intros (x & y & E & H). destruct x as [|a x]; [now left|].
      right. simpl in E. injection E as <- ->. exists x, y. split; trivial.
      now apply re_deriv_spec.
Qed.

Lemma re_search_spec (r : Re.regex) (s : string) :
  Re.search r s = true <->
  exists pre x post, s = (pre ++ x ++ post)%string /\ Re.matches r x.
Proof.
  induction s as [|c s IH].
  - change (Re.search r "") with (Re.match_prefix r "" || false).
    rewrite orb_false_r, re_match_prefix_spec. split.
    + intros (x & y & E & H). exists "", x, y. auto.
    + intros (pre & x & post & E & H). symmetry in E.
      apply re_app_nil in E. destruct E as [_ E].
      apply re_app_nil in E. destruct E; subst. exists "", "". auto.
  - change (Re.search r (String c s))
      with (Re.match_prefix r (String c s) || Re.search r s).
    rewrite orb_true_iff, IH, re_match_prefix_spec. split.
    + intros [(x & y & E & H) | (pre & x & post & E & H)].
      * exists "", x, y. auto.
      * exists (String c pre), x, post. split; [simpl; congruence | trivial].
    + intros (pre & x & post & E & H). destruct pre as [|a pre].
      * left. exists x, post. auto.
      * right. simpl in E. injection E as <- ->. eauto.
Qed.

(** ** Status classifier *)

Example classify_bare_pending :
  get_status_and_chart (fun _ => Build_WikiPage "" false "" 0 0 "")
    (Build_WikiPage "intro {{AFC submission|||ts=20120101|u=Joe}} text" false "" 5 7 "T")
  = (Some "pend", 1).
Proof. vm_compute. reflexivity. Qed.

Example classify_review_over_decline :
  get_status_and_chart (fun _ => Build_WikiPage "" false "" 0 0 "")
    (Build_WikiPage "{{AfC submission|d|v|ts=1}} {{afc submission|r||ts=2}}" false "" 5 7 "T")
  = (Some "review", 3).
Proof. vm_compute. reflexivity. Qed.

Example classify_marker_split_by_newline :
  get_status_and_chart (fun _ => Build_WikiPage "" false "" 0 0 "")
    (Build_WikiPage ("{{afc submission|d|v" ++ Py.newline ++ "}}") false "" 5 7 "T")
  = (None, 0).
Proof. vm_compute. reflexivity. Qed.

Example short_title_talk :
  get_short_title "Wikipedia talk:Articles for creation/Foo bar" = "Foo bar".
Proof. vm_compute. reflexivity. Qed.

Example short_title_plain :
  get_short_title "Wikipedia:Articles for creation/Baz" = "Baz"
  /\ get_short_title "User:Joe/Draft" = "User:Joe/Draft".
Proof. vm_compute. split; reflexivity. Qed.

(** C2. The classifier is a total function of the page (content, redirect
    flag, namespace of the redirect target): its result is one of the six
    outcomes, and it is the outcome of the first rule that matches in the
    order redirect to main namespace, other redirect, review marker, held
    marker, bare pending marker, draft marker, decline marker, with
    [(None, 0)] when none does. *)
Theorem get_status_and_chart_first_match :
  forall (site_get_page : string -> WikiPage) (page : WikiPage),
    get_status_and_chart site_get_page page
    = first_match
        (classifier_rules (wp_is_redirect page)
           (wp_namespace (site_get_page (wp_redirect_target page)))
           (wp_get page))
        (None, 0)
    /\ In (get_status_and_chart site_get_page page) outcomes.
Proof.
  intros gp page. unfold get_status_and_chart, classifier_rules, outcomes.
  destruct (wp_is_redirect page); simpl.
  - destruct (wp_namespace (gp (wp_redirect_target page)) =? 0); simpl; tauto.
  - repeat match goal with
           | |- context [if ?b then _ else _] => destruct b; simpl
           end; tauto.
Qed.

(** ** The relational core: multi-table DELETE *)

Lemma delete_join_page_In (cond : PageRow -> RowRow -> bool) (st : Store) (p : PageRow) :
  In p (tbl_page (delete_join cond st)) <->
  In p (tbl_page st) /\
  ~ exists r, In r (tbl_row st) /\ page_id p = row_id r /\ cond p r = true.
Proof.
  unfold delete_join; simpl. rewrite filter_In, negb_true_iff.
  split; intros [Hin Hno]; split; trivial.
  - intros (r & Hr & Hid & Hc).
    assert (E : existsb (fun r => (page_id p =? row_id r) && cond p r) (tbl_row st) = true).
    { apply existsb_exists. exists r. split; trivial.
      rewrite Hc, andb_true_r. now apply Z.eqb_eq. }
    congruence.
  - apply not_true_is_false. intros E. apply Hno.
    apply existsb_exists in E. destruct E as (r & Hr & E).
    apply andb_true_iff in E. destruct E as [E1 E2].
    exists r. repeat split; trivial. now apply Z.eqb_eq.
Qed.

Lemma delete_join_row_In (cond : PageRow -> RowRow -> bool) (st : Store) (r : RowRow) :
  In r (tbl_row (delete_join cond st)) <->
  In r (tbl_row st) /\
  ~ exists p, In p (tbl_page st) /\ page_id p = row_id r /\ cond p r = true.
Proof.
  unfold delete_join; simpl. rewrite filter_In, negb_true_iff.
  split; intros [Hin Hno]; split; trivial.
  - intros (p & Hp & Hid & Hc).
    assert (E : existsb (fun p => (page_id p =? row_id r) && cond p r) (tbl_page st) = true).
    { apply existsb_exists. exists p. split; trivial.
      rewrite Hc, andb_true_r. now apply Z.eqb_eq. }
    congruence.
  - apply not_true_is_false. intros E. apply Hno.
    apply existsb_exists in E. destruct E as (p & Hp & E).
    apply andb_true_iff in E. destruct E as [E1 E2].
    exists p. repeat split; trivial. now apply Z.eqb_eq.
Qed.

(** ** Age-out pass *)

Lemma aged_out_cond (now : Z) (p : PageRow) (r : RowRow) :
  page_id p = row_id r /\ terminal_chart (row_chart r) && expired now p = true
  <-> aged_out now p r.
Proof.
  unfold aged_out, terminal_chart, expired, retention.
  rewrite andb_true_iff, orb_true_iff, !Z.eqb_eq.
  split.
  - intros (Hid & Hc & He). repeat split; trivial.
    destruct (page_special_time p) as [t|]; [|discriminate].
    exists t. split; trivial. now apply Z.ltb_lt.
  - intros (Hid & Hc & t & Ht & Hlt). repeat split; trivial.
    rewrite Ht. now apply Z.ltb_lt.
Qed.

(** C8. The age-out pass is one DELETE statement.  It removes from both
    tables exactly the rows of joined pairs whose bucket is 4 or 5 and whose
    special time plus 36 hours is before now.  A terminal record stamped
    36 hours and one second ago goes, one stamped 35 hours ago stays, and a
    record whose bucket is 1, 2 or 3 stays. *)
Theorem sync_old_retention :
  forall (self : Task) (c : Cursor),
    let now := sql_now self in
    let st := db c in
    let st' := db (snd (sync_old self c)) in
    fst (sync_old self c) = Ok tt
    /\ log (snd (sync_old self c)) = (log c ++ [DeleteOld])%list
    /\ (forall p, In p (tbl_page st') <->
                  In p (tbl_page st) /\
                  ~ exists r, In r (tbl_row st) /\ aged_out now p r)
    /\ (forall r, In r (tbl_row st') <->
                  In r (tbl_row st) /\
                  ~ exists p, In p (tbl_page st) /\ aged_out now p r)
    /\ tbl_chart st' = tbl_chart st
    /\ (forall p r, In p (tbl_page st) -> In r (tbl_row st) ->
                    page_id p = row_id r ->
                    row_chart r = 4 \/ row_chart r = 5 ->
                    page_special_time p = Some (now - 36 * 3600 - 1) ->
                    ~ In p (tbl_page st') /\ ~ In r (tbl_row st'))
    /\ (forall p, In p (tbl_page st) ->
                  page_special_time p = Some (now - 35 * 3600) ->
                  In p (tbl_page st'))
    /\ (forall p, In p (tbl_page st) ->
                  (forall r, In r (tbl_row st) -> row_id r = page_id p ->
                             1 <= row_chart r <= 3) ->
                  In p (tbl_page st')).
Proof.
  intros self c now st st'.
  assert (HP : forall p, In p (tbl_page st') <->
             In p (tbl_page st) /\ ~ exists r, In r (tbl_row st) /\ aged_out now p r).
  { intros p. subst st'. unfold sync_old, execute. cbn [snd db exec].
    rewrite delete_join_page_In. fold st. fold now.
    split; intros [Hin Hno]; split; trivial; intros (r & Hr & H); apply Hno;
      exists r; split; trivial.
    - apply aged_out_cond in H. exact H.
    - apply aged_out_cond. exact H. }
  assert (HR : forall r, In r (tbl_row st') <->
             In r (tbl_row st) /\ ~ exists p, In p (tbl_page st) /\ aged_out now p r).
  { intros r. subst st'. unfold sync_old, execute. cbn [snd db exec].
    rewrite delete_join_row_In. fold st. fold now.
    split; intros [Hin Hno]; split; trivial; intros (p & Hp & H); apply Hno;
      exists p; split; trivial.
    - apply aged_out_cond in H. exact H.
    - apply aged_out_cond. exact H. }
  split; [reflexivity|]. split; [reflexivity|].
  split; [exact HP|]. split; [exact HR|]. split; [reflexivity|].
  split; [|split].
  - intros p r Hp Hr Hid Hc Ht. split; intros Hin.
    + apply HP in Hin. destruct Hin as [_ Hno]. apply Hno.
      exists r. split; trivial. repeat split; trivial.
      eexists. split; [eassumption|]. lia.
    + apply HR in Hin. destruct Hin as [_ Hno]. apply Hno.
      exists p. split; trivial. repeat split; trivial.
      eexists. split; [eassumption|]. lia.
  - intros p Hp Ht. apply HP. split; trivial.
    intros (r & Hr & _ & _ & t & Ht' & Hlt). rewrite Ht in Ht'.
    injection Ht' as <-. lia.
  - intros p Hp Hc. apply HP. split; trivial.
    intros (r & Hr & Hid & Hc' & _). specialize (Hc r Hr (eq_sym Hid)). lia.
Qed.

Example sync_old_at_the_boundary :
  on_store (sync_old retention_task) retention_store
  = (Ok tt,
     {| db := mk_store
                [ set_special (Some "Eve") (Some (1000000 - 35 * 3600)) (Some 6)
                    (mk_page 2 (Some "decline") "Recent" 20);
                  set_special (Some "Eve") (Some 0) (Some 7)
                    (mk_page 3 (Some "pend") "Waiting" 30) ]
                [ {| row_id := 2; row_chart := 5 |}; {| row_id := 3; row_chart := 1 |} ];
        log := [DeleteOld] |}).
Proof. vm_compute. reflexivity. Qed.

(** ** Failures of single pages *)

Lemma get_modify_not_found (self : Task) (pageid : Z) :
  q_latest_rev (site self) pageid = [] -> get_modify self pageid = Raise IndexError.
Proof. unfold get_modify. now intros ->. Qed.

Lemma process_delete_absent (self : Task) (page : string) (c : Cursor) :
  q_page_id_by_title (site self) page = [] ->
  process_delete self page c = (Raise IndexError, c).
Proof. unfold process_delete. now intros ->. Qed.

(** When the replica still has the page, the delete event is handled as an
    edit; the branch that untracks by title is never taken. *)
Lemma process_delete_present (self : Task) (page : string) (c : Cursor) :
  q_page_id_by_title (site self) page <> [] ->
  process_delete self page c = sync_page self page c.
Proof.
  unfold process_delete. destruct (q_page_id_by_title (site self) page); [congruence|].
  reflexivity.
Qed.

(** C5. For a tracked page that is gone from the replica, the revision
    lookup raises [IndexError], and an exception leaves each entry point:
    the delete handler raises [IndexError] before it writes, the edit handler
    raises [IndexError] after the DELETE of its untrack, which has removed
    nothing, and the sweep stops in its first pass, on the row tuple it binds
    as a parameter, with the record still in the store. *)
Theorem vanished_page_exception_escapes :
  get_modify gone_task 7 = Raise IndexError
  /\ on_store (process_delete gone_task "Gone") gone_store
     = (Raise IndexError, {| db := gone_store; log := [] |})
  /\ on_store (process_edit gone_task "Gone") gone_store
     = (Raise IndexError,
        {| db := gone_store; log := [DeleteWhereTitle "Gone"] |})
  /\ on_store (sync gone_task) gone_store
     = (Raise InterfaceError, {| db := gone_store; log := [] |}).
Proof. repeat split; vm_compute; reflexivity. Qed.

(** ** Moves *)

Lemma process_move_unknown_source (self : Task) (source dest : string) (c : Cursor) :
  q_by_title source (db c) = [] ->
  process_move self (source, dest) c = track_page self dest c.
Proof.
  intros H. unfold process_move, bind, select. rewrite H. reflexivity.
Qed.

Lemma process_move_known_source (self : Task) (source dest : string) (c : Cursor)
  (latest : Z) (rest : list Z) :
  q_by_title source (db c) <> [] ->
  q_latest_by_title (site self) dest = latest :: rest ->
  process_move self (source, dest) c
  = execute self (UpdateMove dest latest source) c.
Proof.
  intros H1 H2. unfold process_move, bind, select.
  destruct (q_by_title source (db c)); [congruence|]. simpl.
  rewrite H2. reflexivity.
Qed.

(** The fallback of the move handler: with up to eleven rows under the old
    title and no page of the new title in the replica, the handler raises
    and writes nothing. *)
Lemma process_move_fallback (self : Task) (source dest : string) (c : Cursor) :
  q_by_title source (db c) <> [] ->
  (List.length (q_by_title source (db c)) <= 11)%nat ->
  q_latest_by_title (site self) dest = [] ->
  process_move self (source, dest) c = (Raise IndexError, c).
Proof.
  intros H1 Hlen H2. unfold process_move, bind, select.
  destruct (q_by_title source (db c)) as [|r rows] eqn:Q; [congruence|].
  cbn [Py.truthy_tuple negb]. rewrite H2.
  assert (E : nth_error (r :: rows) 11 = None) by now apply nth_error_None.
  rewrite E. reflexivity.
Qed.

(** C6. On a move of a tracked page whose new title the replica does not
    list yet, the handler raises [IndexError] from [result[11]] and writes
    nothing: the record keeps its old title. *)
Theorem process_move_fallback_raises :
  on_store (process_move move_task_lagging ("A", "B")) move_store
  = (Raise IndexError, {| db := move_store; log := [] |}).
Proof. vm_compute. reflexivity. Qed.

Example process_move_replica_has_dest :
  on_store (process_move move_task_caught_up ("A", "B")) move_store
  = (Ok tt,
     {| db := mk_store [set_move "B" 11 (mk_page 7 (Some "pend") "A" 10)]
                       [ {| row_id := 7; row_chart := 1 |} ];
        log := [UpdateMove "B" 11 "A"] |}).
Proof. vm_compute. reflexivity. Qed.

(** ** Track and untrack *)

Lemma filter_keep_all {A} (f : A -> bool) (l : list A) :
  (forall x, In x l -> f x = true) -> filter f l = l.
Proof.
  induction l as [|a l IH]; simpl; intros H; trivial.
  rewrite (H a) by now left. f_equal. apply IH. intros x Hx. apply H. now right.
Qed.

Lemma existsb_false {A} (f : A -> bool) (l : list A) :
  (forall x, In x l -> f x = false) -> existsb f l = false.
Proof.
  induction l as [|a l IH]; simpl; intros H; trivial.
  rewrite (H a) by now left. apply IH. intros x Hx. apply H. now right.
Qed.

Lemma store_eta (st : Store) :
  {| tbl_page := tbl_page st; tbl_row := tbl_row st; tbl_chart := tbl_chart st |} = st.
Proof. now destruct st. Qed.

(** A DELETE whose WHERE clause no joined pair satisfies changes nothing. *)
Lemma delete_join_noop (cond : PageRow -> RowRow -> bool) (st : Store) :
  (forall p r, In p (tbl_page st) -> In r (tbl_row st) ->
               page_id p = row_id r -> cond p r = false) ->
  delete_join cond st = st.
Proof.
  intros H. unfold delete_join.
  rewrite !filter_keep_all; [apply store_eta | |].
  - intros r Hr. apply negb_true_iff, existsb_false. intros p Hp.
    destruct (Z.eqb_spec (page_id p) (row_id r)) as [E|]; trivial.
    simpl. now apply H.
  - intros p Hp. apply negb_true_iff, existsb_false. intros r Hr.
    destruct (Z.eqb_spec (page_id p) (row_id r)) as [E|]; trivial.
    simpl. now apply H.
Qed.

Lemma get_create_raises (self : Task) (pageid : Z) :
  get_create self pageid = Raise IndexError \/ get_create self pageid = Raise NameError.
Proof. unfold get_create. destruct (q_rev_by_id (site self) pageid); auto. Qed.

(** [track_page] never reaches its INSERT statements: it returns early, or
    [get_create] raises. *)
Lemma track_page_writes_nothing (self : Task) (title : string) (c : Cursor) :
  snd (track_page self title c) = c.
Proof.
  unfold track_page.
  destruct (get_status_and_chart _ _) as [status chart].
  destruct (negb (Py.truthy_opt status) || status_in status ["accept"; "decline"]);
    [reflexivity|].
  unfold bind, lift.
  destruct (get_create_raises self (wp_pageid (get_page (site self) title))) as [-> | ->];
    reflexivity.
Qed.

(** A pending draft that is not in the store: the creation lookup asks
    table [revision] for a revision whose id is the page id, finds none, and
    the subscript raises; had it found one, the unbound [query2] would. *)
Example track_page_pending_draft :
  on_store (track_page fresh_task "Draft") other_store
  = (Raise IndexError, {| db := other_store; log := [] |})
  /\ get_create
       (mk_task (fun _ => wiki_page pending_text 7 "Draft") []
          [ {| rev_id := 7; rev_user_text := "Ann";
               rev_timestamp := "20110101000000"; rev_page := 2 |} ] [] 0) 7
     = Raise NameError.
Proof. split; vm_compute; reflexivity. Qed.




(** C4.  The round trip is never made.  For a pending draft that the store
    does not have, [track_page] raises before its two INSERT statements and
    leaves the store as it found it; and [untrack_page], asked by id or by
    title for a record that the store does have, sends its DELETE and
    removes neither of the record's two rows. *)
Theorem track_untrack_neither_writes :
  on_store (track_page fresh_task "Draft") other_store
  = (Raise IndexError, {| db := other_store; log := [] |})
  /\ on_store (track_page fresh_task "Draft" ;;
               untrack_page fresh_task (Some 7) None) other_store
     = (Raise IndexError, {| db := other_store; log := [] |})
  /\ In (mk_page 7 (Some "pend") "Draft" 10) (tbl_page draft_store)
  /\ on_store (untrack_page fresh_task (Some 7) None) draft_store
     = (Ok tt, {| db := draft_store; log := [DeleteWhereId 7] |})
  /\ on_store (untrack_page fresh_task None (Some "Draft")) draft_store
     = (Ok tt, {| db := draft_store; log := [DeleteWhereTitle "Draft"] |}).
Proof.
  split; [vm_compute; reflexivity|]. split; [vm_compute; reflexivity|].
  split; [simpl; auto|]. split; vm_compute; reflexivity.
Qed.

(** ** Reading the join *)

Lemma in_join (st : Store) (p : PageRow) (r : RowRow) :
  In (p, r) (join st) <->
  In p (tbl_page st) /\ In r (tbl_row st) /\ page_id p = row_id r.
Proof.
  unfold join. rewrite in_flat_map. split.
  - intros (q & Hq & Hin). apply in_map_iff in Hin.
    destruct Hin as (r' & E & Hr). injection E as <- <-.
    apply filter_In in Hr. destruct Hr as [Hr E]. apply Z.eqb_eq in E. auto.
  - intros (Hp & Hr & E). exists p. split; trivial.
    apply in_map. apply filter_In. split; trivial. now apply Z.eqb_eq.
Qed.

(** ** A page that stopped being a submission *)

(** C3.  A tracked draft whose text no longer carries a submission marker:
    the classifier returns [(None, 0)], [update_page] sends the DELETE of
    [untrack_page], which removes nothing, and, the branch having no
    [return], goes on to the lookups and the diff: the record stays in both
    tables and receives the modify and the status writes.  [track_page]
    returns at the same test. *)
Theorem update_page_keeps_unclassified :
  get_status_and_chart (get_page (site plain_task))
    (get_page (site plain_task) "Draft") = (None, 0)
  /\ In (mk_page 7 (Some "pend") "Draft" 10) (tbl_page pending_store)
  /\ on_store (update_page plain_task "Draft") pending_store
     = (Ok tt,
        {| db := mk_store
                   [ set_status None
                       (set_modify 19 "Bob" 20120103000000 11
                          (mk_page 7 (Some "pend") "Draft" 10)) ]
                   [ {| row_id := 7; row_chart := 0 |} ];
           log := [ DeleteWhereTitle "Draft";
                    UpdateModify 19 "Bob" 20120103000000 11 7;
                    UpdateStatus None 0 7 ] |})
  /\ on_store (track_page plain_task "Draft") pending_store
     = (Ok tt, {| db := pending_store; log := [] |}).
Proof.
  split; [vm_compute; reflexivity|]. split; [simpl; auto|].
  split; vm_compute; reflexivity.
Qed.

(** ** UPDATE statements seen through the join *)

Lemma filter_map_comm {A B} (f : B -> bool) (g : A -> B) (l : list A) :
  filter f (map g l) = map g (filter (fun a => f (g a)) l).
Proof.
  induction l as [|a l IH]; simpl; trivial.
  destruct (f (g a)); simpl; now rewrite IH.
Qed.

(** Rewriting both tables row by row, without touching the keys, rewrites
    the join pair by pair. *)
Lemma join_map (st : Store) (F : PageRow -> PageRow) (H : RowRow -> RowRow)
  (ch : list ChartRow) :
  (forall p, page_id (F p) = page_id p) ->
  (forall r, row_id (H r) = row_id r) ->
  join {| tbl_page := map F (tbl_page st); tbl_row := map H (tbl_row st);
          tbl_chart := ch |}
  = map (fun pr => (F (fst pr), H (snd pr))) (join st).
Proof.
  intros HF HH. unfold join. simpl.
  induction (tbl_page st) as [|p ps IH]; simpl; trivial.
  rewrite map_app, IH. f_equal.
  rewrite filter_map_comm, !map_map. simpl.
  f_equal. apply filter_ext. intros r. now rewrite HF, HH.
Qed.

Lemma q_join_by_id_exec (now : Z) (pageid : Z) (q : Stmt) (st : Store) :
  updates_id pageid q ->
  q_join_by_id pageid (exec now q st) = map (upd_of q) (q_join_by_id pageid st).
Proof.
  intros Hq. unfold q_join_by_id.
  assert (Hmap : forall (F : PageRow -> PageRow) (H : RowRow -> RowRow) ch,
    (forall p, page_id (F p) = page_id p) ->
    (forall r, row_id (H r) = row_id r) ->
    (forall p r, In (p, r) (join st) -> page_id p = pageid ->
                 (F p, H r) = upd_of q (p, r)) ->
    filter (fun pr => page_id (fst pr) =? pageid)
      (join {| tbl_page := map F (tbl_page st); tbl_row := map H (tbl_row st);
               tbl_chart := ch |})
    = map (upd_of q) (filter (fun pr => page_id (fst pr) =? pageid) (join st))).
  { intros F H ch HF HH Hupd. rewrite join_map by assumption.
    rewrite filter_map_comm. simpl.
    erewrite filter_ext by (intros pr; rewrite HF; reflexivity).
    apply map_ext_in. intros [p r] Hin. apply filter_In in Hin.
    destruct Hin as [Hin E]. apply Z.eqb_eq in E. simpl. now apply Hupd. }
  assert (Hid : forall f : PageRow -> PageRow,
             (forall p, page_id (f p) = page_id p) ->
             forall p, page_id (if page_id p =? pageid then f p else p) = page_id p).
  { intros f Hf p. destruct (page_id p =? pageid); auto. }
  destruct q; simpl in Hq; try contradiction; subst; simpl;
    unfold update_page_where.
  - rewrite <- (map_id (tbl_row st)) at 1. apply Hmap; auto.
    intros p r _ E. simpl. apply Z.eqb_eq in E. now rewrite E.
  - rewrite <- (map_id (tbl_row st)) at 1. apply Hmap; auto.
    intros p r _ E. simpl. apply Z.eqb_eq in E. now rewrite E.
  - apply Hmap.
    + intros p. destruct (_ && _); reflexivity.
    + intros r. destruct (has_page st r pageid); reflexivity.
    + intros p r Hin E. apply in_join in Hin. destruct Hin as (Hp & Hr & Eid).
      assert (E1 : has_row st p = true).
      { apply existsb_exists. exists r. split; trivial. now apply Z.eqb_eq. }
      assert (E2 : has_page st r pageid = true).
      { apply existsb_exists. exists p. split; trivial.
        apply andb_true_iff. split; now apply Z.eqb_eq. }
      simpl. apply Z.eqb_eq in E. now rewrite E, E1, E2.
  - rewrite <- (map_id (tbl_row st)) at 1. apply Hmap; auto.
    intros p r _ E. simpl. apply Z.eqb_eq in E. now rewrite E.
  - rewrite <- (map_id (tbl_row st)) at 1. apply Hmap; auto.
    intros p r _ E. simpl. apply Z.eqb_eq in E. now rewrite E.
Qed.

Lemma execute_all_log (self : Task) (qs : list Stmt) (c : Cursor) :
  log (execute_all self qs c) = (log c ++ qs)%list.
Proof.
  revert c. induction qs as [|q qs IH]; intros c; simpl.
  - now rewrite app_nil_r.
  - unfold execute_all in *. simpl. rewrite IH. simpl.
    now rewrite <- app_assoc.
Qed.

Lemma execute_all_app (self : Task) (qs qs' : list Stmt) (c : Cursor) :
  execute_all self (qs ++ qs') c = execute_all self qs' (execute_all self qs c).
Proof. unfold execute_all. apply fold_left_app. Qed.

Lemma q_join_by_id_execute_all (self : Task) (pageid : Z) (qs : list Stmt) (c : Cursor) :
  Forall (updates_id pageid) qs ->
  q_join_by_id pageid (db (execute_all self qs c))
  = map (upd_all qs) (q_join_by_id pageid (db c)).
Proof.
  intros H. revert c. induction H as [|q qs Hq _ IH]; intros c.
  - simpl. now rewrite map_id.
  - unfold execute_all, upd_all in *. simpl. rewrite IH. simpl.
    rewrite (q_join_by_id_exec _ _ _ _ Hq), map_map. reflexivity.
Qed.

Lemma diff_stmts_updates_id title short size m_user m_time m_id status chart
  special notes (pageid : Z) (result : PageRow) :
  Forall (updates_id pageid)
    (diff_stmts title short size m_user m_time m_id status chart special notes
       pageid result).
Proof.
  unfold diff_stmts. destruct special as [[s_user s_time] s_id].
  repeat match goal with
         | |- context [if ?b then _ else _] => destruct b
         end; simpl; repeat constructor.
Qed.

Lemma untrack_page_ok (self : Task) (pageid : option Z) (title : option string)
  (c : Cursor) :
  fst (untrack_page self pageid title c) = Ok tt.
Proof.
  unfold untrack_page, when.
  destruct pageid as [i|], title as [t|];
    try destruct (Py.truthy_int i); try destruct (Py.truthy_str t); reflexivity.
Qed.

(** [update_page] in three steps: the untrack of an unclassified page, the
    two lookups, and the diff. *)
Lemma update_page_steps (self : Task) (title : string) (c : Cursor) :
  let page := get_page (site self) title in
  let status := fst (get_status_and_chart (get_page (site self)) page) in
  let chart := snd (get_status_and_chart (get_page (site self)) page) in
  let pageid := wp_pageid page in
  let c0 := snd (when (negb (Py.truthy_opt status))
                      (untrack_page self None (Some title)) c) in
  update_page self title c =
    match get_modify self pageid with
    | Raise e => (Raise e, c0)
    | Ok (m_user, m_time, m_id) =>
        match q_join_by_id pageid (db c0) with
        | [] => (Raise IndexError, c0)
        | pr :: _ =>
            (Ok tt,
             execute_all self
               (diff_stmts (wp_title page) (get_short_title (wp_title page))
                  (Py.len (wp_get page)) m_user m_time m_id status chart
                  (get_special page status) (get_notes page) pageid (fst pr))
               c0)
        end
    end.
Proof.
  intros page status chart pageid c0.
  assert (E0 : when (negb (Py.truthy_opt status))
                 (untrack_page self None (Some title)) c = (Ok tt, c0)).
  { subst c0. unfold when. destruct (negb (Py.truthy_opt status)); trivial.
    pose proof (untrack_page_ok self None (Some title) c) as E.
    destruct (untrack_page self None (Some title) c) as [r c1].
    simpl in E. rewrite E. reflexivity. }
  clearbody c0.
  unfold update_page. fold page.
  subst status chart. destruct (get_status_and_chart (get_page (site self)) page)
    as [status chart]. cbn [fst snd] in *.
  unfold bind at 1.
  rewrite E0. fold pageid. unfold bind at 1. unfold lift.
  destruct (get_modify self pageid) as [[[m_user m_time] m_id] | e]; trivial.
  unfold bind at 1. unfold select.
  destruct (q_join_by_id pageid (db c0)) as [|[result rr] rows]; trivial.
  simpl map. unfold first_row. unfold bind at 1. unfold ret at 1.
  unfold diff_stmts, get_special, get_notes. simpl fst.
  destruct (negb (String.eqb (wp_title page) (page_title result)));
  destruct (negb (m_id =? page_modify_oldid result));
  destruct (negb (Py.eqb_opt String.eqb status (page_status result)));
  destruct (negb (Py.eqb_opt Z.eqb None (page_special_oldid result)));
  destruct (negb (Py.eqb_opt String.eqb None (page_notes result)));
  reflexivity.
Qed.

(** ** Update idempotence *)

Lemma eqb_opt_string_refl (s : option string) : Py.eqb_opt String.eqb s s = true.
Proof. destruct s; simpl; trivial. apply String.eqb_refl. Qed.

Lemma eqb_opt_Z_refl (z : option Z) : Py.eqb_opt Z.eqb z z = true.
Proof. destruct z; simpl; trivial. apply Z.eqb_refl. Qed.

(** Once the statements of a diff are applied to the row, the same fresh
    values give the empty diff. *)
Lemma diff_stmts_settled title short size m_user m_time m_id status chart
  special notes (pageid : Z) (result : PageRow) (rr : RowRow) :
  diff_stmts title short size m_user m_time m_id status chart special notes pageid
    (fst (upd_all
            (diff_stmts title short size m_user m_time m_id status chart special
               notes pageid result)
            (result, rr)))
  = [].
Proof.
  unfold diff_stmts, upd_all. destruct special as [[s_user s_time] s_id].
  destruct (negb (String.eqb title (page_title result))) eqn:E1;
  destruct (negb (m_id =? page_modify_oldid result)) eqn:E2;
  destruct (negb (Py.eqb_opt String.eqb status (page_status result))) eqn:E3;
  destruct (negb (Py.eqb_opt Z.eqb s_id (page_special_oldid result))) eqn:E4;
  destruct (negb (Py.eqb_opt String.eqb notes (page_notes result))) eqn:E5;
  simpl;
  rewrite ?String.eqb_refl, ?Z.eqb_refl, ?eqb_opt_string_refl, ?eqb_opt_Z_refl,
    ?E1, ?E2, ?E3, ?E4, ?E5; reflexivity.
Qed.

Lemma diff_stmts_differ title short size m_user m_time m_id status chart
  special notes (pageid : Z) (result : PageRow) :
  Forall (writes_a_difference result)
    (diff_stmts title short size m_user m_time m_id status chart special notes
       pageid result).
Proof.
  unfold diff_stmts. destruct special as [[s_user s_time] s_id].
  destruct (negb (String.eqb title (page_title result))) eqn:E1;
  destruct (negb (m_id =? page_modify_oldid result)) eqn:E2;
  destruct (negb (Py.eqb_opt String.eqb status (page_status result))) eqn:E3;
  destruct (negb (Py.eqb_opt Z.eqb s_id (page_special_oldid result))) eqn:E4;
  destruct (negb (Py.eqb_opt String.eqb notes (page_notes result))) eqn:E5;
  simpl; repeat constructor; simpl; intros E;
  rewrite ?E, <- ?E, ?String.eqb_refl, ?Z.eqb_refl, ?eqb_opt_string_refl,
    ?eqb_opt_Z_refl in *; discriminate.
Qed.

(** C7. For a page the classifier gives a status, a second call of
    [update_page] right after a first one leaves the cursor as the first one
    left it: it writes nothing.  When the first call returns, so does the
    second, and the statements of the first call are the diff of the freshly
    computed values against the stored row: one statement per field group,
    and each writes a value that differs from the stored one.  When the
    first call raises, it has written nothing either. *)
Theorem update_page_idempotent :
  forall (self : Task) (title : string) (c : Cursor),
    let page := get_page (site self) title in
    let status := fst (get_status_and_chart (get_page (site self)) page) in
    let chart := snd (get_status_and_chart (get_page (site self)) page) in
    let c1 := snd (update_page self title c) in
    Py.truthy_opt status = true ->
    snd (update_page self title c1) = c1
    /\ (fst (update_page self title c) = Ok tt ->
        fst (update_page self title c1) = Ok tt
        /\ exists result rr rest m_user m_time m_id,
             q_join_by_id (wp_pageid page) (db c) = (result, rr) :: rest
             /\ get_modify self (wp_pageid page) = Ok (m_user, m_time, m_id)
             /\ log c1
                = (log c ++
                   diff_stmts (wp_title page) (get_short_title (wp_title page))
                     (Py.len (wp_get page)) m_user m_time m_id status chart
                     (get_special page status) (get_notes page) (wp_pageid page)
                     result)%list
             /\ Forall (writes_a_difference result)
                  (diff_stmts (wp_title page) (get_short_title (wp_title page))
                     (Py.len (wp_get page)) m_user m_time m_id status chart
                     (get_special page status) (get_notes page) (wp_pageid page)
                     result))
    /\ (forall e, fst (update_page self title c) = Raise e -> c1 = c).
Proof.
  intros self title c page status chart c1 Hst.
  assert (S : forall c, update_page self title c =
            match get_modify self (wp_pageid page) with
            | Raise e => (Raise e, c)
            | Ok (m_user, m_time, m_id) =>
                match q_join_by_id (wp_pageid page) (db c) with
                | [] => (Raise IndexError, c)
                | pr :: _ =>
                    (Ok tt,
                     execute_all self
                       (diff_stmts (wp_title page) (get_short_title (wp_title page))
                          (Py.len (wp_get page)) m_user m_time m_id status chart
                          (get_special page status) (get_notes page)
                          (wp_pageid page) (fst pr)) c)
                end
            end).
  { intros c'. pose proof (update_page_steps self title c') as S.
    cbv zeta in S. fold page in S. fold status in S. fold chart in S.
    rewrite Hst in S. exact S. }
  subst c1. rewrite (S c).
  destruct (get_modify self (wp_pageid page)) as [[[m_user m_time] m_id] | e] eqn:Em.
  2:{ simpl. rewrite (S c), ?Em. simpl. repeat split; trivial. discriminate. }
  destruct (q_join_by_id (wp_pageid page) (db c)) as [|[result rr] rest] eqn:Q.
  { simpl. rewrite (S c), ?Em, ?Q. simpl. repeat split; trivial. discriminate. }
  cbn [fst snd].
  set (qs := diff_stmts (wp_title page) (get_short_title (wp_title page))
               (Py.len (wp_get page)) m_user m_time m_id status chart
               (get_special page status) (get_notes page) (wp_pageid page) result).
  assert (E2 : update_page self title (execute_all self qs c)
               = (Ok tt, execute_all self qs c)).
  { rewrite (S (execute_all self qs c)), ?Em.
    rewrite q_join_by_id_execute_all by apply diff_stmts_updates_id.
    rewrite Q. cbn [map fst]. unfold qs. rewrite diff_stmts_settled. reflexivity. }
  rewrite E2. cbn [fst snd]. split; [reflexivity|]. split; [|discriminate].
  intros _. split; [reflexivity|].
  exists result, rr, rest, m_user, m_time, m_id.
  split; [reflexivity|]. split; [reflexivity|]. split.
  - apply execute_all_log.
  - apply diff_stmts_differ.
Qed.

Lemma update_page_idempotent_witness :
  snd (update_page stale_task "Draft"
         {| db := mk_store [refreshed_page] [ {| row_id := 7; row_chart := 1 |} ];
            log := [UpdateModify (Py.len pending_text) "Bob" 20120103000000 11 7] |})
  = {| db := mk_store [refreshed_page] [ {| row_id := 7; row_chart := 1 |} ];
       log := [UpdateModify (Py.len pending_text) "Bob" 20120103000000 11 7] |}.
Proof.
  refine (proj1 (update_page_idempotent stale_task "Draft"
            {| db := mk_store [mk_page 7 (Some "pend") "Draft" 10]
                              [ {| row_id := 7; row_chart := 1 |} ];
               log := [] |} _)).
  vm_compute. reflexivity.
Defined.

(** ** Special fields *)

Example update_page_accepts_draft :
  on_store (update_page accepted_task "Draft") pending_store
  = (Ok tt,
     {| db := mk_store
                [set_status (Some "accept")
                   (set_modify 21 "Eve" 20120103000000 11
                      (mk_page 7 (Some "pend") "Draft" 10))]
                [ {| row_id := 7; row_chart := 4 |} ];
        log := [UpdateModify 21 "Eve" 20120103000000 11 7;
                UpdateStatus (Some "accept") 4 7] |}).
Proof. vm_compute. reflexivity. Qed.

(** C9, as stated, fails: a pending record whose page becomes a redirect
    into the main namespace moves to bucket 4 with its special fields still
    NULL, since [get_special] returns nothing.  The biconditional holds
    before this status transition of [update_page] and not after it; the
    edit handler makes the same step. *)
Lemma special_iff_terminal_broken_by_accept :
  special_iff_terminal pending_store
  /\ ~ special_iff_terminal
         (db (snd (on_store (update_page accepted_task "Draft") pending_store)))
  /\ db (snd (on_store (process_edit accepted_task "Draft") pending_store))
     = db (snd (on_store (update_page accepted_task "Draft") pending_store))
  /\ reachable pending_store
       (db (snd (on_store (process_edit accepted_task "Draft") pending_store))).
Proof.
  split; [|split; [|split]].
  - intros p r Hin. apply in_join in Hin. simpl in Hin.
    destruct Hin as ([<- | []] & [<- | []] & _).
    unfold special_populated, terminal; simpl. split.
    + intros (H & _). congruence.
    + intros [H | H]; discriminate.
  - rewrite update_page_accepts_draft. cbn [snd db]. intros H.
    specialize (H (set_status (Some "accept")
                     (set_modify 21 "Eve" 20120103000000 11
                        (mk_page 7 (Some "pend") "Draft" 10)))
                  {| row_id := 7; row_chart := 4 |}).
    assert (Hin : In (set_status (Some "accept")
                        (set_modify 21 "Eve" 20120103000000 11
                           (mk_page 7 (Some "pend") "Draft" 10)),
                      {| row_id := 7; row_chart := 4 |})
                     (join (mk_store
                        [set_status (Some "accept")
                           (set_modify 21 "Eve" 20120103000000 11
                              (mk_page 7 (Some "pend") "Draft" 10))]
                        [ {| row_id := 7; row_chart := 4 |} ]))).
    { apply in_join. simpl. auto. }
    apply H in Hin. destruct Hin as [_ Hback].
    destruct (Hback (or_introl eq_refl)) as (Hu & _). apply Hu. reflexivity.
  - vm_compute. reflexivity.
  - eapply reach_step; [apply reach_start | apply step_edit].
Qed.

(** *** Store properties along a computation *)

Section Preservation.

Variable I : Store -> Prop.

Lemma preserves_ret {A} (a : A) : preserves I (ret a).
Proof. intros c H. exact H. Qed.

Lemma preserves_raise {A} (e : exn) : preserves I (@raise A e).
Proof. intros c H. exact H. Qed.

Lemma preserves_lift {A} (r : Res A) : preserves I (lift r).
Proof. intros c H. exact H. Qed.

Lemma preserves_select {A} (q : Store -> A) : preserves I (select q).
Proof. intros c H. exact H. Qed.

Lemma preserves_bind {A B} (m : M A) (k : A -> M B) :
  preserves I m -> (forall a, preserves I (k a)) -> preserves I (bind m k).
Proof.
  intros Hm Hk c H. unfold bind. specialize (Hm c H).
  destruct (m c) as [[a | e] c']; simpl in *; [now apply Hk | exact Hm].
Qed.

Lemma preserves_when (b : bool) (m : M unit) :
  preserves I m -> preserves I (when b m).
Proof. intros Hm. destruct b; [exact Hm | apply preserves_ret]. Qed.

Lemma preserves_for_each {A} (xs : list A) (body : A -> M unit) :
  (forall x, preserves I (body x)) -> preserves I (for_each xs body).
Proof.
  intros Hb. induction xs as [|x xs IH]; simpl.
  - apply preserves_ret.
  - apply preserves_bind; [apply Hb | intros _; exact IH].
Qed.

Lemma preserves_for_cursor {A} (xs : list A) (body : A -> M unit) :
  (forall x, preserves I (body x)) -> preserves I (for_cursor xs body).
Proof.
  intros Hb. induction xs as [|x xs IH]; simpl.
  - apply preserves_ret.
  - intros c H. specialize (Hb x c H).
    destruct (body x c) as [[[] | e] c']; simpl in *; trivial.
    destruct (Nat.eqb _ _); [now apply IH | exact Hb].
Qed.

Lemma preserves_execute (self : Task) (q : Stmt) :
  (forall st, I st -> I (exec (sql_now self) q st)) -> preserves I (execute self q).
Proof. intros Hq c H. simpl. now apply Hq. Qed.

Lemma preserves_track_page (self : Task) (title : string) :
  preserves I (track_page self title).
Proof. intros c H. now rewrite track_page_writes_nothing. Qed.

End Preservation.

Lemma NoDup_map_filter {A B} (f : A -> B) (g : A -> bool) (l : list A) :
  NoDup (map f l) -> NoDup (map f (filter g l)).
Proof.
  induction l as [|a l IH]; simpl; intros H; trivial.
  inversion H as [|x xs Hnot Hnd]; subst.
  destruct (g a); simpl; [constructor|]; auto.
  intros Hin. apply Hnot. apply in_map_iff in Hin.
  destruct Hin as (b & E & Hb). apply filter_In in Hb.
  apply in_map_iff. exists b. tauto.
Qed.

Lemma NoDup_map_inj {A B} (f : A -> B) (l : list A) (a b : A) :
  NoDup (map f l) -> In a l -> In b l -> f a = f b -> a = b.
Proof.
  induction l as [|x l IH]; simpl; intros H Ha Hb E; [contradiction|].
  inversion H as [|y ys Hnot Hnd]; subst.
  destruct Ha as [-> | Ha], Hb as [-> | Hb]; trivial.
  - exfalso. apply Hnot. rewrite E. now apply in_map.
  - exfalso. apply Hnot. rewrite <- E. now apply in_map.
  - now apply IH.
Qed.

Lemma special_only_terminal_delete (cond : PageRow -> RowRow -> bool) (st : Store) :
  special_only_terminal st -> special_only_terminal (delete_join cond st).
Proof.
  intros [Hnd Hsp]. split.
  - unfold delete_join; simpl. now apply NoDup_map_filter.
  - intros p r Hin. apply Hsp. apply in_join in Hin. apply in_join.
    destruct Hin as (Hp & Hr & E).
    apply delete_join_page_In in Hp. apply delete_join_row_In in Hr. tauto.
Qed.

Lemma special_only_terminal_untrack (self : Task) (pageid : option Z)
  (title : option string) :
  preserves special_only_terminal (untrack_page self pageid title).
Proof.
  unfold untrack_page.
  destruct pageid as [i|], title as [t|]; try destruct (Py.truthy_int i);
    repeat first [ apply preserves_when | apply preserves_ret
                 | apply preserves_execute; intros st;
                   apply special_only_terminal_delete ].
Qed.

Lemma upd_of_page_id (q : Stmt) (pr : PageRow * RowRow) :
  page_id (fst (upd_of q pr)) = page_id (fst pr).
Proof. destruct q; reflexivity. Qed.

Lemma upd_of_row_id (q : Stmt) (pr : PageRow * RowRow) :
  row_id (snd (upd_of q pr)) = row_id (snd pr).
Proof. destruct q; reflexivity. Qed.

(** An UPDATE keyed by page id, seen on the whole join and on the keys. *)
Lemma join_exec_update (now : Z) (pageid : Z) (q : Stmt) (st : Store) :
  updates_id pageid q ->
  join (exec now q st)
  = map (fun pr => if page_id (fst pr) =? pageid then upd_of q pr else pr) (join st)
  /\ map page_id (tbl_page (exec now q st)) = map page_id (tbl_page st).
Proof.
  intros Hq.
  assert (Hmap : forall (F : PageRow -> PageRow) (H : RowRow -> RowRow) ch,
    (forall p, page_id (F p) = page_id p) ->
    (forall r, row_id (H r) = row_id r) ->
    (forall p r, In (p, r) (join st) ->
                 (F p, H r) = if page_id p =? pageid then upd_of q (p, r) else (p, r)) ->
    join {| tbl_page := map F (tbl_page st); tbl_row := map H (tbl_row st);
            tbl_chart := ch |}
    = map (fun pr => if page_id (fst pr) =? pageid then upd_of q pr else pr) (join st)
    /\ map page_id (map F (tbl_page st)) = map page_id (tbl_page st)).
  { intros F H ch HF HH Hupd. split.
    - rewrite join_map by assumption.
      apply map_ext_in. intros [p r] Hin. simpl. now apply Hupd.
    - rewrite map_map. apply map_ext. exact HF. }
  assert (Hid : forall f : PageRow -> PageRow,
             (forall p, page_id (f p) = page_id p) ->
             forall p, page_id (if page_id p =? pageid then f p else p) = page_id p).
  { intros f Hf p. destruct (page_id p =? pageid); auto. }
  destruct q; simpl in Hq; try contradiction; subst; simpl;
    unfold update_page_where.
  - rewrite <- (map_id (tbl_row st)) at 1. apply Hmap; auto.
    intros p r _. simpl. now destruct (page_id p =? pageid).
  - rewrite <- (map_id (tbl_row st)) at 1. apply Hmap; auto.
    intros p r _. simpl. now destruct (page_id p =? pageid).
  - apply Hmap.
    + intros p. destruct (_ && _); reflexivity.
    + intros r. destruct (has_page st r pageid); reflexivity.
    + intros p r Hin. apply in_join in Hin. destruct Hin as (Hp & Hr & Eid).
      assert (E1 : has_row st p = true).
      { apply existsb_exists. exists r. split; trivial. now apply Z.eqb_eq. }
      rewrite E1, andb_true_r. simpl.
      destruct (Z.eqb_spec (page_id p) pageid) as [E | N].
      * assert (E2 : has_page st r pageid = true).
        { apply existsb_exists. exists p. split; trivial.
          apply andb_true_iff. split; now apply Z.eqb_eq. }
        now rewrite E2.
      * assert (E2 : has_page st r pageid = false).
        { apply existsb_false. intros p' _.
          destruct (Z.eqb_spec (page_id p') (row_id r)) as [E' |]; trivial.
          simpl. apply Z.eqb_neq. congruence. }
        now rewrite E2.
  - rewrite <- (map_id (tbl_row st)) at 1. apply Hmap; auto.
    intros p r _. simpl. now destruct (page_id p =? pageid).
  - rewrite <- (map_id (tbl_row st)) at 1. apply Hmap; auto.
    intros p r _. simpl. now destruct (page_id p =? pageid).
Qed.

Lemma upd_all_page_id (qs : list Stmt) (pr : PageRow * RowRow) :
  page_id (fst (upd_all qs pr)) = page_id (fst pr).
Proof.
  revert pr. induction qs as [|q qs IH]; intros pr; trivial.
  unfold upd_all in *. simpl. now rewrite IH, upd_of_page_id.
Qed.

Lemma join_execute_all (self : Task) (pageid : Z) (qs : list Stmt) (c : Cursor) :
  Forall (updates_id pageid) qs ->
  join (db (execute_all self qs c))
  = map (fun pr => if page_id (fst pr) =? pageid then upd_all qs pr else pr)
        (join (db c))
  /\ map page_id (tbl_page (db (execute_all self qs c)))
     = map page_id (tbl_page (db c)).
Proof.
  intros H. revert c. induction H as [|q qs Hq _ IH]; intros c.
  - simpl. split; trivial. rewrite <- (map_id (join (db c))) at 1.
    apply map_ext. intros pr. now destruct (_ =? _).
  - change (execute_all self (q :: qs) c)
      with (execute_all self qs (snd (execute self q c))).
    remember (snd (execute self q c)) as c' eqn:Ec'.
    assert (Edb : db c' = exec (sql_now self) q (db c)) by (subst c'; reflexivity).
    destruct (IH c') as [IH1 IH2].
    destruct (join_exec_update (sql_now self) pageid q (db c) Hq) as [J1 J2].
    rewrite IH1, IH2, Edb, J1, J2. split; trivial.
    rewrite map_map. apply map_ext. intros pr.
    destruct (page_id (fst pr) =? pageid) eqn:E.
    + now rewrite upd_of_page_id, E.
    + now rewrite E.
Qed.

Lemma q_join_by_id_head (pageid : Z) (st : Store) (result : PageRow) (rr : RowRow)
  (rest : list (PageRow * RowRow)) :
  q_join_by_id pageid st = (result, rr) :: rest ->
  In (result, rr) (join st) /\ page_id result = pageid.
Proof.
  intros Q.
  assert (Hin : In (result, rr) (q_join_by_id pageid st)) by (rewrite Q; now left).
  apply filter_In in Hin. destruct Hin as [Hin E]. split; trivial.
  now apply Z.eqb_eq in E.
Qed.

(** The diff of [update_page] keeps the invariant: a change of status writes
    the new bucket and leaves the special fields NULL or sets them to NULL;
    any other write leaves bucket and special fields alone. *)
Lemma special_only_terminal_diff (self : Task) (c : Cursor) title short size
  m_user m_time m_id status chart notes (pageid : Z) (result : PageRow)
  (rr : RowRow) (rest : list (PageRow * RowRow)) :
  special_only_terminal (db c) ->
  q_join_by_id pageid (db c) = (result, rr) :: rest ->
  special_only_terminal
    (db (execute_all self
           (diff_stmts title short size m_user m_time m_id status chart
              (None, None, None) notes pageid result) c)).
Proof.
  intros [Hnd Hsp] Q.
  destruct (q_join_by_id_head _ _ _ _ _ Q) as [Hres Eres].
  set (qs := diff_stmts title short size m_user m_time m_id status chart
               (None, None, None) notes pageid result).
  destruct (join_execute_all self pageid qs c) as [J1 J2];
    [apply diff_stmts_updates_id|].
  split; [now rewrite J2|].
  intros p' r' Hin. rewrite J1 in Hin. apply in_map_iff in Hin.
  destruct Hin as ([p r] & E & Hin). simpl in E.
  destruct (Z.eqb_spec (page_id p) pageid) as [Eid | Nid].
  2:{ injection E as <- <-. now apply Hsp. }
  assert (p = result).
  { apply in_join in Hin. apply in_join in Hres.
    apply (NoDup_map_inj page_id (tbl_page (db c))); try tauto. congruence. }
  subst p. specialize (Hsp result r Hin). revert E. subst qs.
  unfold diff_stmts, upd_all, special_populated, terminal in *.
  destruct (negb (String.eqb title (page_title result)));
  destruct (negb (m_id =? page_modify_oldid result));
  destruct (negb (Py.eqb_opt String.eqb status (page_status result)));
  destruct (negb (Py.eqb_opt Z.eqb None (page_special_oldid result))) eqn:E4;
  destruct (negb (Py.eqb_opt String.eqb notes (page_notes result)));
  simpl; intros E; injection E as <- <-; simpl; trivial;
  intros (_ & _ & H3); exfalso; apply H3; trivial;
  destruct (page_special_oldid result); simpl in E4; congruence.
Qed.

Lemma special_only_terminal_update_page (self : Task) (title : string) :
  preserves special_only_terminal (update_page self title).
Proof.
  intros c H. rewrite update_page_steps. cbv zeta.
  set (c0 := snd (when _ _ c)).
  assert (H0 : special_only_terminal (db c0)).
  { subst c0. apply preserves_when; trivial. apply special_only_terminal_untrack. }
  clearbody c0.
  destruct (get_modify self _) as [[[m_user m_time] m_id] | e]; trivial.
  destruct (q_join_by_id _ (db c0)) as [|[result rr] rest] eqn:Q; trivial.
  simpl snd. unfold get_special. simpl fst.
  eapply special_only_terminal_diff; eassumption.
Qed.

Lemma special_only_terminal_move (now : Z) (dest : string) (oldid : Z)
  (source : string) (st : Store) :
  special_only_terminal st ->
  special_only_terminal (exec now (UpdateMove dest oldid source) st).
Proof.
  intros [Hnd Hsp]. simpl. unfold update_page_where.
  set (F := fun p => if String.eqb (page_title p) source then set_move dest oldid p else p).
  assert (HF : forall p, page_id (F p) = page_id p).
  { intros p. unfold F. now destruct (String.eqb _ _). }
  split.
  - simpl. rewrite map_map. erewrite map_ext; [exact Hnd | exact HF].
  - intros p' r' Hin. rewrite <- (map_id (tbl_row st)) in Hin.
    rewrite join_map in Hin by auto. apply in_map_iff in Hin.
    destruct Hin as ([p r] & E & Hin). simpl in E. injection E as <- <-.
    intros Hpop. apply (Hsp p r Hin). revert Hpop.
    unfold F, special_populated. now destruct (String.eqb _ _).
Qed.

Lemma special_only_terminal_sync_page (self : Task) (page : string) :
  preserves special_only_terminal (sync_page self page).
Proof.
  unfold sync_page. apply preserves_bind; [apply preserves_select|].
  intros result. destruct (Py.truthy_tuple result).
  - apply special_only_terminal_update_page.
  - apply preserves_track_page.
Qed.

Lemma special_only_terminal_process_edit (self : Task) (page : string) :
  preserves special_only_terminal (process_edit self page).
Proof.
  unfold process_edit. destruct (Py.mem page (ignore_list self)).
  - apply preserves_ret.
  - apply special_only_terminal_sync_page.
Qed.

Lemma special_only_terminal_process_move (self : Task) (page : string * string) :
  preserves special_only_terminal (process_move self page).
Proof.
  destruct page as [source dest]. unfold process_move.
  apply preserves_bind; [apply preserves_select|]. intros result.
  destruct (negb (Py.truthy_tuple result)); [apply preserves_track_page|].
  apply preserves_bind.
  - destruct (q_latest_by_title (site self) dest); [|apply preserves_ret].
    destruct (nth_error result 11); apply preserves_raise.
  - intros new_oldid. apply preserves_execute. intros st.
    apply special_only_terminal_move.
Qed.

Lemma special_only_terminal_process_delete (self : Task) (page : string) :
  preserves special_only_terminal (process_delete self page).
Proof.
  unfold process_delete.
  destruct (q_page_id_by_title (site self) page); [apply preserves_raise|].
  simpl. apply special_only_terminal_sync_page.
Qed.

Lemma special_only_terminal_sync_deleted (self : Task) :
  preserves special_only_terminal (sync_deleted self).
Proof.
  unfold sync_deleted. apply preserves_bind; [apply preserves_select|].
  intros pages. apply preserves_for_cursor. intros page.
  apply preserves_bind; [apply preserves_lift|]. intros result.
  destruct result; [apply preserves_raise|].
  apply preserves_when, preserves_when, preserves_raise.
Qed.

Lemma special_only_terminal_sync_oldids (self : Task) :
  preserves special_only_terminal (sync_oldids self).
Proof.
  unfold sync_oldids. apply preserves_bind; [apply preserves_select|].
  intros pages. apply preserves_for_cursor. intros [[page_id title] oldid].
  destruct (q_latest_by_id (site self) page_id).
  - apply special_only_terminal_untrack.
  - apply preserves_when, special_only_terminal_update_page.
Qed.

Lemma special_only_terminal_sync_pending (self : Task) :
  preserves special_only_terminal (sync_pending self).
Proof.
  unfold sync_pending. apply preserves_bind; [apply preserves_select|].
  intros tracked. apply preserves_for_each. intros page.
  destruct (Py.mem page (ignore_list self)); [apply preserves_ret|].
  apply preserves_when, preserves_track_page.
Qed.

Lemma special_only_terminal_sync_old (self : Task) :
  preserves special_only_terminal (sync_old self).
Proof.
  unfold sync_old. apply preserves_execute. intros st.
  apply special_only_terminal_delete.
Qed.

Lemma special_only_terminal_sync (self : Task) :
  preserves special_only_terminal (sync self).
Proof.
  unfold sync.
  apply preserves_bind; [apply special_only_terminal_sync_deleted | intros _].
  apply preserves_bind; [apply special_only_terminal_sync_oldids | intros _].
  apply preserves_bind; [apply special_only_terminal_sync_pending | intros _].
  apply special_only_terminal_sync_old.
Qed.

(** C9, amended.  From a store that satisfies it, every store the sync
    engine reaches keeps: page ids are unique, and a record whose special
    fields are all non-NULL is in bucket 4 or 5.  [track_page] and
    [update_page], on any page and from any such store, keep it as well. *)
Theorem special_only_terminal_reachable :
  forall (st0 st : Store),
    special_only_terminal st0 ->
    reachable st0 st ->
    special_only_terminal st
    /\ (forall self title,
          special_only_terminal (db (snd (on_store (track_page self title) st))))
    /\ (forall self title,
          special_only_terminal (db (snd (on_store (update_page self title) st)))).
Proof.
  intros st0 st H0 Hreach.
  assert (H : special_only_terminal st).
  { induction Hreach as [|st st' _ IH Hstep]; trivial.
    destruct Hstep; unfold on_store.
    - now apply special_only_terminal_process_edit.
    - now apply special_only_terminal_process_move.
    - now apply special_only_terminal_process_delete.
    - now apply special_only_terminal_sync. }
  split; [exact H|]. split; intros self title; unfold on_store.
  - now apply preserves_track_page.
  - now apply special_only_terminal_update_page.
Qed.

Lemma special_only_terminal_reachable_witness :
  special_only_terminal
    (db (snd (on_store (process_edit accepted_task "Draft") pending_store))).
Proof.
  refine (proj1 (special_only_terminal_reachable pending_store _ _ _)).
  - split.
    + simpl. constructor; [intros [] | constructor].
    + intros p r Hin. apply in_join in Hin. simpl in Hin.
      destruct Hin as ([<- | []] & _). intros (H & _). now elim H.
  - eapply reach_step; [apply reach_start | apply step_edit].
Defined.

(** ** Chart compiler *)

Example compile_charts_two_rows :
  compile_charts chart_task chart_store
  = Ok ("{{AFC statistics/header|Pending submissions}}" ++ Py.newline
        ++ "{{AFC statistics/row|s=pend|t=Draft|h=Draft|z=10|cr=Ann|cd=20120101000000|ci=1|mr=Bob|md=20120102000000|mi=10|}}"
        ++ Py.newline
        ++ "{{AFC statistics/row|s=pend|t=Essay|h=Essay|z=10|cr=Ann|cd=20120101000000|ci=1|mr=Bob|md=20120102000000|mi=20|n=1copyvio?}}"
        ++ Py.newline
        ++ "{{AFC statistics/footer}}")%string.
Proof. vm_compute. reflexivity. Qed.

Example payload_non_null_header :
  header_line chart_task non_null
    {| chart_id := 1; chart_title := "Pending submissions";
       chart_special_title := Some "" |}
  = "{{AFC statistics/header|Pending submissions|}}".
Proof. reflexivity. Qed.

(** C10, as stated, fails on a special title that is empty but not NULL:
    the specification adds it to the header, after a further [|]; the code
    tests its truth and leaves it out.  The same test guards the special
    fields and the notes of a row. *)
Lemma payload_non_null_differs :
  compile_charts chart_task chart_store
  <> Ok (payload chart_task non_null chart_store).
Proof. vm_compute. discriminate. Qed.

Lemma str_app_assoc (a b c : string) : ((a ++ b) ++ c = a ++ (b ++ c))%string.
Proof. induction a as [|x a IH]; simpl; [reflexivity | now rewrite IH]. Qed.

Lemma str_app_nil_r (a : string) : (a ++ "")%string = a.
Proof. induction a as [|x a IH]; simpl; [reflexivity | now rewrite IH]. Qed.

Lemma last_char_app (s t : string) :
  t <> "" -> last_char (s ++ t) = last_char t.
Proof.
  intros Ht. induction s as [|c s IH]; trivial.
  simpl. destruct (s ++ t)%string eqn:E; trivial.
  destruct s; simpl in E; [congruence | discriminate].
Qed.

Lemma drop_last_app (s t : string) :
  t <> "" -> Py.drop_last (s ++ t) = (s ++ Py.drop_last t)%string.
Proof.
  intros Ht. induction s as [|c s IH]; trivial.
  simpl. destruct (s ++ t)%string eqn:E.
  - destruct s; simpl in E; [congruence | discriminate].
  - now rewrite <- IH.
Qed.

Lemma concat_lines (h : string) (l : list string) :
  String.concat Py.newline (h :: l) = (h ++ lines_tail l)%string.
Proof.
  revert h. induction l as [|x l IH]; intros h.
  - simpl. now rewrite str_app_nil_r.
  - change (String.concat Py.newline (h :: x :: l))
      with (h ++ Py.newline ++ String.concat Py.newline (x :: l))%string.
    rewrite IH. reflexivity.
Qed.

Lemma lines_tail_app (l l' : list string) :
  lines_tail (l ++ l') = (lines_tail l ++ lines_tail l')%string.
Proof.
  induction l as [|x l IH]; trivial.
  simpl lines_tail. rewrite IH. cbn [append]. f_equal.
  symmetry. apply str_app_assoc.
Qed.

Lemma drop_last_blocks_nl (l : list string) :
  Py.drop_last (blocks_nl l) = String.concat Py.newline l.
Proof.
  induction l as [|b l IH]; trivial.
  destruct l as [|b' l].
  - simpl blocks_nl. rewrite drop_last_app by discriminate.
    simpl. now rewrite str_app_nil_r.
  - change (blocks_nl (b :: b' :: l))
      with (b ++ Py.newline ++ blocks_nl (b' :: l))%string.
    change (String.concat Py.newline (b :: b' :: l))
      with (b ++ Py.newline ++ String.concat Py.newline (b' :: l))%string.
    rewrite <- IH.
    assert (N : blocks_nl (b' :: l) <> "").
    { simpl. destruct b'; discriminate. }
    rewrite drop_last_app, drop_last_app; trivial.
    simpl. destruct (blocks_nl (b' :: l)); [congruence | discriminate].
Qed.

Ltac str_norm := repeat rewrite str_app_assoc; cbn [append]; try reflexivity.

Lemma compile_chart_row_line (self : Task) (p : PageRow) :
  (Py.truthy_opt (page_special_user p) = true -> page_special_time p <> None) ->
  compile_chart_row self p = Ok (row_line self Py.truthy_opt p).
Proof.
  intros Hsp. unfold compile_chart_row, row_line, special_fields, format_time.
  destruct (Py.truthy_opt (page_special_user p)) eqn:Es.
  - destruct (page_special_time p) as [t|]; [|now elim Hsp].
    cbn [res_bind Py.str_opt].
    destruct (Py.truthy_opt (page_notes p)); f_equal; str_norm.
  - cbn [res_bind].
    destruct (Py.truthy_opt (page_notes p)); f_equal; str_norm.
Qed.

Lemma compile_chart_rows_lines (self : Task) (pages : list (PageRow * RowRow))
  (chart : string) :
  (forall pr, In pr pages ->
     Py.truthy_opt (page_special_user (fst pr)) = true ->
     page_special_time (fst pr) <> None) ->
  compile_chart_rows self pages chart
  = Ok (chart ++ lines_tail (map (fun pr => row_line self Py.truthy_opt (fst pr)) pages))%string.
Proof.
  revert chart. induction pages as [|pr pages IH]; intros chart H.
  - simpl. now rewrite str_app_nil_r.
  - simpl compile_chart_rows.
    rewrite compile_chart_row_line by (apply H; now left).
    cbn [res_bind]. rewrite IH by (intros; apply H; [now right | assumption]).
    f_equal. cbn [map lines_tail fold_right]. str_norm.
Qed.

Lemma compile_chart_block (self : Task) (st : Store) (ch : ChartRow) :
  (forall p, In p (tbl_page st) ->
     Py.truthy_opt (page_special_user p) = true -> page_special_time p <> None) ->
  compile_chart self st ch
  = Ok (String.concat Py.newline (block_lines self Py.truthy_opt st ch)).
Proof.
  intros H. unfold compile_chart, block_lines.
  rewrite compile_chart_rows_lines.
  2:{ intros [p r] Hin. simpl. apply H.
      apply filter_In in Hin. destruct Hin as [Hin _].
      apply in_join in Hin. tauto. }
  cbn [res_bind]. f_equal.
  rewrite concat_lines, lines_tail_app. unfold lines_tail at 3.
  cbn [fold_right]. unfold footer_line. rewrite !str_app_nil_r.
  assert (E : ("{{" ++
                (match chart_special_title ch with
                 | Some special_title =>
                     if Py.truthy_str special_title
                     then (tl_header self ++ "|" ++ chart_title ch) ++ "|" ++ special_title
                     else tl_header self ++ "|" ++ chart_title ch
                 | None => tl_header self ++ "|" ++ chart_title ch
                 end) ++ "}}")%string
              = header_line self Py.truthy_opt ch).
  { unfold header_line.
    destruct (chart_special_title ch) as [t|]; cbn [Py.truthy_opt Py.str_opt id].
    - destruct (Py.truthy_str t); str_norm.
    - str_norm. }
  rewrite E. str_norm.
Qed.

Lemma compile_charts_loop_blocks (self : Task) (st : Store) (charts : list ChartRow)
  (stats : string) :
  (forall p, In p (tbl_page st) ->
     Py.truthy_opt (page_special_user p) = true -> page_special_time p <> None) ->
  compile_charts_loop self st charts stats
  = Ok (stats ++ blocks_nl
          (map (fun ch => String.concat Py.newline (block_lines self Py.truthy_opt st ch))
               charts))%string.
Proof.
  intros H. revert stats. induction charts as [|ch charts IH]; intros stats.
  - simpl. now rewrite str_app_nil_r.
  - simpl compile_charts_loop. rewrite compile_chart_block by assumption.
    cbn [res_bind]. rewrite IH. f_equal. cbn [map blocks_nl fold_right].
    str_norm.
Qed.

Lemma last_char_concat_lines (l : list string) (f : string) :
  last_char f <> None ->
  last_char (String.concat Py.newline (l ++ [f])) = last_char f.
Proof.
  intros Hf.
  assert (Nf : f <> "") by (intros ->; now apply Hf).
  induction l as [|x l IH]; trivial.
  change ((x :: l) ++ [f])%list with (x :: (l ++ [f]))%list.
  rewrite concat_lines.
  assert (N : lines_tail (l ++ [f]) <> "") by (destruct l; discriminate).
  rewrite last_char_app by exact N.
  rewrite lines_tail_app. rewrite last_char_app by discriminate.
  cbn [lines_tail fold_right]. rewrite str_app_nil_r.
  now apply (last_char_app Py.newline f).
Qed.

(** C10, amended: where the specification says "non-null", read "non-null
    and non-empty".  When no row with a special user lacks its special time,
    the payload is the blocks of the catalog, in catalog order, each the
    header, the rows of its bucket in store order and the footer, all joined
    by single newlines; its last character is never a newline. *)
Theorem compile_charts_payload :
  forall (self : Task) (st : Store),
    (forall p, In p (tbl_page st) ->
       Py.truthy_opt (page_special_user p) = true -> page_special_time p <> None) ->
    compile_charts self st = Ok (payload self Py.truthy_opt st)
    /\ last_char (payload self Py.truthy_opt st) <> Some (ascii_of_nat 10).
Proof.
  intros self st H. split.
  - unfold compile_charts. rewrite compile_charts_loop_blocks by assumption.
    cbn [res_bind append]. f_equal. apply drop_last_blocks_nl.
  - unfold payload.
    assert (Hb : forall ch, last_char (String.concat Py.newline
                              (block_lines self Py.truthy_opt st ch))
                            = Some "}"%char).
    { intros ch. unfold block_lines.
      change (header_line self Py.truthy_opt ch
                :: map (fun pr => row_line self Py.truthy_opt (fst pr))
                       (q_join_by_chart (chart_id ch) st) ++ [footer_line self])%list
        with ((header_line self Py.truthy_opt ch
                :: map (fun pr => row_line self Py.truthy_opt (fst pr))
                       (q_join_by_chart (chart_id ch) st)) ++ [footer_line self])%list.
      assert (Ef : last_char (footer_line self) = Some "}"%char).
      { unfold footer_line. rewrite <- str_app_assoc.
        now rewrite last_char_app by discriminate. }
      rewrite last_char_concat_lines; rewrite Ef; [reflexivity | discriminate]. }
    destruct (tbl_chart st) as [|ch0 chs] using rev_ind; [discriminate|].
    rewrite map_app. cbn [map].
    rewrite last_char_concat_lines; rewrite Hb; discriminate.
Qed.

Lemma compile_charts_payload_witness :
  compile_charts chart_task chart_store = Ok (payload chart_task Py.truthy_opt chart_store).
Proof.
  refine (proj1 (compile_charts_payload chart_task chart_store _)).
  intros p [<- | [<- | []]]; intros E; discriminate E.
Defined.

(** ** The sweep and stored revision ids *)

(** C1.  A store with two stale records, on a wiki and a replica that
    know both pages.  The sweep raises in its first pass, where the row
    tuple is bound as a query parameter, and never reaches the pass that
    refreshes revision ids: both records stay stale.  Pass 2 on its own
    refreshes the first record and stops there, the UPDATE having taken the
    result set from the cursor it iterates: record 2 keeps revision id 20
    while the replica has 21. *)
Theorem sync_stops_before_refresh :
  on_store (sync stale_pair_task) stale_pair_store
  = (Raise InterfaceError, {| db := stale_pair_store; log := [] |})
  /\ on_store (sync_oldids stale_pair_task) stale_pair_store
     = (Ok tt,
        {| db := mk_store
                   [ set_modify (Py.len pending_text) "Ann" 20120103000000 11
                       (mk_page 1 (Some "pend") "A" 10);
                     mk_page 2 (Some "pend") "B" 20 ]
                   [ {| row_id := 1; row_chart := 1 |};
                     {| row_id := 2; row_chart := 1 |} ];
           log := [UpdateModify (Py.len pending_text) "Ann" 20120103000000 11 1] |})
  /\ q_latest_by_id (site stale_pair_task) 1 = [11]
  /\ q_latest_by_id (site stale_pair_task) 2 = [21].
Proof. repeat split; vm_compute; reflexivity. Qed.

(** ** Further facts about the entry points *)

(** X1. [get_create] raises for every page id, so [track_page] returns
    early or raises before its INSERT statements: the store and the
    statement log are as before, for every title. *)
Theorem track_page_never_writes :
  forall (self : Task) (title : string) (c : Cursor),
    snd (track_page self title c) = c
    /\ forall pageid, exists e, get_create self pageid = Raise e.
Proof.
  intros self title c. split.
  - apply track_page_writes_nothing.
  - intros pageid. destruct (get_create_raises self pageid) as [-> | ->]; eauto.
Qed.

(** X2. The delete handler raises [IndexError] when the replica has no page
    of the title, and is the edit path otherwise; it never untracks by
    title, because the value it tests is a non-empty row tuple. *)
Theorem process_delete_never_untracks :
  forall (self : Task) (page : string) (c : Cursor),
    (q_page_id_by_title (site self) page = []
     /\ process_delete self page c = (Raise IndexError, c))
    \/ (q_page_id_by_title (site self) page <> []
        /\ process_delete self page c = sync_page self page c).
Proof.
  intros self page c.
  destruct (q_page_id_by_title (site self) page) eqn:Q.
  - left. split; trivial. now apply process_delete_absent.
  - right. split; [discriminate|]. apply process_delete_present. congruence.
Qed.

Lemma sync_deleted_steps (self : Task) (c : Cursor) :
  sync_deleted self c
  = (match tbl_page (db c) with [] => Ok tt | _ :: _ => Raise InterfaceError end, c).
Proof.
  unfold sync_deleted, bind at 1, select, q_ids.
  destruct (tbl_page (db c)); reflexivity.
Qed.

(** X3. The first pass of the sweep never untracks and never writes.  On
    an empty page table it returns; on any other it raises [InterfaceError]
    at the first row, the row tuple being handed to the replica query as its
    parameter, and leaves the cursor as it was. *)
Theorem sync_deleted_never_untracks :
  forall (self : Task) (c : Cursor),
    (tbl_page (db c) = [] -> sync_deleted self c = (Ok tt, c))
    /\ (tbl_page (db c) <> [] -> sync_deleted self c = (Raise InterfaceError, c)).
Proof.
  intros self c. rewrite sync_deleted_steps.
  destruct (tbl_page (db c)); split; intros H; congruence.
Qed.

(** X4. A move whose source title is in the store and whose destination
    the replica lists is one UPDATE: every page row titled [source] gets the
    new title and the replica's latest revision id for it; table [row] and
    the statuses are untouched. *)
Theorem process_move_repoints :
  forall (self : Task) (source dest : string) (c : Cursor) (latest : Z)
         (rest : list Z),
    q_by_title source (db c) <> [] ->
    q_latest_by_title (site self) dest = latest :: rest ->
    let c' := snd (process_move self (source, dest) c) in
    fst (process_move self (source, dest) c) = Ok tt
    /\ log c' = (log c ++ [UpdateMove dest latest source])%list
    /\ tbl_page (db c')
       = map (fun p => if String.eqb (page_title p) source
                       then set_move dest latest p else p) (tbl_page (db c))
    /\ tbl_row (db c') = tbl_row (db c)
    /\ map page_status (tbl_page (db c')) = map page_status (tbl_page (db c)).
Proof.
  intros self source dest c latest rest Hsrc Hdest c'. subst c'.
  rewrite (process_move_known_source self source dest c latest rest Hsrc Hdest).
  simpl. repeat split. rewrite map_map. apply map_ext.
  intros p. now destruct (String.eqb (page_title p) source).
Qed.

Lemma process_move_repoints_witness :
  tbl_page (db (snd (process_move move_task_caught_up ("A", "B")
                       {| db := move_store; log := [] |})))
  = [set_move "B" 11 (mk_page 7 (Some "pend") "A" 10)].
Proof.
  refine (proj1 (proj2 (proj2
    (process_move_repoints move_task_caught_up "A" "B"
       {| db := move_store; log := [] |} 11 [] _ _)))).
  - discriminate.
  - reflexivity.
Defined.

(** ** Invariants kept by every statement that adds no row *)

Lemma updates_id_in_place (pageid : Z) (q : Stmt) :
  updates_id pageid q -> writes_in_place q.
Proof. destruct q; simpl; trivial. Qed.

Section InPlace.

Variable I : Store -> Prop.
Hypothesis I_exec :
  forall now q st, writes_in_place q -> I st -> I (exec now q st).

Lemma in_place_execute (self : Task) (q : Stmt) :
  writes_in_place q -> preserves I (execute self q).
Proof. intros Hq. apply preserves_execute. intros st. now apply I_exec. Qed.

Lemma in_place_execute_all (self : Task) (qs : list Stmt) (c : Cursor) :
  Forall writes_in_place qs -> I (db c) -> I (db (execute_all self qs c)).
Proof.
  intros H. revert c. induction H as [|q qs Hq _ IH]; intros c Hc; trivial.
  change (execute_all self (q :: qs) c)
    with (execute_all self qs (snd (execute self q c))).
  apply IH. now apply in_place_execute.
Qed.

Lemma in_place_untrack (self : Task) (pageid : option Z) (title : option string) :
  preserves I (untrack_page self pageid title).
Proof.
  unfold untrack_page.
  destruct pageid as [i|], title as [t|]; try destruct (Py.truthy_int i);
    repeat first [ apply preserves_when | apply preserves_ret
                 | apply in_place_execute; exact Logic.I ].
Qed.

Lemma in_place_update_page (self : Task) (title : string) :
  preserves I (update_page self title).
Proof.
  intros c H. rewrite update_page_steps. cbv zeta.
  set (c0 := snd (when _ _ c)).
  assert (H0 : I (db c0)).
  { subst c0. apply preserves_when; trivial. apply in_place_untrack. }
  clearbody c0.
  destruct (get_modify self _) as [[[m_user m_time] m_id] | e]; trivial.
  destruct (q_join_by_id _ (db c0)) as [|[result rr] rest] eqn:Q; trivial.
  simpl snd. apply in_place_execute_all; trivial.
  eapply Forall_impl; [|apply diff_stmts_updates_id].
  intros q. apply updates_id_in_place.
Qed.

Lemma in_place_sync_page (self : Task) (page : string) :
  preserves I (sync_page self page).
Proof.
  unfold sync_page. apply preserves_bind; [apply preserves_select|].
  intros result. destruct (Py.truthy_tuple result).
  - apply in_place_update_page.
  - apply preserves_track_page.
Qed.

Lemma in_place_process_edit (self : Task) (page : string) :
  preserves I (process_edit self page).
Proof.
  unfold process_edit. destruct (Py.mem page (ignore_list self)).
  - apply preserves_ret.
  - apply in_place_sync_page.
Qed.

Lemma in_place_process_move (self : Task) (page : string * string) :
  preserves I (process_move self page).
Proof.
  destruct page as [source dest]. unfold process_move.
  apply preserves_bind; [apply preserves_select|]. intros result.
  destruct (negb (Py.truthy_tuple result)); [apply preserves_track_page|].
  apply preserves_bind.
  - destruct (q_latest_by_title (site self) dest); [|apply preserves_ret].
    destruct (nth_error result 11); apply preserves_raise.
  - intros new_oldid. apply in_place_execute. exact Logic.I.
Qed.

Lemma in_place_process_delete (self : Task) (page : string) :
  preserves I (process_delete self page).
Proof.
  unfold process_delete.
  destruct (q_page_id_by_title (site self) page); [apply preserves_raise|].
  simpl. apply in_place_sync_page.
Qed.

Lemma in_place_sync (self : Task) : preserves I (sync self).
Proof.
  unfold sync.
  apply preserves_bind; [|intros _; apply preserves_bind;
                          [|intros _; apply preserves_bind; [|intros _]]].
  - unfold sync_deleted. apply preserves_bind; [apply preserves_select|].
    intros pages. apply preserves_for_cursor. intros page.
    apply preserves_bind; [apply preserves_lift|]. intros result.
    destruct result; [apply preserves_raise|].
    apply preserves_when, preserves_when, preserves_raise.
  - unfold sync_oldids. apply preserves_bind; [apply preserves_select|].
    intros pages. apply preserves_for_cursor. intros [[page_id title] oldid].
    destruct (q_latest_by_id (site self) page_id).
    + apply in_place_untrack.
    + apply preserves_when, in_place_update_page.
  - unfold sync_pending. apply preserves_bind; [apply preserves_select|].
    intros tracked. apply preserves_for_each. intros page.
    destruct (Py.mem page (ignore_list self)); [apply preserves_ret|].
    apply preserves_when, preserves_track_page.
  - unfold sync_old. apply in_place_execute. exact Logic.I.
Qed.

Lemma in_place_sync_step (st st' : Store) :
  sync_step st st' -> I st -> I st'.
Proof.
  intros Hs H. destruct Hs; unfold on_store.
  - now apply in_place_process_edit.
  - now apply in_place_process_move.
  - now apply in_place_process_delete.
  - now apply in_place_sync.
Qed.

Lemma in_place_reachable (st0 st : Store) :
  reachable st0 st -> I st0 -> I st.
Proof.
  intros Hr H0. induction Hr; trivial.
  eapply in_place_sync_step; eassumption.
Qed.

End InPlace.

(** *** Nothing is added *)

Lemma same_creation_refl (p : PageRow) : same_creation p p.
Proof. unfold same_creation. tauto. Qed.

Lemma descends_refl (st : Store) : descends st st.
Proof.
  unfold descends. repeat split; trivial.
  - intros p' H. exists p'. split; trivial. apply same_creation_refl.
  - intros r' H. now exists r'.
Qed.

Lemma descends_trans (st0 st1 st2 : Store) :
  descends st0 st1 -> descends st1 st2 -> descends st0 st2.
Proof.
  intros (C1 & P1 & R1 & LP1 & LR1) (C2 & P2 & R2 & LP2 & LR2).
  unfold descends. repeat split; try congruence; try lia.
  - intros p2 H. destruct (P2 p2 H) as (p1 & H1 & E1).
    destruct (P1 p1 H1) as (p0 & H0 & E0). exists p0. split; trivial.
    unfold same_creation in *. intuition congruence.
  - intros r2 H. destruct (R2 r2 H) as (r1 & H1 & E1).
    destruct (R1 r1 H1) as (r0 & H0 & E0). exists r0. split; congruence.
Qed.

Lemma descends_delete (cond : PageRow -> RowRow -> bool) (st : Store) :
  descends st (delete_join cond st).
Proof.
  unfold descends, delete_join; simpl. repeat split.
  - intros p' H. apply filter_In in H. exists p'. split; [tauto|].
    apply same_creation_refl.
  - intros r' H. apply filter_In in H. exists r'. tauto.
  - apply filter_length_le.
  - apply filter_length_le.
Qed.

Lemma descends_map (F : PageRow -> PageRow) (H : RowRow -> RowRow) (st : Store) :
  (forall p, same_creation p (F p)) ->
  (forall r, row_id (H r) = row_id r) ->
  descends st {| tbl_page := map F (tbl_page st); tbl_row := map H (tbl_row st);
                 tbl_chart := tbl_chart st |}.
Proof.
  intros HF HH. unfold descends; simpl. repeat split.
  - intros p' Hin. apply in_map_iff in Hin. destruct Hin as (p & <- & Hin).
    exists p. auto.
  - intros r' Hin. apply in_map_iff in Hin. destruct Hin as (r & <- & Hin).
    exists r. auto.
  - now rewrite length_map.
  - now rewrite length_map.
Qed.

Lemma descends_update_where (cond : PageRow -> bool) (f : PageRow -> PageRow)
  (st : Store) :
  (forall p, same_creation p (f p)) ->
  descends st (update_page_where cond f st).
Proof.
  intros Hf. unfold update_page_where.
  rewrite <- (map_id (tbl_row st)) at 1. apply descends_map; trivial.
  intros p. destruct (cond p); [apply Hf | apply same_creation_refl].
Qed.

Lemma descends_exec (now : Z) (q : Stmt) (st : Store) :
  writes_in_place q -> descends st (exec now q st).
Proof.
  destruct q; simpl; intros Hq; try contradiction;
    try apply descends_delete;
    try (apply descends_update_where; intros p; unfold same_creation; simpl; tauto).
  apply descends_map.
  - intros p. destruct (_ && _); unfold same_creation; simpl; tauto.
  - intros r. destruct (has_page st r pageid); reflexivity.
Qed.

(** X5.  Whatever sequence of edit, move, delete and sweep events the sync
    engine handles, and whether the handlers return or raise, the store never
    gains a row: every page row afterwards carries the id and the creation
    columns of a page row that was there at the start, every row of table
    [row] the id of one that was there, neither table is longer than it was,
    and the chart catalog is untouched. *)
Theorem store_never_grows :
  forall (st0 st : Store), reachable st0 st -> descends st0 st.
Proof.
  intros st0 st Hr.
  apply (in_place_reachable (descends st0)) with (st0 := st0); trivial.
  - intros now q s Hq H. eapply descends_trans; [exact H|].
    now apply descends_exec.
  - apply descends_refl.
Qed.

Lemma store_never_grows_witness :
  descends retitled_store
    (db (snd (on_store (process_edit retitled_task "A") retitled_store))).
Proof.
  apply store_never_grows.
  eapply reach_step; [apply reach_start | apply step_edit].
Defined.

(** *** Pages and rows stay paired *)

Lemma existsb_false_inv {A} (f : A -> bool) (l : list A) (x : A) :
  existsb f l = false -> In x l -> f x = false.
Proof.
  intros H Hin. destruct (f x) eqn:E; trivial.
  rewrite <- H. symmetry. apply existsb_exists. now exists x.
Qed.

Lemma paired_delete (cond : PageRow -> RowRow -> bool) (st : Store) :
  paired st -> paired (delete_join cond st).
Proof.
  intros (NP & NR & Hids). unfold paired, delete_join; simpl.
  split; [now apply NoDup_map_filter|]. split; [now apply NoDup_map_filter|].
  intros i. split; intros Hin; apply in_map_iff in Hin; apply in_map_iff.
  - destruct Hin as (p & Ei & Hp). apply filter_In in Hp. destruct Hp as [Hp Hk].
    assert (Hr : In i (map row_id (tbl_row st))).
    { apply Hids. subst i. now apply in_map. }
    apply in_map_iff in Hr. destruct Hr as (r & Er & Hr).
    exists r. split; trivial. apply filter_In. split; trivial.
    apply negb_true_iff. apply existsb_false. intros p' Hp'.
    destruct (Z.eqb_spec (page_id p') (row_id r)) as [E|]; trivial. simpl.
    assert (p' = p).
    { apply (NoDup_map_inj page_id (tbl_page st)); trivial. congruence. }
    subst p'. apply negb_true_iff in Hk.
    assert (Hall := existsb_false_inv _ _ r Hk Hr). cbv beta in Hall.
    rewrite (proj2 (Z.eqb_eq _ _) E) in Hall. exact Hall.
  - destruct Hin as (r & Ei & Hr). apply filter_In in Hr. destruct Hr as [Hr Hk].
    assert (Hp : In i (map page_id (tbl_page st))).
    { apply Hids. subst i. now apply in_map. }
    apply in_map_iff in Hp. destruct Hp as (p & Ep & Hp).
    exists p. split; trivial. apply filter_In. split; trivial.
    apply negb_true_iff. apply existsb_false. intros r' Hr'.
    destruct (Z.eqb_spec (page_id p) (row_id r')) as [E|]; trivial. simpl.
    assert (r' = r).
    { apply (NoDup_map_inj row_id (tbl_row st)); trivial. congruence. }
    subst r'. apply negb_true_iff in Hk.
    assert (Hall := existsb_false_inv _ _ p Hk Hp). cbv beta in Hall.
    rewrite (proj2 (Z.eqb_eq _ _) E) in Hall. exact Hall.
Qed.

Lemma paired_map (F : PageRow -> PageRow) (H : RowRow -> RowRow) (st : Store) :
  (forall p, page_id (F p) = page_id p) ->
  (forall r, row_id (H r) = row_id r) ->
  paired st ->
  paired {| tbl_page := map F (tbl_page st); tbl_row := map H (tbl_row st);
            tbl_chart := tbl_chart st |}.
Proof.
  intros HF HH. unfold paired; simpl. rewrite !map_map.
  rewrite (map_ext _ _ HF), (map_ext _ _ HH). trivial.
Qed.

Lemma paired_update_where (cond : PageRow -> bool) (f : PageRow -> PageRow)
  (st : Store) :
  (forall p, page_id (f p) = page_id p) ->
  paired st -> paired (update_page_where cond f st).
Proof.
  intros Hf. unfold update_page_where.
  rewrite <- (map_id (tbl_row st)) at 1. apply paired_map; trivial.
  intros p. now destruct (cond p).
Qed.

Lemma paired_exec (now : Z) (q : Stmt) (st : Store) :
  writes_in_place q -> paired st -> paired (exec now q st).
Proof.
  destruct q; simpl; intros Hq; try contradiction;
    try apply paired_delete;
    try (apply paired_update_where; intros p; reflexivity).
  apply paired_map.
  - intros p. now destruct (_ && _).
  - intros r. now destruct (has_page st r pageid).
Qed.

(** X6.  Tables [page] and [row] are written together.  If page ids are
    unique, row ids are unique and the two tables hold the same ids, then the
    same is true after any sequence of events handled by the sync engine,
    whether the handlers return or raise: no event leaves a page row without
    its bucket row or a bucket row without its page row. *)
Theorem paired_reachable :
  forall (st0 st : Store), paired st0 -> reachable st0 st -> paired st.
Proof.
  intros st0 st H0 Hr.
  apply (in_place_reachable paired) with (st0 := st0); trivial.
  intros now q s Hq H. now apply paired_exec.
Qed.

Lemma paired_reachable_witness :
  paired draft_store
  /\ paired (db (snd (on_store (process_edit stale_task "Draft") draft_store))).
Proof.
  assert (H : paired draft_store).
  { unfold paired, draft_store, mk_store, mk_page; simpl. repeat split.
    - repeat constructor; simpl; intuition lia.
    - repeat constructor; simpl; intuition lia.
    - tauto.
    - tauto. }
  split; [exact H|].
  apply (paired_reachable draft_store); [exact H|].
  eapply reach_step; [apply reach_start | apply step_edit].
Defined.

(** ** Titles the store does not have *)

Lemma track_page_outcome (self : Task) (title : string) (c : Cursor) :
  (insertable self title = false /\ track_page self title c = (Ok tt, c))
  \/ (insertable self title = true
      /\ (track_page self title c = (Raise IndexError, c)
          \/ track_page self title c = (Raise NameError, c))).
Proof.
  unfold insertable, track_page.
  destruct (get_status_and_chart _ _) as [status chart]. cbn [fst].
  destruct (negb (Py.truthy_opt status) || status_in status ["accept"; "decline"]).
  - left. split; reflexivity.
  - right. split; [reflexivity|]. unfold bind, lift.
    destruct (get_create_raises self (wp_pageid (get_page (site self) title)))
      as [-> | ->]; auto.
Qed.

(** X7.  An edit to a title that is not ignored and that no page row
    carries never adds a record.  The handler returns when the classifier
    gives no status, "accept" or "decline"; for a submission that is pending
    or under review it raises [IndexError] or [NameError], so a new
    submission is never picked up on an edit. *)
Theorem process_edit_untracked :
  forall (self : Task) (page : string) (c : Cursor),
    Py.mem page (ignore_list self) = false ->
    q_by_title page (db c) = [] ->
    snd (process_edit self page c) = c
    /\ (insertable self page = false -> fst (process_edit self page c) = Ok tt)
    /\ (insertable self page = true ->
        fst (process_edit self page c) = Raise IndexError
        \/ fst (process_edit self page c) = Raise NameError).
Proof.
  intros self page c Hign Hq.
  assert (E : process_edit self page c = track_page self page c).
  { unfold process_edit. rewrite Hign. unfold sync_page, bind, select.
    rewrite Hq. reflexivity. }
  rewrite E.
  destruct (track_page_outcome self page c) as [[Hi ->] | [Hi [-> | ->]]];
    simpl; repeat split; auto; congruence.
Qed.

Lemma process_edit_untracked_witness :
  let c := {| db := other_store; log := [] |} in
  snd (process_edit fresh_task "Draft" c) = c.
Proof.
  intros c.
  exact (proj1 (process_edit_untracked fresh_task "Draft" c eq_refl eq_refl)).
Defined.

Lemma sync_pending_loop (self : Task) (tracked xs : list string) (c : Cursor) :
  let fresh :=
    filter (fun page => negb (Py.mem page (ignore_list self))
                        && negb (Py.mem page tracked) && insertable self page) xs in
  let loop :=
    for_each xs (fun page =>
      if Py.mem page (ignore_list self) then ret tt
      else when (negb (Py.mem page tracked)) (track_page self page)) in
  (fresh = [] /\ loop c = (Ok tt, c))
  \/ (fresh <> [] /\ (loop c = (Raise IndexError, c) \/ loop c = (Raise NameError, c))).
Proof.
  cbv zeta. induction xs as [|x xs IH]; [left; split; reflexivity|].
  cbn [filter for_each]. unfold bind.
  destruct (Py.mem x (ignore_list self)); cbn [negb andb].
  - exact IH.
  - destruct (Py.mem x tracked); cbn [negb andb when].
    + exact IH.
    + destruct (track_page_outcome self x c) as [[-> ->] | [-> [-> | ->]]].
      * exact IH.
      * right. split; [discriminate | now left].
      * right. split; [discriminate | now right].
Qed.

(** X8.  Pass 3 of the sweep never writes.  It returns when no member of
    the pending category is a new submission: each one is ignored, already
    tracked as pending, or turned away by the classifier.  Otherwise it
    raises [IndexError] or [NameError] at the first new submission, and the
    retention purge that follows it in the sweep is not run. *)
Theorem sync_pending_outcome :
  forall (self : Task) (c : Cursor),
    snd (sync_pending self c) = c
    /\ (new_submissions self (db c) = [] -> sync_pending self c = (Ok tt, c))
    /\ (new_submissions self (db c) <> [] ->
        exists e, (e = IndexError \/ e = NameError)
                  /\ sync_pending self c = (Raise e, c)
                  /\ bind (sync_pending self) (fun _ => sync_old self) c = (Raise e, c)).
Proof.
  intros self c.
  assert (E : sync_pending self c
              = for_each (category_members (site self) (pending_cat self) 500)
                  (fun page =>
                     if Py.mem page (ignore_list self) then ret tt
                     else when (negb (Py.mem page (q_pending_titles (db c))))
                               (track_page self page)) c) by reflexivity.
  unfold bind at 1. rewrite E. unfold new_submissions.
  destruct (sync_pending_loop self (q_pending_titles (db c))
              (category_members (site self) (pending_cat self) 500) c)
    as [[Hf ->] | [Hf [-> | ->]]]; cbn [fst snd].
  - repeat split; trivial. intros N. now elim N.
  - repeat split; trivial; [intros F; now elim Hf|].
    intros _. exists IndexError. auto.
  - repeat split; trivial; [intros F; now elim Hf|].
    intros _. exists NameError. auto.
Qed.

(** ** The revision lookup *)

Lemma q_latest_rev_In (s : Site) (pageid : Z) (row : string * string * Z) :
  In row (q_latest_rev s pageid) <->
  exists r, latest_revision s pageid r
            /\ row = (rev_user_text r, rev_timestamp r, rev_id r).
Proof.
  unfold q_latest_rev, latest_revision. rewrite in_flat_map. split.
  - intros (r & Hr & Hin). apply in_map_iff in Hin. destruct Hin as (pg & <- & Hpg).
    apply filter_In in Hpg. destruct Hpg as [Hpg Ec].
    apply andb_true_iff in Ec. destruct Ec as [E1 E2].
    apply Z.eqb_eq in E1, E2. exists r. repeat split; trivial. now exists pg.
  - intros (r & (Hr & pg & Hpg & Eid & El) & ->). exists r. split; trivial.
    apply in_map_iff. exists pg. split; trivial. apply filter_In. split; trivial.
    apply andb_true_iff. split; now apply Z.eqb_eq.
Qed.

Lemma latest_revision_unique (s : Site) (pageid : Z) (r r' : RepRev) :
  NoDup (map rp_page_id (rep_page s)) ->
  NoDup (map rev_id (rep_revision s)) ->
  latest_revision s pageid r -> latest_revision s pageid r' -> r' = r.
Proof.
  intros NP NR (Hr & pg & Hpg & Eid & El) (Hr' & pg' & Hpg' & Eid' & El').
  assert (pg' = pg).
  { apply (NoDup_map_inj rp_page_id (rep_page s)); congruence. }
  subst pg'. apply (NoDup_map_inj rev_id (rep_revision s)); congruence.
Qed.

(** X9.  With page ids and revision ids unique in the replica,
    [get_modify] is a function of the page's latest revision: when the
    replica has that revision, the result is its user, its timestamp as
    parsed by [strptime] and its id, or [ValueError] when the timestamp does
    not parse; when the replica has no such revision (or no such page), the
    lookup raises [IndexError]. *)
Theorem get_modify_spec :
  forall (self : Task) (pageid : Z),
    NoDup (map rp_page_id (rep_page (site self))) ->
    NoDup (map rev_id (rep_revision (site self))) ->
    (forall r, latest_revision (site self) pageid r ->
       get_modify self pageid
       = match strptime self (rev_timestamp r) with
         | Some t => Ok (rev_user_text r, t, rev_id r)
         | None => Raise ValueError
         end)
    /\ ((forall r, ~ latest_revision (site self) pageid r) ->
        get_modify self pageid = Raise IndexError).
Proof.
  intros self pageid NP NR. split.
  - intros r Hr. unfold get_modify.
    destruct (q_latest_rev (site self) pageid) as [|row rows] eqn:Q.
    + exfalso.
      assert (Hin : In (rev_user_text r, rev_timestamp r, rev_id r)
                       (q_latest_rev (site self) pageid)).
      { apply q_latest_rev_In. now exists r. }
      rewrite Q in Hin. exact Hin.
    + assert (Hin : In row (q_latest_rev (site self) pageid))
        by (rewrite Q; now left).
      apply q_latest_rev_In in Hin. destruct Hin as (r' & Hr' & ->).
      now rewrite (latest_revision_unique _ _ _ _ NP NR Hr Hr').
  - intros Hnone. apply get_modify_not_found.
    destruct (q_latest_rev (site self) pageid) as [|row rows] eqn:Q; trivial.
    exfalso.
    assert (Hin : In row (q_latest_rev (site self) pageid))
      by (rewrite Q; now left).
    apply q_latest_rev_In in Hin. destruct Hin as (r' & Hr' & _).
    exact (Hnone r' Hr').
Qed.

Lemma get_modify_spec_witness :
  get_modify stale_task 7 = Ok ("Bob", 20120103000000, 11).
Proof.
  assert (NP : NoDup (map rp_page_id (rep_page (site stale_task)))).
  { simpl. repeat constructor; simpl; tauto. }
  assert (NR : NoDup (map rev_id (rep_revision (site stale_task)))).
  { simpl. repeat constructor; simpl; intuition lia. }
  apply (proj1 (get_modify_spec stale_task 7 NP NR)
           {| rev_id := 11; rev_user_text := "Bob";
              rev_timestamp := "20120103000000"; rev_page := 7 |}).
  split; [simpl; tauto|].
  exists {| rp_page_id := 7; rp_page_title := "Draft"; rp_page_latest := 11 |}.
  simpl. tauto.
Defined.

(** ** When the chart compiler fails *)

Lemma compile_chart_row_outcome (self : Task) (p : PageRow) :
  (unformattable p = true /\ compile_chart_row self p = Raise AttributeError)
  \/ (unformattable p = false /\ exists s, compile_chart_row self p = Ok s).
Proof.
  unfold unformattable, compile_chart_row, format_time.
  destruct (Py.truthy_opt (page_special_user p)).
  - destruct (page_special_time p) as [t|]; cbn [res_bind andb].
    + right. split; trivial. eauto.
    + left. split; reflexivity.
  - right. cbn [res_bind andb]. split; trivial. eauto.
Qed.

Lemma compile_chart_rows_outcome (self : Task) (pages : list (PageRow * RowRow))
  (chart : string) :
  (existsb (fun pr => unformattable (fst pr)) pages = true
   /\ compile_chart_rows self pages chart = Raise AttributeError)
  \/ (existsb (fun pr => unformattable (fst pr)) pages = false
      /\ exists s, compile_chart_rows self pages chart = Ok s).
Proof.
  revert chart. induction pages as [|pr pages IH]; intros chart.
  - right. split; trivial. simpl. eauto.
  - cbn [existsb compile_chart_rows].
    destruct (compile_chart_row_outcome self (fst pr)) as [[-> ->] | [-> [s ->]]];
      cbn [res_bind orb].
    + left. split; reflexivity.
    + apply IH.
Qed.

Lemma compile_chart_outcome (self : Task) (st : Store) (ch : ChartRow) :
  let bad := existsb (fun pr => unformattable (fst pr))
                     (q_join_by_chart (chart_id ch) st) in
  (bad = true /\ compile_chart self st ch = Raise AttributeError)
  \/ (bad = false /\ exists s, compile_chart self st ch = Ok s).
Proof.
  cbv zeta. unfold compile_chart.
  match goal with
  | |- context [compile_chart_rows self ?l ?s] =>
      destruct (compile_chart_rows_outcome self l s) as [[-> ->] | [-> [s' ->]]]
  end; cbn [res_bind].
  - left. split; reflexivity.
  - right. split; trivial. eauto.
Qed.

Lemma compile_charts_loop_outcome (self : Task) (st : Store)
  (charts : list ChartRow) (stats : string) :
  let bad := existsb (fun ch => existsb (fun pr => unformattable (fst pr))
                                        (q_join_by_chart (chart_id ch) st)) charts in
  (bad = true /\ compile_charts_loop self st charts stats = Raise AttributeError)
  \/ (bad = false /\ exists s, compile_charts_loop self st charts stats = Ok s).
Proof.
  cbv zeta. revert stats. induction charts as [|ch charts IH]; intros stats.
  - right. split; trivial. simpl. eauto.
  - cbn [existsb compile_charts_loop].
    destruct (compile_chart_outcome self st ch) as [[-> ->] | [-> [s ->]]];
      cbn [res_bind orb].
    + left. split; reflexivity.
    + apply IH.
Qed.

(** X10.  [compile_charts] fails in one way only.  It raises
    [AttributeError] exactly when some page row, joined to a bucket row
    whose bucket is in the chart catalog, has a special user that is neither
    NULL nor empty and a NULL special time; in every other store it returns
    a string.  Rows of buckets that the catalog does not list are never
    formatted and cannot make it fail. *)
Theorem compile_charts_raises_iff :
  forall (self : Task) (st : Store),
    (compile_charts self st = Raise AttributeError <->
     exists ch p r,
       In ch (tbl_chart st) /\ In (p, r) (join st)
       /\ row_chart r = chart_id ch
       /\ Py.truthy_opt (page_special_user p) = true
       /\ page_special_time p = None)
    /\ (compile_charts self st <> Raise AttributeError ->
        exists stats, compile_charts self st = Ok stats).
Proof.
  intros self st. unfold compile_charts.
  destruct (compile_charts_loop_outcome self st (tbl_chart st) "")
    as [[Hb ->] | [Hb [s ->]]]; cbn [res_bind].
  - split; [|intros N; now elim N]. split; trivial. intros _.
    apply existsb_exists in Hb. destruct Hb as (ch & Hch & Hb).
    apply existsb_exists in Hb. destruct Hb as ([p r] & Hin & Hu).
    apply filter_In in Hin. destruct Hin as [Hin Ec]. simpl in Ec, Hu.
    apply Z.eqb_eq in Ec. unfold unformattable in Hu.
    apply andb_true_iff in Hu. destruct Hu as [Hu Ht].
    exists ch, p, r. repeat split; trivial.
    destruct (page_special_time p); [discriminate | reflexivity].
  - split; [|intros _; eauto]. split; [discriminate|].
    intros (ch & p & r & Hch & Hin & Ec & Hu & Ht). exfalso.
    assert (Hb' : existsb (fun ch => existsb (fun pr => unformattable (fst pr))
                    (q_join_by_chart (chart_id ch) st)) (tbl_chart st) = true).
    { apply existsb_exists. exists ch. split; trivial.
      apply existsb_exists. exists (p, r). split.
      - apply filter_In. split; trivial. simpl. now apply Z.eqb_eq.
      - simpl. unfold unformattable. now rewrite Hu, Ht. }
    congruence.
Qed.

(** ** What the submission marker matches *)

Lemma re_sym_inv (p : ascii -> bool) (x : string) :
  Re.matches (Re.Sym p) x -> exists c, x = String c "" /\ p c = true.
Proof. intros H. inversion H; subst. eauto. Qed.

Lemma re_seq_inv (r s : Re.regex) (x : string) :
  Re.matches (Re.Seq r s) x ->
  exists a b, x = (a ++ b)%string /\ Re.matches r a /\ Re.matches s b.
Proof. intros H. inversion H; subst. eauto. Qed.

Lemma re_lit_i_spec (t x : string) :
  Re.matches (Re.lit_i t) x <-> eqb_nocase x t = true.
Proof.
  revert x. induction t as [|b t IH]; intros x; simpl.
  - split.
    + intros H. inversion H; subst. reflexivity.
    + destruct x; [intros _; constructor | discriminate].
  - split.
    + intros H. apply re_seq_inv in H. destruct H as (a & y & -> & Ha & Hy).
      apply re_sym_inv in Ha. destruct Ha as (c & -> & Hc). simpl.
      rewrite Hc. now apply IH.
    + destruct x as [|c x]; [discriminate|]. simpl. intros H.
      apply andb_true_iff in H. destruct H as [Hc Hx].
      change (String c x) with (String c "" ++ x)%string.
      constructor; [now constructor | now apply IH].
Qed.

Lemma re_star_dot_spec (x : string) :
  Re.matches (Re.Star Re.dot) x <-> one_line x = true.
Proof.
  split.
  - intros H. remember (Re.Star Re.dot) as r eqn:Er.
    induction H; try discriminate; trivial.
    injection Er as ->. apply re_sym_inv in H. destruct H as (c & -> & Hc).
    simpl. rewrite Hc. now apply IHmatches2.
  - induction x as [|c x IH]; simpl; intros H; [constructor|].
    apply andb_true_iff in H. destruct H as [Hc Hx].
    change (String c x) with (String c "" ++ x)%string.
    constructor; [now constructor | now apply IH].
Qed.

(** X11.  The classifier finds a submission marker with tag [tag] in a
    text exactly when the text contains, up to the case of ASCII letters,
    [{{afc submission|tag|], then some text without a line feed, then [}}].
    A template whose parameters run over several lines is therefore not
    seen as a marker. *)
Theorem marker_search_spec :
  forall (tag s : string),
    Re.search (marker tag) s = true <->
    exists pre head body tail post,
      s = (pre ++ head ++ body ++ tail ++ post)%string
      /\ eqb_nocase head ("{{afc submission|" ++ tag ++ "|") = true
      /\ one_line body = true
      /\ eqb_nocase tail "}}" = true.
Proof.
  intros tag s. rewrite re_search_spec. unfold marker. split.
  - intros (pre & x & post & -> & H).
    apply re_seq_inv in H. destruct H as (head & y & -> & Hh & Hy).
    apply re_seq_inv in Hy. destruct Hy as (body & tail & -> & Hb & Ht).
    exists pre, head, body, tail, post. repeat split.
    + now rewrite !str_app_assoc.
    + now apply re_lit_i_spec.
    + now apply re_star_dot_spec.
    + now apply (re_lit_i_spec "}}").
  - intros (pre & head & body & tail & post & -> & Hh & Hb & Ht).
    exists pre, (head ++ body ++ tail)%string, post. split.
    + now rewrite !str_app_assoc.
    + constructor; [now apply re_lit_i_spec|].
      constructor; [now apply re_star_dot_spec | now apply (re_lit_i_spec "}}")].
Qed.

(** ** Short titles *)

Lemma longest_prefix_void (s : string) : Re.longest_prefix Re.Void s = None.
Proof. induction s as [|c s IH]; simpl; [reflexivity | now rewrite IH]. Qed.

Lemma longest_prefix_matches (r : Re.regex) (s : string) (n : nat) :
  Re.longest_prefix r s = Some n -> Re.match_prefix r s = true.
Proof.
  revert r n. induction s as [|c s IH]; intros r n; simpl.
  - destruct (Re.nullable r); [reflexivity | discriminate].
  - destruct (Re.longest_prefix (Re.deriv c r) s) as [m|] eqn:E.
    + intros _. rewrite (IH _ _ E). apply orb_true_r.
    + destruct (Re.nullable r); [reflexivity | discriminate].
Qed.

Lemma sub_empty_skip (r : Re.regex) (x t : string) :
  Re.sub_empty_from r (String.length x) (x ++ t) = Re.sub_empty_from r O t.
Proof.
  induction x as [|c x IH]; [reflexivity | exact IH].
Qed.

Lemma longest_prefix_app (r : Re.regex) (x t : string) :
  (forall u, Re.longest_prefix (derivs r x) u = Some O) ->
  Re.longest_prefix r (x ++ t) = Some (String.length x).
Proof.
  revert r. induction x as [|c x IH]; intros r H; [apply H|].
  simpl. now rewrite (IH (Re.deriv c r)).
Qed.

Lemma longest_prefix_done (u : string) :
  Re.longest_prefix (Re.Seq Re.Eps Re.Eps) u = Some O.
Proof.
  destruct u as [|c u]; [reflexivity|].
  change (Re.longest_prefix (Re.Seq Re.Eps Re.Eps) (String c u))
    with (match Re.longest_prefix Re.Void u with
          | Some n => Some (S n)
          | None => Some O
          end).
  now rewrite longest_prefix_void.
Qed.

Lemma sub_empty_prefix (r : Re.regex) (x t : string) :
  x <> "" ->
  (forall u, Re.longest_prefix (derivs r x) u = Some O) ->
  Re.sub_empty r (x ++ t) = Re.sub_empty r t.
Proof.
  intros Hx H. unfold Re.sub_empty.
  pose proof (longest_prefix_app r x t H) as L.
  destruct x as [|c x]; [now elim Hx|].
  change ((String c x ++ t)%string) with (String c (x ++ t)) in *.
  cbn [String.length] in L.
  change (Re.sub_empty_from r O (String c (x ++ t)))
    with (match Re.longest_prefix r (String c (x ++ t)) with
          | Some (S n) => Re.sub_empty_from r n (x ++ t)
          | _ => String c (Re.sub_empty_from r O (x ++ t))
          end).
  rewrite L. apply sub_empty_skip.
Qed.

Lemma sub_empty_no_match (r : Re.regex) (s : string) :
  Re.search r s = false -> Re.sub_empty r s = s.
Proof.
  unfold Re.sub_empty. induction s as [|c s IH]; [reflexivity|].
  change (Re.search r (String c s))
    with (Re.match_prefix r (String c s) || Re.search r s).
  intros H. apply orb_false_iff in H. destruct H as [Hm Hs].
  change (Re.sub_empty_from r O (String c s))
    with (match Re.longest_prefix r (String c s) with
          | Some (S n) => Re.sub_empty_from r n s
          | _ => String c (Re.sub_empty_from r O s)
          end).
  destruct (Re.longest_prefix r (String c s)) as [n|] eqn:L.
  - apply longest_prefix_matches in L. congruence.
  - now rewrite IH.
Qed.

(** X12.  [get_short_title] strips the project prefix: a leading
    [Wikipedia:Articles for creation/] or [Wikipedia talk:Articles for
    creation/] is removed and the rest is treated in the same way, so a
    repeated prefix goes as well; a title in which the prefix pattern does
    not occur comes back unchanged. *)
Theorem get_short_title_spec :
  (forall t, get_short_title ("Wikipedia:Articles for creation/" ++ t)
             = get_short_title t)
  /\ (forall t, get_short_title ("Wikipedia talk:Articles for creation/" ++ t)
                = get_short_title t)
  /\ (forall t, Re.search short_title_prefix t = false -> get_short_title t = t)
  /\ (forall t, Re.search short_title_prefix t = false ->
                get_short_title ("Wikipedia talk:Articles for creation/" ++ t) = t
                /\ get_short_title ("Wikipedia:Articles for creation/" ++ t) = t).
Proof.
  assert (H1 : forall t, get_short_title ("Wikipedia:Articles for creation/" ++ t)
                         = get_short_title t).
  { intros t. unfold get_short_title. apply sub_empty_prefix; [discriminate|].
    intros u.
    replace (derivs short_title_prefix "Wikipedia:Articles for creation/")
      with (Re.Seq Re.Eps Re.Eps) by (vm_compute; reflexivity).
    apply longest_prefix_done. }
  assert (H2 : forall t, get_short_title ("Wikipedia talk:Articles for creation/" ++ t)
                         = get_short_title t).
  { intros t. unfold get_short_title. apply sub_empty_prefix; [discriminate|].
    intros u.
    replace (derivs short_title_prefix "Wikipedia talk:Articles for creation/")
      with (Re.Seq Re.Eps Re.Eps) by (vm_compute; reflexivity).
    apply longest_prefix_done. }
  assert (H3 : forall t, Re.search short_title_prefix t = false ->
                         get_short_title t = t).
  { intros t. apply sub_empty_no_match. }
  split; [exact H1|]. split; [exact H2|]. split; [exact H3|].
  intros t Ht. split; [rewrite H2 | rewrite H1]; now apply H3.
Qed.

(** ** The publisher *)

Lemma str_length_app (a b : string) :
  String.length (a ++ b) = (String.length a + String.length b)%nat.
Proof. induction a as [|c a IH]; simpl; [reflexivity | now rewrite IH]. Qed.

Lemma str_app_inv_head (a x y : string) : (a ++ x = a ++ y)%string -> x = y.
Proof. induction a as [|c a IH]; simpl; intros H; [exact H|]. injection H. exact IH. Qed.

Lemma prefix_spec (p s : string) :
  String.prefix p s = true <-> exists t, s = (p ++ t)%string.
Proof.
  revert s. induction p as [|c p IH]; intros s.
  - split; [intros _; now exists s | intros _; now destruct s].
  - destruct s as [|d s]; simpl.
    + split; [discriminate | intros [t E]; discriminate].
    + destruct (ascii_dec c d) as [<- | N].
      * rewrite IH. split; intros [t E]; exists t; [now rewrite E | now injection E].
      * split; [discriminate | intros [t E]; injection E; congruence].
Qed.

(** [find] gives the first occurrence. *)
Lemma find_first (needle s : string) (k : nat) :
  find needle s = Some k ->
  forall a b, s = (a ++ needle ++ b)%string -> (k <= String.length a)%nat.
Proof.
  revert k. induction s as [|c s IH]; intros k; cbn [find].
  - destruct (String.prefix needle ""); [|discriminate].
    intros [= <-] a b _. lia.
  - destruct (String.prefix needle (String c s)) eqn:P.
    + intros [= <-] a b _. lia.
    + destruct (find needle s) as [m|] eqn:F; [|discriminate].
      intros [= <-] a b E. destruct a as [|d a].
      * exfalso. assert (String.prefix needle (String c s) = true).
        { apply prefix_spec. exists b. exact E. }
        congruence.
      * simpl in E. injection E as _ E. simpl.
        specialize (IH m eq_refl a b E). lia.
Qed.

Lemma shortest_prefix_some (r : Re.regex) (s : string) (n : nat) :
  ReSub.shortest_prefix r s = Some n ->
  forall x t, s = (x ++ t)%string -> Re.matches r x -> (n <= String.length x)%nat.
Proof.
  revert r n. induction s as [|c s IH]; intros r n; simpl.
  - destruct (Re.nullable r); [|discriminate]. intros [= <-]. intros; lia.
  - destruct (Re.nullable r) eqn:N; [intros [= <-]; intros; lia|].
    destruct (ReSub.shortest_prefix (Re.deriv c r) s) as [m|] eqn:E; [|discriminate].
    intros [= <-] x t Ex Hx. destruct x as [|d x].
    + apply re_nullable_spec in Hx. congruence.
    + simpl in Ex. injection Ex as <- Ex. simpl.
      apply re_deriv_spec in Hx. specialize (IH _ _ E x t Ex Hx). lia.
Qed.

Lemma shortest_prefix_none (r : Re.regex) (s : string) :
  ReSub.shortest_prefix r s = None ->
  forall x t, s = (x ++ t)%string -> ~ Re.matches r x.
Proof.
  revert r. induction s as [|c s IH]; intros r; simpl.
  - destruct (Re.nullable r) eqn:N; [discriminate|]. intros _ x t E Hx.
    symmetry in E. apply re_app_nil in E. destruct E as [-> _].
    apply re_nullable_spec in Hx. congruence.
  - destruct (Re.nullable r) eqn:N; [discriminate|].
    destruct (ReSub.shortest_prefix (Re.deriv c r) s) as [m|] eqn:E; [discriminate|].
    intros _ x t Ex Hx. destruct x as [|d x].
    + apply re_nullable_spec in Hx. congruence.
    + simpl in Ex. injection Ex as <- Ex.
      apply re_deriv_spec in Hx. exact (IH _ E x t Ex Hx).
Qed.

(** A matching prefix that no shorter matching prefix precedes is the one
    [shortest_prefix] finds. *)
Lemma shortest_prefix_is (r : Re.regex) (x t : string) :
  Re.matches r x ->
  (forall x' t', (x ++ t)%string = (x' ++ t')%string -> Re.matches r x' ->
                 (String.length x <= String.length x')%nat) ->
  ReSub.shortest_prefix r (x ++ t) = Some (String.length x).
Proof.
  intros Hx Hmin.
  destruct (ReSub.shortest_prefix r (x ++ t)) as [n|] eqn:E.
  - f_equal. apply Nat.le_antisymm.
    + exact (shortest_prefix_some _ _ _ E x t eq_refl Hx).
    + clear Hx. revert r n E Hmin.
      generalize (x ++ t)%string as s. intros s.
      revert x. induction s as [|c s IH]; intros x r n; simpl.
      * destruct (Re.nullable r) eqn:N; [|discriminate]. intros [= <-] Hmin.
        apply (Hmin "" ""); trivial. now apply re_nullable_spec.
      * destruct (Re.nullable r) eqn:N.
        { intros [= <-] Hmin. apply (Hmin "" (String c s)); trivial.
          now apply re_nullable_spec. }
        destruct (ReSub.shortest_prefix (Re.deriv c r) s) as [m|] eqn:E;
          [|discriminate].
        intros [= <-] Hmin. destruct x as [|d x]; [simpl; lia|]. simpl.
        apply le_n_S. apply (IH x (Re.deriv c r) m E).
        intros x' t' Es Hx'.
        assert (L := Hmin (String c x') t' (f_equal (String c) Es)
                       (proj1 (re_deriv_spec c r x') Hx')).
        simpl in L. lia.
  - exfalso. exact (shortest_prefix_none _ _ E x t eq_refl Hx).
Qed.

Lemma shortest_prefix_matches (r : Re.regex) (s : string) (n : nat) :
  ReSub.shortest_prefix r s = Some n -> Re.match_prefix r s = true.
Proof.
  revert r n. induction s as [|c s IH]; intros r n; simpl.
  - destruct (Re.nullable r); [reflexivity | discriminate].
  - destruct (Re.nullable r); [reflexivity|]. simpl.
    destruct (ReSub.shortest_prefix (Re.deriv c r) s) as [m|] eqn:E; [|discriminate].
    intros _. exact (IH _ _ E).
Qed.

Lemma sub_no_match (r : Re.regex) (repl s : string) :
  Re.search r s = false -> ReSub.sub r repl s = s.
Proof.
  unfold ReSub.sub. induction s as [|c s IH]; [reflexivity|].
  change (Re.search r (String c s))
    with (Re.match_prefix r (String c s) || Re.search r s).
  intros H. apply orb_false_iff in H. destruct H as [Hm Hs].
  change (ReSub.sub_from r repl O (String c s))
    with (match ReSub.shortest_prefix r (String c s) with
          | Some (S n) => (repl ++ ReSub.sub_from r repl n s)%string
          | _ => String c (ReSub.sub_from r repl O s)
          end).
  destruct (ReSub.shortest_prefix r (String c s)) as [n|] eqn:L.
  - apply shortest_prefix_matches in L. congruence.
  - now rewrite IH.
Qed.

Lemma sub_skip (r : Re.regex) (repl x t : string) :
  ReSub.sub_from r repl (String.length x) (x ++ t) = ReSub.sub_from r repl O t.
Proof. induction x as [|c x IH]; [reflexivity | exact IH]. Qed.

Lemma sub_scan (r : Re.regex) (repl pre rest : string) :
  (forall a c b, pre = (a ++ String c b)%string ->
                 ReSub.shortest_prefix r (String c b ++ rest) = None) ->
  ReSub.sub r repl (pre ++ rest) = (pre ++ ReSub.sub r repl rest)%string.
Proof.
  unfold ReSub.sub. induction pre as [|c pre IH]; intros H; [reflexivity|].
  change ((String c pre ++ rest)%string) with (String c (pre ++ rest)).
  change (ReSub.sub_from r repl O (String c (pre ++ rest)))
    with (match ReSub.shortest_prefix r (String c (pre ++ rest)) with
          | Some (S n) => (repl ++ ReSub.sub_from r repl n (pre ++ rest))%string
          | _ => String c (ReSub.sub_from r repl O (pre ++ rest))
          end).
  rewrite (H "" c pre eq_refl : ReSub.shortest_prefix r (String c (pre ++ rest)) = None).
  simpl. f_equal. apply IH. intros a d b E.
  apply (H (String c a) d b). simpl. now rewrite E.
Qed.

Lemma sub_at_match (r : Re.regex) (repl x post : string) :
  x <> "" ->
  ReSub.shortest_prefix r (x ++ post) = Some (String.length x) ->
  ReSub.sub r repl (x ++ post) = (repl ++ ReSub.sub r repl post)%string.
Proof.
  intros Hx L. unfold ReSub.sub. destruct x as [|c x]; [now elim Hx|].
  change ((String c x ++ post)%string) with (String c (x ++ post)) in *.
  change (ReSub.sub_from r repl O (String c (x ++ post)))
    with (match ReSub.shortest_prefix r (String c (x ++ post)) with
          | Some (S n) => (repl ++ ReSub.sub_from r repl n (x ++ post))%string
          | _ => String c (ReSub.sub_from r repl O (x ++ post))
          end).
  rewrite L. cbn [String.length]. now rewrite sub_skip.
Qed.

Lemma re_lit_spec (t x : string) : Re.matches (Re.lit t) x <-> x = t.
Proof.
  revert x. induction t as [|b t IH]; intros x; simpl.
  - split; [intros H; now inversion H | intros ->; constructor].
  - split.
    + intros H. apply re_seq_inv in H. destruct H as (a & y & -> & Ha & Hy).
      apply re_sym_inv in Ha. destruct Ha as (c & -> & Hc).
      apply Ascii.eqb_eq in Hc. subst c. simpl. f_equal. now apply IH.
    + intros ->. change (String b t) with (String b "" ++ t)%string.
      constructor; [constructor; apply Ascii.eqb_refl | now apply IH].
Qed.

Lemma re_star_any (x : string) : Re.matches (Re.Star ReSub.any) x.
Proof.
  induction x as [|c x IH]; [constructor|].
  change (String c x) with (String c "" ++ x)%string.
  constructor; [now constructor | exact IH].
Qed.

Section Region.

Variable dot : Re.regex.
Variable ok : string -> bool.
Hypothesis dot_ok : forall y, Re.matches (Re.Star dot) y <-> ok y = true.
Variables b e : string.

Lemma region_spec (x : string) :
  Re.matches (ReSub.region dot b e) x <->
  exists y, x = (b ++ y ++ e)%string /\ ok y = true.
Proof.
  unfold ReSub.region. split.
  - intros H. apply re_seq_inv in H. destruct H as (x1 & x2 & -> & H1 & H2).
    apply re_seq_inv in H2. destruct H2 as (y & x3 & -> & Hy & H3).
    apply re_lit_spec in H1, H3. subst. exists y. split; trivial. now apply dot_ok.
  - intros (y & -> & Hy).
    constructor; [now apply re_lit_spec|].
    constructor; [now apply dot_ok | now apply re_lit_spec].
Qed.

(** One region, the first [b] of the text and the first [e] after it, and
    nothing that matches further on: the region is what [re.sub] replaces. *)
Lemma region_sub_single (repl pre old post : string) :
  b <> "" ->
  find b (pre ++ b ++ old ++ e ++ post) = Some (String.length pre) ->
  find e (old ++ e ++ post) = Some (String.length old) ->
  ok old = true ->
  Re.search (ReSub.region dot b e) post = false ->
  ReSub.sub (ReSub.region dot b e) repl (pre ++ b ++ old ++ e ++ post)
  = (pre ++ repl ++ post)%string.
Proof.
  intros Hb Fb Fe Hok Hpost.
  rewrite sub_scan.
  2:{ intros a c p Epre.
      destruct (ReSub.shortest_prefix _ _) as [n|] eqn:E; trivial. exfalso.
      apply shortest_prefix_matches in E. apply re_match_prefix_spec in E.
      destruct E as (x & t & Ex & Hx). apply region_spec in Hx.
      destruct Hx as (y & -> & _).
      assert (L := find_first _ _ _ Fb a (y ++ e ++ t)%string).
      rewrite Epre in L. rewrite str_length_app in L. simpl in L.
      assert (String.length a + S (String.length p) <= String.length a)%nat; [|lia].
      apply L. rewrite !str_app_assoc. f_equal.
      rewrite <- !str_app_assoc in Ex. rewrite <- !str_app_assoc. exact Ex. }
  f_equal.
  replace (b ++ old ++ e ++ post)%string with ((b ++ old ++ e) ++ post)%string
    by now rewrite !str_app_assoc.
  rewrite sub_at_match.
  - rewrite sub_no_match by assumption. reflexivity.
  - destruct b; [now elim Hb | discriminate].
  - apply shortest_prefix_is.
    + apply region_spec. now exists old.
    + intros x' t' Ex Hx'. apply region_spec in Hx'. destruct Hx' as (y & -> & _).
      rewrite !str_app_assoc in Ex. apply str_app_inv_head in Ex.
      assert (L := find_first _ _ _ Fe y t' Ex).
      rewrite !str_length_app. lia.
Qed.

End Region.

Lemma str_app_inv_tail (x y a : string) : (x ++ a = y ++ a)%string -> x = y.
Proof.
  revert y. induction x as [|c x IH]; intros [|d y] H; simpl in H; trivial.
  - exfalso. apply (f_equal String.length) in H. simpl in H.
    rewrite str_length_app in H. lia.
  - exfalso. apply (f_equal String.length) in H. simpl in H.
    rewrite str_length_app in H. lia.
  - injection H as -> H. f_equal. now apply IH.
Qed.

(** X13.  [save] leaves the page alone when it is a scheduled save and
    the shutoff switch is on, whatever the store holds, and when the page
    has no statistics region, that is no [<!-- stat begin -->] with a
    [<!-- stat end -->] after it: in these cases no call of [save] ends in an
    edit. *)
Theorem save_never_edits :
  forall (self : Publisher) (fromIRC : bool) (st : Store),
    (fromIRC = false /\ shutoff_enabled self = true)
    \/ Re.search (ReSub.region ReSub.any stat_begin stat_end)
         (wp_get (get_page (site (task self)) (pagename self))) = false ->
    forall title text edit_summary minor bot,
      save self fromIRC st <> Ok (Edit title text edit_summary minor bot).
Proof.
  intros self fromIRC st H title text edit_summary minor bot.
  assert (P : forall s,
    Re.search (ReSub.region ReSub.any stat_begin stat_end)
      (wp_get (get_page (site (task self)) (pagename self))) = false ->
    res_bind (compile_charts (task self) st) (fun statistics =>
      if has_backslash statistics then Ok TemplateEscape
      else
        if String.eqb
             (ReSub.sub (ReSub.region ReSub.any stat_begin stat_end)
                (stat_begin ++ Py.newline ++ statistics ++ Py.newline ++ stat_end)%string
                (wp_get (get_page (site (task self)) (pagename self))))
             (wp_get (get_page (site (task self)) (pagename self)))
        then Ok NoEdit
        else Ok (Edit (pagename self)
                   (ReSub.sub (ReSub.region Re.dot sig_begin sig_end)
                      (sig_begin ++ "~~~ at ~~~~~" ++ sig_end)%string
                      (ReSub.sub (ReSub.region ReSub.any stat_begin stat_end)
                         (stat_begin ++ Py.newline ++ statistics ++ Py.newline
                            ++ stat_end)%string
                         (wp_get (get_page (site (task self)) (pagename self)))))
                   s true true))
    <> Ok (Edit title text edit_summary minor bot)).
  { intros s Hs. destruct (compile_charts (task self) st) as [statistics | e];
      cbn [res_bind]; [|discriminate].
    destruct (has_backslash statistics); [discriminate|].
    rewrite sub_no_match by exact Hs. now rewrite String.eqb_refl. }
  unfold save. destruct H as [[-> ->] | Hs]; [discriminate|].
  destruct fromIRC; [now apply P|].
  destruct (shutoff_enabled self); [discriminate | now apply P].
Qed.

Lemma save_never_edits_witness :
  save (stat_publisher "No regions here." false) true chart_store
  <> Ok (Edit "Template:AFC statistics" "" "" true true).
Proof.
  apply save_never_edits. right. vm_compute. reflexivity.
Defined.

(** X14.  A save that goes ahead (asked for over IRC, or scheduled with
    the shutoff switch off) on a page with one statistics region: when the
    compiled statistics have no backslash, are [statistics], and the region
    already holds them between two newlines, nothing is edited, not even the
    signature; otherwise the page is edited once, as a minor bot edit, with
    the text between the two markers replaced by a newline, the statistics
    and a newline, all text outside the region kept, and then the signature
    substitution applied.  The summary is the configured one, followed by
    [(!earwigbot)] when the save was asked for over IRC. *)
Theorem save_replaces_region :
  forall (self : Publisher) (fromIRC : bool) (st : Store)
         (statistics pre old post : string),
    fromIRC = true \/ shutoff_enabled self = false ->
    compile_charts (task self) st = Ok statistics ->
    has_backslash statistics = false ->
    wp_get (get_page (site (task self)) (pagename self))
      = (pre ++ stat_begin ++ old ++ stat_end ++ post)%string ->
    find stat_begin (pre ++ stat_begin ++ old ++ stat_end ++ post)
      = Some (String.length pre) ->
    find stat_end (old ++ stat_end ++ post) = Some (String.length old) ->
    Re.search (ReSub.region ReSub.any stat_begin stat_end) post = false ->
    save self fromIRC st
    = if String.eqb old (Py.newline ++ statistics ++ Py.newline)
      then Ok NoEdit
      else Ok (Edit (pagename self)
                 (ReSub.sub (ReSub.region Re.dot sig_begin sig_end)
                    (sig_begin ++ "~~~ at ~~~~~" ++ sig_end)
                    (pre ++ stat_begin ++ Py.newline ++ statistics ++ Py.newline
                       ++ stat_end ++ post))
                 (if fromIRC then summary self ++ " (!earwigbot)" else summary self)
                 true true).
Proof.
  intros self fromIRC st statistics pre old post Hgo Hc Hb Htext Fb Fe Hpost.
  assert (Hsub :
    ReSub.sub (ReSub.region ReSub.any stat_begin stat_end)
      (stat_begin ++ Py.newline ++ statistics ++ Py.newline ++ stat_end)
      (pre ++ stat_begin ++ old ++ stat_end ++ post)
    = (pre ++ stat_begin ++ Py.newline ++ statistics ++ Py.newline
         ++ stat_end ++ post)%string).
  { rewrite (region_sub_single ReSub.any (fun _ => true)); trivial.
    - now rewrite !str_app_assoc.
    - intros y. split; trivial. intros _. apply re_star_any.
    - discriminate. }
  assert (Heq :
    String.eqb (pre ++ stat_begin ++ Py.newline ++ statistics ++ Py.newline
                  ++ stat_end ++ post)
               (pre ++ stat_begin ++ old ++ stat_end ++ post)
    = String.eqb old (Py.newline ++ statistics ++ Py.newline)).
  { destruct (String.eqb_spec old (Py.newline ++ statistics ++ Py.newline)) as [-> | N].
    - rewrite !str_app_assoc. apply String.eqb_refl.
    - apply String.eqb_neq. intros E. apply N.
      apply str_app_inv_head in E. apply str_app_inv_head in E.
      rewrite <- !str_app_assoc in E. apply str_app_inv_tail in E.
      apply str_app_inv_tail in E. rewrite str_app_assoc in E. now symmetry. }
  unfold save. rewrite Hc. cbn [res_bind]. rewrite Hb, Htext, Hsub, Heq.
  destruct Hgo as [-> | ->].
  - destruct (String.eqb old _); reflexivity.
  - destruct fromIRC; destruct (String.eqb old _); reflexivity.
Qed.

Lemma save_replaces_region_witness :
  exists text,
    save (stat_publisher stat_page_text true) true chart_store
    = Ok (Edit "Template:AFC statistics" text
               "Updating statistics. (!earwigbot)" true true).
Proof.
  eexists.
  rewrite (save_replaces_region (stat_publisher stat_page_text true) true chart_store
             (payload chart_task Py.truthy_opt chart_store)
             ("Submissions" ++ Py.newline) "stale"
             (Py.newline ++ sig_begin ++ "Bot at noon" ++ sig_end)).
  - vm_compute. reflexivity.
  - now left.
  - vm_compute. reflexivity.
  - vm_compute. reflexivity.
  - vm_compute. reflexivity.
  - vm_compute. reflexivity.
  - vm_compute. reflexivity.
  - vm_compute. reflexivity.
Defined.

(** X15.  The signature substitution of [save], which runs without
    [re.DOTALL].  A text in which every stretch from [<!-- sig begin -->] to
    a [<!-- sig end -->] runs over a line break comes back unchanged: such a
    signature is never refreshed.  In a text with one signature region whose
    content is on one line, that content, and nothing else, is replaced by
    [~~~ at ~~~~~]. *)
Theorem signature_substitution :
  let stamp :=
    ReSub.sub (ReSub.region Re.dot sig_begin sig_end)
              (sig_begin ++ "~~~ at ~~~~~" ++ sig_end) in
  (forall text,
     (forall pre y post,
        text = (pre ++ sig_begin ++ y ++ sig_end ++ post)%string ->
        one_line y = false) ->
     stamp text = text)
  /\ (forall pre old post,
        find sig_begin (pre ++ sig_begin ++ old ++ sig_end ++ post)
          = Some (String.length pre) ->
        find sig_end (old ++ sig_end ++ post) = Some (String.length old) ->
        one_line old = true ->
        Re.search (ReSub.region Re.dot sig_begin sig_end) post = false ->
        stamp (pre ++ sig_begin ++ old ++ sig_end ++ post)
        = (pre ++ sig_begin ++ "~~~ at ~~~~~" ++ sig_end ++ post)%string).
Proof.
  cbv zeta. split.
  - intros text H. apply sub_no_match.
    destruct (Re.search _ text) eqn:S; trivial. exfalso.
    apply re_search_spec in S. destruct S as (pre & x & post & -> & Hx).
    apply (region_spec Re.dot one_line re_star_dot_spec) in Hx.
    destruct Hx as (y & -> & Hy).
    rewrite (H pre y post) in Hy; [discriminate|]. now rewrite !str_app_assoc.
  - intros pre old post Fb Fe Hok Hpost.
    rewrite (region_sub_single Re.dot one_line re_star_dot_spec); trivial.
    discriminate.
Qed.

(** ** The [time] command *)

(** X16.  The command answers every line with exactly one message.  Only
    the command word and the first argument count: further arguments are
    ignored, and no argument is the same as [UTC].  A line whose command is
    [beats] or [swatch] gets the beats reply whatever its arguments and
    whether or not [pytz] is there; so does [time beats] and [time swatch].
    Every other line goes to the time-zone lookup, and without [pytz] it is
    answered with the hint to install the module, for every zone name. *)
Theorem process_replies_once :
  forall (env : TimeCommand.Env) (data : TimeCommand.Data),
    let first := match TimeCommand.args data with a :: _ => [a] | [] => [] end in
    let asks_beats :=
      Py.mem (TimeCommand.command data) ["beats"; "swatch"]
      || match TimeCommand.args data with
         | a :: _ => Py.mem a ["beats"; "swatch"]
         | [] => false
         end in
    (exists msg, TimeCommand.process env data = [msg])
    /\ TimeCommand.process env data
       = TimeCommand.process env
           {| TimeCommand.command := TimeCommand.command data;
              TimeCommand.args := first |}
    /\ (TimeCommand.args data = [] ->
        TimeCommand.process env data
        = TimeCommand.process env
            {| TimeCommand.command := TimeCommand.command data;
               TimeCommand.args := ["UTC"] |})
    /\ (asks_beats = true ->
        TimeCommand.process env data = TimeCommand.do_beats env data)
    /\ (asks_beats = false -> TimeCommand.pytz env = None ->
        TimeCommand.process env data
        = ["this command requires the 'pytz' module: http://pytz.sourceforge.net/"])
    /\ (asks_beats = false -> forall tz, TimeCommand.pytz env = Some tz ->
        forall zone, zone = match TimeCommand.args data with a :: _ => a | [] => "UTC" end ->
        TimeCommand.process env data
        = match tz zone with
          | TimeCommand.Known now => [now]
          | TimeCommand.Unknown => ["unknown timezone: " ++ zone ++ "."]
          end).
Proof.
  intros env [cmd ar]. cbv zeta. unfold TimeCommand.process.
  cbn [TimeCommand.command TimeCommand.args].
  assert (One : forall zone, exists msg, TimeCommand.do_time env
                  {| TimeCommand.command := cmd; TimeCommand.args := ar |} zone = [msg]).
  { intros zone. unfold TimeCommand.do_time.
    destruct (TimeCommand.pytz env) as [tz|]; [destruct (tz zone)|]; eauto. }
  destruct (Py.mem cmd ["beats"; "swatch"]) eqn:Ec; cbn [orb].
  - repeat split; try discriminate; trivial.
    unfold TimeCommand.do_beats. eauto.
  - destruct ar as [|a rest].
    + change (Py.mem "UTC" ["beats"; "swatch"]) with false. cbv iota.
      split; [apply One|]. unfold TimeCommand.do_time.
      repeat split; trivial; try discriminate.
      * intros _ ->. reflexivity.
      * intros _ tz -> zone ->. reflexivity.
    + destruct (Py.mem a ["beats"; "swatch"]) eqn:Ea.
      * repeat split; try discriminate; trivial.
        unfold TimeCommand.do_beats. eauto.
      * split; [apply One|]. unfold TimeCommand.do_time.
        repeat split; trivial; try discriminate.
        -- intros _ ->. reflexivity.
        -- intros _ tz -> zone ->. reflexivity.
Qed.

Lemma beats_reply_table :
  forallb (fun n => beats_reply_ok (Z.of_nat n)
             [ ("@" ++ TimeCommand.pad_left "0"%char 3 (Py.str_int (Z.of_nat n)))%string ])
          (seq 0 1000) = true.
Proof. vm_compute. reflexivity. Qed.

(** X17.  For a beat count between 0 and 999 the beats reply is [@]
    followed by exactly three characters, and these are the decimal digits
    of the count, padded with zeros on the left: read back as a number they
    give the count. *)
Theorem do_beats_format :
  forall (env : TimeCommand.Env) (data : TimeCommand.Data),
    0 <= TimeCommand.beats env < 1000 ->
    exists s,
      TimeCommand.do_beats env data = [String "@"%char s]
      /\ String.length s = 3%nat
      /\ int_of_str s = Some (TimeCommand.beats env).
Proof.
  intros env data Hb.
  pose proof (proj1 (forallb_forall _ _) beats_reply_table
                (Z.to_nat (TimeCommand.beats env))) as H.
  cbv beta in H. rewrite Z2Nat.id in H by lia.
  assert (Hin : In (Z.to_nat (TimeCommand.beats env)) (seq 0 1000)).
  { apply in_seq. lia. }
  specialize (H Hin). unfold TimeCommand.do_beats.
  set (s := TimeCommand.pad_left "0"%char 3 (Py.str_int (TimeCommand.beats env))) in *.
  exists s. change ("@" ++ s)%string with (String "@"%char s) in *.
  unfold beats_reply_ok in H.
  apply andb_true_iff in H. destruct H as [H H3].
  apply andb_true_iff in H. destruct H as [_ H2].
  apply Nat.eqb_eq in H2.
  destruct (int_of_str s) as [m|]; [|discriminate].
  apply Z.eqb_eq in H3. subst m. auto.
Qed.

Lemma do_beats_format_witness :
  exists s,
    TimeCommand.do_beats {| TimeCommand.pytz := None; TimeCommand.beats := 42 |}
      {| TimeCommand.command := "beats"; TimeCommand.args := [] |}
    = [String "@"%char s]
    /\ String.length s = 3%nat /\ int_of_str s = Some 42.
Proof.
  apply (do_beats_format {| TimeCommand.pytz := None; TimeCommand.beats := 42 |}).
  simpl. lia.
Defined.

(** ** How far the sweep gets *)

(** X18.  The sweep gets past its first pass on an empty page table
    only.  On any other store it raises [InterfaceError] there and leaves
    the cursor as it was: no record is refreshed, purged or aged out.  On an
    empty page table passes 1 and 2 have nothing to do; the sweep then
    returns after the retention DELETE, which finds nothing to remove, when
    the pending category holds no new submission, and raises [IndexError] or
    [NameError] in pass 3 when it holds one. *)
Theorem sync_outcome :
  forall (self : Task) (c : Cursor),
    (tbl_page (db c) <> [] -> sync self c = (Raise InterfaceError, c))
    /\ (tbl_page (db c) = [] -> new_submissions self (db c) = [] ->
        sync self c = (Ok tt, {| db := db c; log := (log c ++ [DeleteOld])%list |}))
    /\ (tbl_page (db c) = [] -> new_submissions self (db c) <> [] ->
        exists e, (e = IndexError \/ e = NameError) /\ sync self c = (Raise e, c)).
Proof.
  intros self c.
  assert (E1 := sync_deleted_steps self c).
  destruct (tbl_page (db c)) as [|p ps] eqn:Ep.
  - assert (E2 : sync_oldids self c = (Ok tt, c)).
    { unfold sync_oldids, bind, select, q_oldids. now rewrite Ep. }
    assert (E4 : sync_old self c
                 = (Ok tt, {| db := db c; log := (log c ++ [DeleteOld])%list |})).
    { unfold sync_old, execute. cbn [exec]. do 3 f_equal.
      apply delete_join_noop. intros q r Hq. rewrite Ep in Hq. destruct Hq. }
    assert (E3 : sync_pending self c
                 = for_each (category_members (site self) (pending_cat self) 500)
                     (fun page =>
                        if Py.mem page (ignore_list self) then ret tt
                        else when (negb (Py.mem page (q_pending_titles (db c))))
                                  (track_page self page)) c) by reflexivity.
    unfold new_submissions.
    destruct (sync_pending_loop self (q_pending_titles (db c))
                (category_members (site self) (pending_cat self) 500) c)
      as [[Hf L] | [Hf L]]; rewrite <- E3 in L.
    + split; [intros N; now elim N|]. split; [|intros _ N; now elim N].
      intros _ _. unfold sync, bind. now rewrite E1, E2, L.
    + split; [intros N; now elim N|]. split; [intros _ F; now elim Hf|].
      intros _ _. destruct L as [L | L].
      * exists IndexError. split; [now left|]. unfold sync, bind. now rewrite E1, E2, L.
      * exists NameError. split; [now right|]. unfold sync, bind. now rewrite E1, E2, L.
  - split; [|split; intros H; discriminate H].
    intros _. unfold sync, bind. now rewrite E1.
Qed.

(** ** What untracking removes *)


(** ** The bucket follows the status text only *)

Lemma execute_all_rows (self : Task) (qs : list Stmt) (c : Cursor) :
  Forall keeps_rows qs -> tbl_row (db (execute_all self qs c)) = tbl_row (db c).
Proof.
  intros H. revert c. induction H as [|q qs Hq _ IH]; intros c; trivial.
  change (execute_all self (q :: qs) c)
    with (execute_all self qs (snd (execute self q c))).
  rewrite IH. destruct q; simpl in Hq; try contradiction; reflexivity.
Qed.

Lemma diff_stmts_keeps_rows title short size m_user m_time m_id status chart
  special notes (pageid : Z) (result : PageRow) :
  Py.eqb_opt String.eqb status (page_status result) = true ->
  Forall keeps_rows
    (diff_stmts title short size m_user m_time m_id status chart special notes
       pageid result).
Proof.
  intros E. unfold diff_stmts. rewrite E. cbn [negb app].
  destruct (negb (String.eqb title (page_title result)));
  destruct (negb (m_id =? page_modify_oldid result));
  destruct (negb (Py.eqb_opt String.eqb notes (page_notes result)));
  simpl; repeat constructor.
Qed.

(** X20.  [update_page] writes the bucket together with the status and
    never on its own: when the classifier gives the page the status its
    record already has, table [row] is left exactly as it was, whatever
    bucket the classifier names.  Buckets 1 and 2 share the status [pend], so
    a pending submission that is put on hold, or taken off hold, stays in
    its old bucket. *)
Theorem update_page_keeps_bucket :
  forall (self : Task) (title : string) (c : Cursor)
         (result : PageRow) (rr : RowRow) (rest : list (PageRow * RowRow)),
    let page := get_page (site self) title in
    let status := fst (get_status_and_chart (get_page (site self)) page) in
    Py.truthy_opt status = true ->
    q_join_by_id (wp_pageid page) (db c) = (result, rr) :: rest ->
    page_status result = status ->
    tbl_row (db (snd (update_page self title c))) = tbl_row (db c).
Proof.
  intros self title c result rr rest page status Ht Q Es.
  rewrite update_page_steps. cbv zeta. fold page. fold status.
  rewrite Ht. cbn [negb when ret snd].
  destruct (get_modify self (wp_pageid page)) as [[[m_user m_time] m_id] | e];
    [|reflexivity].
  rewrite Q. cbn [fst snd]. apply execute_all_rows.
  apply diff_stmts_keeps_rows. rewrite Es. apply eqb_opt_string_refl.
Qed.

Lemma update_page_keeps_bucket_witness :
  get_status_and_chart (get_page (site held_task)) (get_page (site held_task) "Draft")
  = (Some "pend", 2)
  /\ fst (update_page held_task "Draft" {| db := pending_store; log := [] |}) = Ok tt
  /\ tbl_row (db (snd (update_page held_task "Draft"
                         {| db := pending_store; log := [] |})))
     = [ {| row_id := 7; row_chart := 1 |} ].
Proof.
  split; [vm_compute; reflexivity|]. split; [vm_compute; reflexivity|].
  rewrite (update_page_keeps_bucket held_task "Draft" {| db := pending_store; log := [] |}
             (mk_page 7 (Some "pend") "Draft" 10) {| row_id := 7; row_chart := 1 |} []).
  - reflexivity.
  - vm_compute. reflexivity.
  - vm_compute. reflexivity.
  - vm_compute. reflexivity.
Defined.
